(** * A shallow embedding of the tactical board game servers

    The repository holds three variants of one socket.io game server:

    - [Basic]   the 6x7 server (fixed board, ruleset toggles);
    - [Sized]   the 6x7 server with board size options;
    - [Empires] the Ancient Empires server (7x7 board, nations).

    Every JavaScript function is written as a function on explicit state.
    A handler takes the room it is called on and yields the room it leaves
    behind together with the events it emitted, in emission order.  A
    [TypeError] raised by indexing [undefined] or [null] is the [Throw]
    outcome of the [Js] monad.

    Numeric properties are JavaScript numbers: a property that is missing
    reads [undefined], arithmetic on [undefined] gives [NaN], and every
    comparison with [undefined] or [NaN] is false.  The catalogs of the
    servers are object literals, so a lookup under a name that every
    object inherits finds an object without the catalog's properties. *)

From stdpp Require Import base option list gmap strings pretty.
From Stdlib Require Import ZArith.

Local Open Scope string_scope.
Local Open Scope list_scope.
Local Open Scope Z_scope.

(** ** Exceptions *)

Inductive Js (A : Type) : Type :=
| Ret (a : A)
| Throw.

Arguments Ret {A} a.
Arguments Throw {A}.

#[global] Instance Js_ret : MRet Js := @Ret.
#[global] Instance Js_bind : MBind Js := fun A B f m =>
  match m with
  | Ret a => f a
  | Throw => Throw
  end.

(** ** JavaScript [Map]: insertion ordered, one entry per key *)

Section JsMap.
Context {K V : Type} `{EqDecision K}.

Fixpoint mapGet (k : K) (m : list (K * V)) : option V :=
  match m with
  | [] => None
  | (k', v) :: m' => if decide (k' = k) then Some v else mapGet k m'
  end.

Definition mapHas (k : K) (m : list (K * V)) : bool :=
  bool_decide (is_Some (mapGet k m)).

(** [set] keeps the position of a key that is already present. *)
Fixpoint mapSet (k : K) (v : V) (m : list (K * V)) : list (K * V) :=
  match m with
  | [] => [(k, v)]
  | (k', v') :: m' =>
      if decide (k' = k) then (k, v) :: m' else (k', v') :: mapSet k v m'
  end.

Definition mapDelete (k : K) (m : list (K * V)) : list (K * V) :=
  filter (fun kv => kv.1 ≠ k) m.

Definition mapSize (m : list (K * V)) : Z := Z.of_nat (length m).

Definition mapValues (m : list (K * V)) : list V := m.*2.
End JsMap.

(** ** Numbers that may be [NaN] *)

Inductive Num : Type :=
| Int (z : Z)
| NaN.

#[global] Instance Num_eq_dec : EqDecision Num.
Proof. solve_decision. Defined.

(** [x--] on a property: a missing property reads [undefined], and
    [undefined - 1] is [NaN]. *)
Definition decrement (x : option Num) : Num :=
  match x with
  | Some (Int z) => Int (z - 1)
  | _ => NaN
  end.

(** [x - d] and [x <= n] on a property that may be missing. *)
Definition minus (x : option Num) (d : Z) : Num :=
  match x with
  | Some (Int z) => Int (z - d)
  | _ => NaN
  end.

Definition atMost (x : option Num) (n : Z) : bool :=
  match x with
  | Some (Int z) => bool_decide (z ≤ n)
  | _ => false
  end.

Arguments minus : simpl never.
Arguments atMost : simpl never.

Definition numAdd (a b : Num) : Num :=
  match a, b with
  | Int x, Int y => Int (x + y)
  | _, _ => NaN
  end.

(** [n >= q] and [n !== q] for an integer [n]; comparisons with [NaN]
    are false, [!==] with [NaN] is true. *)
Definition geNum (n : Z) (q : Num) : bool :=
  match q with
  | Int z => bool_decide (z ≤ n)
  | NaN => false
  end.

Definition neNum (n : Z) (q : Num) : bool :=
  match q with
  | Int z => negb (bool_decide (n = z))
  | NaN => true
  end.

(** ** Names that every object inherits *)

(** The properties of [Object.prototype].  In an object literal
    [o[key]] for one of these names is a function (for [__proto__] the
    prototype object), whatever the literal lists: it is not [undefined],
    it is not [0], and it has none of the properties of a catalog
    entry. *)
Definition inherited (key : string) : bool :=
  bool_decide (key ∈ ["constructor"; "__defineGetter__"; "__defineSetter__";
                      "hasOwnProperty"; "__lookupGetter__"; "__lookupSetter__";
                      "isPrototypeOf"; "propertyIsEnumerable"; "toString";
                      "valueOf"; "__proto__"; "toLocaleString"]).

(** [object[key] = v] for a number [v]: the assignment adds or replaces
    an own property, except under [__proto__], whose setter ignores a
    value that is not an object. *)
Definition assign (key : string) (v : Num) (object : gmap string Num)
  : gmap string Num :=
  if String.eqb key "__proto__" then object else <[key := v]> object.

(** ** Pieces and boards *)

Definition SocketId := string.

(** A piece object.  [health] and [maxHealth] are [undefined] ([None])
    on a piece whose type has no entry of its own in the catalog,
    [ammo] is absent ([None]) on pieces without ammunition,
    [chargeDirection] is [None] both when the property is missing and
    when it is [null].  [nation] and [placedInTurn] exist only in the
    Ancient Empires server and stay [None] elsewhere. *)
Record Piece : Type := mkPiece {
  type : string;
  player : Z;
  health : option Num;
  maxHealth : option Num;
  hasBeenReplenished : bool;
  ammo : option Num;
  chargeDirection : option (Z * Z);
  nation : option string;
  placedInTurn : option Z
}.

#[global] Instance Piece_eq_dec : EqDecision Piece.
Proof. solve_decision. Defined.

Definition set_health (h : option Num) (p : Piece) : Piece :=
  mkPiece (type p) (player p) h (maxHealth p) (hasBeenReplenished p)
          (ammo p) (chargeDirection p) (nation p) (placedInTurn p).

Definition set_hasBeenReplenished (b : bool) (p : Piece) : Piece :=
  mkPiece (type p) (player p) (health p) (maxHealth p) b
          (ammo p) (chargeDirection p) (nation p) (placedInTurn p).

Definition set_ammo (a : option Num) (p : Piece) : Piece :=
  mkPiece (type p) (player p) (health p) (maxHealth p) (hasBeenReplenished p)
          a (chargeDirection p) (nation p) (placedInTurn p).

Definition set_chargeDirection (d : option (Z * Z)) (p : Piece) : Piece :=
  mkPiece (type p) (player p) (health p) (maxHealth p) (hasBeenReplenished p)
          (ammo p) d (nation p) (placedInTurn p).

(** The board is an array of [height] row arrays.  [board[r][c]] for an
    existing row [r] is the entry at key [(r, c)]; an absent key is a
    [null] or [undefined] cell.  Row arrays are ordinary JavaScript
    arrays: a write to a column past the end adds the element.  Rows
    outside [0 .. height-1] do not exist, so indexing them raises. *)
Abbreviation Board := (gmap (Z * Z) Piece).

Definition rowExists (height r : Z) : bool := bool_decide (0 ≤ r < height).

Definition readCell (height : Z) (b : Board) (r c : Z) : Js (option Piece) :=
  if rowExists height r then Ret (b !! (r, c)) else Throw.

Definition writeCell (height : Z) (b : Board) (r c : Z) (v : option Piece)
  : Js Board :=
  if rowExists height r
  then Ret (match v with Some p => <[(r, c) := p]> b | None => delete (r, c) b end)
  else Throw.

Definition distance (fromRow fromCol toRow toCol : Z) : Z :=
  Z.abs (fromRow - toRow) + Z.abs (fromCol - toCol).

(** The cells visited by [for row < height] / [for col < width]. *)
Definition boardCells (height width : Z) : list (Z * Z) :=
  r ← seqZ 0 height; c ← seqZ 0 width; [(r, c)].

(** ** Events sent to clients *)

Inductive Event : Type :=
| GameMessage (message : string) (kind : string)
| GameStateUpdate
| PlayerListUpdate
| PlayerAssigned (to : SocketId) (playerNumber : Z) (playerName : string)
| JoinedAsSpectator (to : SocketId)
| ErrorTo (to : SocketId) (reason : string).

#[global] Instance Event_eq_dec : EqDecision Event.
Proof. solve_decision. Defined.

Definition isError (e : Event) : bool :=
  match e with
  | GameMessage _ k => String.eqb k "error"
  | _ => false
  end.

Record Player : Type := mkPlayer {
  socket_id : SocketId;
  playerNumber : Z;
  name : string
}.

#[global] Instance Player_eq_dec : EqDecision Player.
Proof. solve_decision. Defined.

(** ** The 6x7 server *)

Module Basic.

Record GameState : Type := mkGameState {
  currentPlayer : Z;
  gamePhase : string;
  placementTurn : Z;
  piecesPlacedThisTurn : Z;
  hasMoved : bool;
  hasAttacked : bool;
  gameEnded : bool;
  winner : option Z;
  board : Board;
  player1Pieces : gmap string Num;
  player2Pieces : gmap string Num;
  lineOfSightEnabled : bool;
  limitedRangeEnabled : bool;
  selectedPiece : option Piece;
  selectedCell : option (Z * Z)
}.

Definition set_currentPlayer (v : Z) (s : GameState) : GameState :=
  mkGameState v (gamePhase s) (placementTurn s) (piecesPlacedThisTurn s)
    (hasMoved s) (hasAttacked s) (gameEnded s) (winner s) (board s)
    (player1Pieces s) (player2Pieces s) (lineOfSightEnabled s)
    (limitedRangeEnabled s) (selectedPiece s) (selectedCell s).

Definition set_gamePhase (v : string) (s : GameState) : GameState :=
  mkGameState (currentPlayer s) v (placementTurn s) (piecesPlacedThisTurn s)
    (hasMoved s) (hasAttacked s) (gameEnded s) (winner s) (board s)
    (player1Pieces s) (player2Pieces s) (lineOfSightEnabled s)
    (limitedRangeEnabled s) (selectedPiece s) (selectedCell s).

Definition set_placementTurn (v : Z) (s : GameState) : GameState :=
  mkGameState (currentPlayer s) (gamePhase s) v (piecesPlacedThisTurn s)
    (hasMoved s) (hasAttacked s) (gameEnded s) (winner s) (board s)
    (player1Pieces s) (player2Pieces s) (lineOfSightEnabled s)
    (limitedRangeEnabled s) (selectedPiece s) (selectedCell s).

Definition set_piecesPlacedThisTurn (v : Z) (s : GameState) : GameState :=
  mkGameState (currentPlayer s) (gamePhase s) (placementTurn s) v
    (hasMoved s) (hasAttacked s) (gameEnded s) (winner s) (board s)
    (player1Pieces s) (player2Pieces s) (lineOfSightEnabled s)
    (limitedRangeEnabled s) (selectedPiece s) (selectedCell s).

Definition set_hasMoved (v : bool) (s : GameState) : GameState :=
  mkGameState (currentPlayer s) (gamePhase s) (placementTurn s)
    (piecesPlacedThisTurn s) v (hasAttacked s) (gameEnded s) (winner s)
    (board s) (player1Pieces s) (player2Pieces s) (lineOfSightEnabled s)
    (limitedRangeEnabled s) (selectedPiece s) (selectedCell s).

Definition set_hasAttacked (v : bool) (s : GameState) : GameState :=
  mkGameState (currentPlayer s) (gamePhase s) (placementTurn s)
    (piecesPlacedThisTurn s) (hasMoved s) v (gameEnded s) (winner s)
    (board s) (player1Pieces s) (player2Pieces s) (lineOfSightEnabled s)
    (limitedRangeEnabled s) (selectedPiece s) (selectedCell s).

Definition set_gameEnded (v : bool) (s : GameState) : GameState :=
  mkGameState (currentPlayer s) (gamePhase s) (placementTurn s)
    (piecesPlacedThisTurn s) (hasMoved s) (hasAttacked s) v (winner s)
    (board s) (player1Pieces s) (player2Pieces s) (lineOfSightEnabled s)
    (limitedRangeEnabled s) (selectedPiece s) (selectedCell s).

Definition set_winner (v : option Z) (s : GameState) : GameState :=
  mkGameState (currentPlayer s) (gamePhase s) (placementTurn s)
    (piecesPlacedThisTurn s) (hasMoved s) (hasAttacked s) (gameEnded s) v
    (board s) (player1Pieces s) (player2Pieces s) (lineOfSightEnabled s)
    (limitedRangeEnabled s) (selectedPiece s) (selectedCell s).

Definition set_board (v : Board) (s : GameState) : GameState :=
  mkGameState (currentPlayer s) (gamePhase s) (placementTurn s)
    (piecesPlacedThisTurn s) (hasMoved s) (hasAttacked s) (gameEnded s)
    (winner s) v (player1Pieces s) (player2Pieces s) (lineOfSightEnabled s)
    (limitedRangeEnabled s) (selectedPiece s) (selectedCell s).

Definition set_player1Pieces (v : gmap string Num) (s : GameState) : GameState :=
  mkGameState (currentPlayer s) (gamePhase s) (placementTurn s)
    (piecesPlacedThisTurn s) (hasMoved s) (hasAttacked s) (gameEnded s)
    (winner s) (board s) v (player2Pieces s) (lineOfSightEnabled s)
    (limitedRangeEnabled s) (selectedPiece s) (selectedCell s).

Definition set_player2Pieces (v : gmap string Num) (s : GameState) : GameState :=
  mkGameState (currentPlayer s) (gamePhase s) (placementTurn s)
    (piecesPlacedThisTurn s) (hasMoved s) (hasAttacked s) (gameEnded s)
    (winner s) (board s) (player1Pieces s) v (lineOfSightEnabled s)
    (limitedRangeEnabled s) (selectedPiece s) (selectedCell s).

Definition set_lineOfSightEnabled (v : bool) (s : GameState) : GameState :=
  mkGameState (currentPlayer s) (gamePhase s) (placementTurn s)
    (piecesPlacedThisTurn s) (hasMoved s) (hasAttacked s) (gameEnded s)
    (winner s) (board s) (player1Pieces s) (player2Pieces s) v
    (limitedRangeEnabled s) (selectedPiece s) (selectedCell s).

Definition set_limitedRangeEnabled (v : bool) (s : GameState) : GameState :=
  mkGameState (currentPlayer s) (gamePhase s) (placementTurn s)
    (piecesPlacedThisTurn s) (hasMoved s) (hasAttacked s) (gameEnded s)
    (winner s) (board s) (player1Pieces s) (player2Pieces s)
    (lineOfSightEnabled s) v (selectedPiece s) (selectedCell s).

Definition set_selectedPiece (v : option Piece) (s : GameState) : GameState :=
  mkGameState (currentPlayer s) (gamePhase s) (placementTurn s)
    (piecesPlacedThisTurn s) (hasMoved s) (hasAttacked s) (gameEnded s)
    (winner s) (board s) (player1Pieces s) (player2Pieces s)
    (lineOfSightEnabled s) (limitedRangeEnabled s) v (selectedCell s).

Definition set_selectedCell (v : option (Z * Z)) (s : GameState) : GameState :=
  mkGameState (currentPlayer s) (gamePhase s) (placementTurn s)
    (piecesPlacedThisTurn s) (hasMoved s) (hasAttacked s) (gameEnded s)
    (winner s) (board s) (player1Pieces s) (player2Pieces s)
    (lineOfSightEnabled s) (limitedRangeEnabled s) (selectedPiece s) v.

Record GameRoom : Type := mkGameRoom {
  roomId : string;
  players : list (SocketId * Player);
  gameState : GameState;
  spectators : gset SocketId
}.

Definition set_players (v : list (SocketId * Player)) (r : GameRoom) : GameRoom :=
  mkGameRoom (roomId r) v (gameState r) (spectators r).

Definition set_gameState (v : GameState) (r : GameRoom) : GameRoom :=
  mkGameRoom (roomId r) (players r) v (spectators r).

Definition set_spectators (v : gset SocketId) (r : GameRoom) : GameRoom :=
  mkGameRoom (roomId r) (players r) (gameState r) v.

Definition height : Z := 7.
Definition width : Z := 6.

Definition startingPieces : gmap string Num :=
  list_to_map [("General", Int 1); ("Cavalry", Int 2); ("Heavy Infantry", Int 2);
               ("Light Infantry", Int 2); ("Archer", Int 1)].

Definition initializeGameState : GameState :=
  {| currentPlayer := 1;
     gamePhase := "waiting";
     placementTurn := 1;
     piecesPlacedThisTurn := 0;
     hasMoved := false;
     hasAttacked := false;
     gameEnded := false;
     winner := None;
     board := ∅;
     player1Pieces := startingPieces;
     player2Pieces := startingPieces;
     lineOfSightEnabled := false;
     limitedRangeEnabled := false;
     selectedPiece := None;
     selectedCell := None |}.

Definition newGameRoom (id : string) : GameRoom :=
  {| roomId := id; players := []; gameState := initializeGameState;
     spectators := ∅ |}.

Definition getPlayerName (r : GameRoom) (n : Z) : string :=
  match list_find (fun p => playerNumber p = n) (mapValues (players r)) with
  | Some (_, p) => name p
  | None => "Player " +:+ pretty n
  end.

Definition getPlayerBySocketId (r : GameRoom) (sid : SocketId) : option Player :=
  mapGet sid (players r).

Definition isPlayerTurn (r : GameRoom) (sid : SocketId) : bool :=
  match getPlayerBySocketId r sid with
  | Some p => bool_decide (playerNumber p = currentPlayer (gameState r))
  | None => false
  end.

(** [addPlayer] returns the room, what was emitted, and its boolean. *)
Definition addPlayer (r : GameRoom) (sid : SocketId) (playerName : string)
  : GameRoom * list Event * bool :=
  if bool_decide (2 ≤ mapSize (players r)) then
    (set_spectators ({[sid]} ∪ spectators r) r,
     [JoinedAsSpectator sid; GameStateUpdate], false)
  else
    let n := mapSize (players r) + 1 in
    let r1 := set_players (mapSet sid (mkPlayer sid n playerName) (players r)) r in
    let '(r2, started) :=
      if bool_decide (mapSize (players r1) = 2)
      then (set_gameState (set_gamePhase "placement" (gameState r1)) r1,
            [GameMessage ("Game started! " +:+ getPlayerName r1 1 +:+ " goes first.") "info"])
      else (r1, []) in
    (r2, PlayerAssigned sid n playerName :: started ++ [GameStateUpdate; PlayerListUpdate],
     true).

Definition removePlayer (r : GameRoom) (sid : SocketId)
  : GameRoom * list Event * bool :=
  match mapGet sid (players r) with
  | Some leaver =>
      let r1 := set_players (mapDelete sid (players r)) r in
      if bool_decide (mapSize (players r1) = 0) then (r1, [], true)
      else
        let '(r2, evs) :=
          match mapValues (players r1) with
          | [remainingPlayer] =>
              let r' :=
                set_players
                  (mapSet (socket_id remainingPlayer)
                     (mkPlayer (socket_id remainingPlayer) 1 (name remainingPlayer))
                     (players r1)) r1 in
              (set_gameState initializeGameState r',
               [PlayerAssigned (socket_id remainingPlayer) 1 (name remainingPlayer);
                GameMessage (name leaver +:+ " left. Waiting for another player...") "info"])
          | _ => (r1, [])
          end in
        (r2, evs ++ [GameStateUpdate; PlayerListUpdate], false)
  | None =>
      if bool_decide (sid ∈ spectators r)
      then (set_spectators (spectators r ∖ {[sid]}) r, [], false)
      else (r, [], false)
  end.

(** *** Rule engine *)

Definition canMove (piece : Piece) (fromRow fromCol toRow toCol : Z) : bool :=
  if String.eqb (type piece) "Cavalry" then
    let rowDiff := Z.abs (fromRow - toRow) in
    let colDiff := Z.abs (fromCol - toCol) in
    (bool_decide (rowDiff ≤ 2) && bool_decide (colDiff = 0))
    || (bool_decide (rowDiff = 0) && bool_decide (colDiff ≤ 2))
  else
    bool_decide (distance fromRow fromCol toRow toCol = 1).

(** The two [for] loops of [hasLineOfSight]: stop at the first
    occupied cell. *)
Fixpoint scanRow (b : Board) (row : Z) (cols : list Z) : Js bool :=
  match cols with
  | [] => Ret true
  | col :: cols' =>
      cell ← readCell height b row col;
      if bool_decide (is_Some cell) then Ret false else scanRow b row cols'
  end.

Fixpoint scanCol (b : Board) (col : Z) (rows : list Z) : Js bool :=
  match rows with
  | [] => Ret true
  | row :: rows' =>
      cell ← readCell height b row col;
      if bool_decide (is_Some cell) then Ret false else scanCol b col rows'
  end.

(** The indices [lo + 1, ..., hi - 1]. *)
Definition between (lo hi : Z) : list Z := seqZ (lo + 1) (hi - lo - 1).

Definition hasLineOfSight (fromRow fromCol toRow toCol : Z) (b : Board) : Js bool :=
  if bool_decide (fromRow = toRow) then
    scanRow b fromRow (between (Z.min fromCol toCol) (Z.max fromCol toCol))
  else if bool_decide (fromCol = toCol) then
    scanCol b fromCol (between (Z.min fromRow toRow) (Z.max fromRow toRow))
  else Ret true.

(** [piece.ammo > 0]; a missing [ammo] and [NaN] compare false. *)
Definition hasAmmo (piece : Piece) : bool :=
  match ammo piece with
  | Some (Int a) => bool_decide (0 < a)
  | _ => false
  end.

Definition canAttack (piece : Piece) (fromRow fromCol toRow toCol : Z)
    (gs : GameState) : Js bool :=
  target ← readCell height (board gs) toRow toCol;
  match target with
  | None => Ret false
  | Some target =>
      if bool_decide (player target = player piece) then Ret false
      else if String.eqb (type piece) "Archer" then
        let d := distance fromRow fromCol toRow toCol in
        if bool_decide (d = 1) then Ret true
        else if hasAmmo piece
                && (bool_decide (fromRow = toRow) || bool_decide (fromCol = toCol))
        then
          if limitedRangeEnabled gs && bool_decide (4 < d) then Ret false
          else if lineOfSightEnabled gs then
            los ← hasLineOfSight fromRow fromCol toRow toCol (board gs);
            if negb los then Ret false else Ret true
          else Ret true
        else Ret false
      else Ret (bool_decide (distance fromRow fromCol toRow toCol = 1))
  end.

(** What [checkForHealing] does to the piece object, and what it says. *)
Definition shouldHeal (piece : Piece) (row : Z) : bool :=
  ((bool_decide (player piece = 1) && bool_decide (row = 6))
   || (bool_decide (player piece = 2) && bool_decide (row = 0)))
  && negb (hasBeenReplenished piece).

Definition healed (piece : Piece) (row : Z) : Piece :=
  if shouldHeal piece row then
    let p1 := set_hasBeenReplenished true (set_health (maxHealth piece) piece) in
    if String.eqb (type piece) "Archer" then set_ammo (Some (Int 3)) p1 else p1
  else piece.

Definition checkForHealing (r : GameRoom) (piece : Piece) (row : Z)
  : Piece * list Event :=
  (healed piece row,
   if shouldHeal piece row
   then [GameMessage (getPlayerName r (player piece) +:+ "'s " +:+ type piece
                      +:+ " has been replenished!") "success"]
   else []).

Definition unitStep (d : Z) : Z :=
  if bool_decide (d ≠ 0) then (if bool_decide (0 < d) then 1 else -1) else d.

Definition charged (piece : Piece) (fromRow fromCol toRow toCol : Z) : Piece :=
  if String.eqb (type piece) "Cavalry" then
    if bool_decide (distance fromRow fromCol toRow toCol = 2)
    then set_chargeDirection
           (Some (unitStep (toRow - fromRow), unitStep (toCol - fromCol))) piece
    else set_chargeDirection None piece
  else piece.

Definition movePiece (r : GameRoom) (fromRow fromCol toRow toCol : Z)
  : Js (GameRoom * list Event) :=
  let gs := gameState r in
  cell ← readCell height (board gs) fromRow fromCol;
  match cell with
  | None => Throw
  | Some piece =>
      let piece1 := charged piece fromRow fromCol toRow toCol in
      b1 ← writeCell height (board gs) toRow toCol (Some piece1);
      b2 ← writeCell height b1 fromRow fromCol None;
      let '(piece2, evs) := checkForHealing r piece1 toRow in
      (* the object healed is the one now stored in the target cell *)
      let b3 := alter (fun _ => piece2) (toRow, toCol) b2 in
      Ret (set_gameState (set_board b3 gs) r, evs)
  end.

Definition isCharge (attacker target : Piece)
    (attackerRow attackerCol targetRow targetCol : Z) : bool :=
  String.eqb (type attacker) "Cavalry"
  && match chargeDirection attacker with
     | Some (dr, dc) =>
         bool_decide (distance attackerRow attackerCol targetRow targetCol = 1)
         && negb (String.eqb (type target) "Heavy Infantry")
         && bool_decide (targetRow - attackerRow = dr)
         && bool_decide (targetCol - attackerCol = dc)
     | None => false
     end.

Definition attackPiece (r : GameRoom) (attackerRow attackerCol targetRow targetCol : Z)
  : Js (GameRoom * list Event) :=
  let gs := gameState r in
  if gameEnded gs then Ret (r, [])
  else
    attacker ← readCell height (board gs) attackerRow attackerCol;
    target ← readCell height (board gs) targetRow targetCol;
    match target with
    | None => Ret (r, [])
    | Some target =>
        match attacker with
        | None => Throw
        | Some attacker =>
            let d := distance attackerRow attackerCol targetRow targetCol in
            let charge := isCharge attacker target attackerRow attackerCol targetRow targetCol in
            let damage := if charge then 2 else 1 in
            let evs1 := if charge
                        then [GameMessage "Cavalry charge! Double damage!" "success"]
                        else [] in
            let b1 := if String.eqb (type attacker) "Archer" && bool_decide (1 < d)
                      then alter (fun a => set_ammo (Some (decrement (ammo a))) a)
                             (attackerRow, attackerCol) (board gs)
                      else board gs in
            let wasGeneral := String.eqb (type target) "General" in
            let target1 := set_health (Some (minus (health target) damage)) target in
            if atMost (health target1) 0 then
              let gs1 := set_board (delete (targetRow, targetCol) b1) gs in
              if wasGeneral then
                Ret (set_gameState
                       (set_winner (Some (player attacker)) (set_gameEnded true gs1)) r,
                     evs1 ++ [GameMessage (getPlayerName r (player attacker)
                                           +:+ " wins! Enemy General defeated!") "victory"])
              else Ret (set_gameState gs1 r, evs1)
            else
              Ret (set_gameState
                     (set_board (<[(targetRow, targetCol) := target1]> b1) gs) r, evs1)
        end
    end.

(** *** Action handlers *)

(** The entries of the catalog [pieceTypes]: health and ammo. *)
Definition pieceTypes (t : string) : option (Z * option Z) :=
  if String.eqb t "General" then Some (3, None)
  else if String.eqb t "Cavalry" then Some (2, None)
  else if String.eqb t "Heavy Infantry" then Some (3, None)
  else if String.eqb t "Light Infantry" then Some (2, None)
  else if String.eqb t "Archer" then Some (2, Some 3)
  else None.

(** [pieceTypes[t].health] and [pieceTypes[t].ammo]: the numbers of an
    entry; [undefined] twice for a name that the catalog inherits; a
    [TypeError] for any other name, where [pieceTypes[t]] is
    [undefined]. *)
Definition typeStats (t : string) : Js (option Num * option Num) :=
  match pieceTypes t with
  | Some (h, a) => Ret (Some (Int h), Int <$> a)
  | None => if inherited t then Ret (None, None) else Throw
  end.

Definition handlePlacePiece (r : GameRoom) (who : Player)
    (pieceType : string) (row col : Z) : Js (GameRoom * list Event) :=
  let gs := gameState r in
  if negb (isPlayerTurn r (socket_id who))
     || negb (String.eqb (gamePhase gs) "placement")
  then Ret (r, [])
  else if bool_decide (4 ≤ piecesPlacedThisTurn gs)
  then Ret (r, [GameMessage "You can only place 4 pieces per turn!" "error"])
  else
    cell ← readCell height (board gs) row col;
    if bool_decide (is_Some cell)
    then Ret (r, [GameMessage "Cell is already occupied!" "error"])
    else
      let first := bool_decide (playerNumber who = 1) in
      let canPlaceInRow := if first then bool_decide (row ≤ 2) else bool_decide (4 ≤ row) in
      if negb canPlaceInRow
      then Ret (r, [GameMessage
                      ("Player " +:+ pretty (playerNumber who)
                       +:+ " can only place pieces in "
                       +:+ (if first then "top 3" else "bottom 3") +:+ " rows!")
                      "error"])
      else
        let pieces := if first then player1Pieces gs else player2Pieces gs in
        if bool_decide (pieces !! pieceType = Some (Int 0))
        then Ret (r, [GameMessage "No more pieces of this type available!" "error"])
        else
          '(h, a) ← typeStats pieceType;
          let pieceData :=
            mkPiece pieceType (playerNumber who) h h false
              (if String.eqb pieceType "Archer" then a else None)
              None None None in
          b ← writeCell height (board gs) row col (Some pieceData);
          let pieces' := assign pieceType (decrement (pieces !! pieceType)) pieces in
          let gs1 := set_board b gs in
          let gs2 := if first then set_player1Pieces pieces' gs1
                     else set_player2Pieces pieces' gs1 in
          let gs3 := set_piecesPlacedThisTurn (piecesPlacedThisTurn gs + 1) gs2 in
          Ret (set_gameState gs3 r, [GameStateUpdate]).

(** [gameState.X = v] on the room that a callee has just written to. *)
Definition update (f : GameState → GameState) (r : GameRoom) : GameRoom :=
  set_gameState (f (gameState r)) r.

Definition handleSelectCell (r : GameRoom) (who : Player) (row col : Z)
  : Js (GameRoom * list Event) :=
  let gs := gameState r in
  if negb (String.eqb (gamePhase gs) "battle")
     || negb (isPlayerTurn r (socket_id who))
  then Ret (r, [])
  else
    match selectedCell gs with
    | None =>
        piece ← readCell height (board gs) row col;
        match piece with
        | Some piece =>
            if bool_decide (player piece = playerNumber who)
            then Ret (update (set_selectedCell (Some (row, col))) r, [GameStateUpdate])
            else Ret (r, [])
        | None => Ret (r, [])
        end
    | Some (selRow, selCol) =>
        selectedPiece ← readCell height (board gs) selRow selCol;
        targetPiece ← readCell height (board gs) row col;
        if bool_decide (selRow = row) && bool_decide (selCol = col)
        then Ret (update (set_selectedCell None) r, [GameStateUpdate])
        else
          let finish (res : GameRoom * list Event) : Js (GameRoom * list Event) :=
            Ret (update (set_selectedCell None) res.1, res.2 ++ [GameStateUpdate]) in
          let invalid : Js (GameRoom * list Event) :=
            finish (r, [GameMessage "Invalid move or attack!" "error"]) in
          match targetPiece with
          | None =>
              match selectedPiece with
              | None => Throw
              | Some selectedPiece =>
                  if canMove selectedPiece selRow selCol row col then
                    if negb (hasMoved gs) then
                      '(r1, evs) ← movePiece r selRow selCol row col;
                      finish (update (set_hasMoved true) r1,
                              evs ++ [GameMessage
                                "Move completed! You can now attack with any piece."
                                "success"])
                    else
                      finish (r, [GameMessage "You can only move once per turn!" "error"])
                  else invalid
              end
          | Some targetPiece =>
              match selectedPiece with
              | None => Throw
              | Some selectedPiece =>
                  if bool_decide (player targetPiece ≠ player selectedPiece) then
                    ok ← canAttack selectedPiece selRow selCol row col gs;
                    if (ok : bool) then
                      if negb (hasMoved gs) then
                        Ret (update (set_selectedCell None) r,
                             [GameMessage "You must MOVE first before attacking!" "error";
                              GameStateUpdate])
                      else if negb (hasAttacked gs) then
                        '(r1, evs) ← attackPiece r selRow selCol row col;
                        finish (update (set_hasAttacked true) r1, evs)
                      else
                        finish (r, [GameMessage "You can only attack once per turn!" "error"])
                    else invalid
                  else invalid
              end
          end
    end.

(** One iteration of the loop that clears charge directions. *)
Definition clearChargeAt (b : Board) (rc : Z * Z) : Board :=
  match b !! rc with
  | Some piece =>
      if String.eqb (type piece) "Cavalry"
      then <[rc := set_chargeDirection None piece]> b
      else b
  | None => b
  end.

Definition clearChargeDirections (b : Board) : Board :=
  foldl clearChargeAt b (boardCells 7 6).

Definition handleEndTurn (r : GameRoom) (who : Player)
  : Js (GameRoom * list Event) :=
  let gs := gameState r in
  if negb (isPlayerTurn r (socket_id who)) then Ret (r, [])
  else if String.eqb (gamePhase gs) "placement"
          && negb (bool_decide (piecesPlacedThisTurn gs = 4))
  then Ret (r, [GameMessage
                  "You must place exactly 4 pieces before ending your turn!" "error"])
  else
    let gs1 := set_hasAttacked false
                 (set_hasMoved false
                    (set_selectedCell None (set_selectedPiece None gs))) in
    let gs2 := set_board (clearChargeDirections (board gs1)) gs1 in
    let '(gs3, evs) :=
      if String.eqb (gamePhase gs2) "placement" then
        let gs' := set_piecesPlacedThisTurn 0 gs2 in
        if bool_decide (currentPlayer gs' = 1) then (set_currentPlayer 2 gs', [])
        else
          let gs'' := set_placementTurn (placementTurn gs' + 1)
                        (set_currentPlayer 1 gs') in
          if bool_decide (2 < placementTurn gs'')
          then (set_gamePhase "battle" gs'',
                [GameMessage "Battle Phase begins! Remember: Move first, then attack!"
                   "info"])
          else (gs'', [])
      else
        (set_currentPlayer (if bool_decide (currentPlayer gs2 = 1) then 2 else 1) gs2,
         []) in
    Ret (set_gameState gs3 r, evs ++ [GameStateUpdate]).

Definition handleToggleOption (r : GameRoom) (who : Player) (option : string)
  : Js (GameRoom * list Event) :=
  let gs := gameState r in
  if negb (String.eqb (gamePhase gs) "placement")
     && negb (String.eqb (gamePhase gs) "waiting")
  then Ret (r, [])
  else
    let '(gs1, evs) :=
      if String.eqb option "lineOfSight" then
        let gs' := set_lineOfSightEnabled (negb (lineOfSightEnabled gs)) gs in
        (gs', [GameMessage ("Line of Sight "
                            +:+ (if lineOfSightEnabled gs' then "enabled" else "disabled"))
                 "info"])
      else if String.eqb option "limitedRange" then
        let gs' := set_limitedRangeEnabled (negb (limitedRangeEnabled gs)) gs in
        (gs', [GameMessage ("Archer range "
                            +:+ (if limitedRangeEnabled gs'
                                 then "limited to 4 spaces" else "unlimited"))
                 "info"])
      else (gs, []) in
    Ret (set_gameState gs1 r, evs ++ [GameStateUpdate]).

(** *** Socket events *)

Inductive Action : Type :=
| PlacePiece (pieceType : string) (row col : Z)
| SelectCell (row col : Z)
| EndTurn
| ToggleOption (option : string)
| OtherAction (type : string).

(** The [gameAction] listener, from the point where the room of the
    socket has been found. *)
Definition gameAction (r : GameRoom) (sid : SocketId) (data : Action)
  : Js (GameRoom * list Event) :=
  match getPlayerBySocketId r sid with
  | None => Ret (r, [])
  | Some who =>
      match data with
      | PlacePiece pieceType row col => handlePlacePiece r who pieceType row col
      | SelectCell row col => handleSelectCell r who row col
      | EndTurn => handleEndTurn r who
      | ToggleOption option => handleToggleOption r who option
      | OtherAction _ => Ret (r, [])
      end
  end.

(** A run of [gameAction] events from one socket, events concatenated. *)
Fixpoint gameActions (r : GameRoom) (sid : SocketId) (datas : list Action)
  : Js (GameRoom * list Event) :=
  match datas with
  | [] => Ret (r, [])
  | data :: datas' =>
      '(r1, evs1) ← gameAction r sid data;
      '(r2, evs2) ← gameActions r1 sid datas';
      Ret (r2, evs1 ++ evs2)
  end.

(** [gameRooms] is a [Map] from room ids to rooms. *)
Definition joinRoom (gameRooms : list (string * GameRoom)) (sid : SocketId)
    (roomId playerName : string) : list (string * GameRoom) * list Event :=
  if bool_decide (roomId = "") || bool_decide (playerName = "")
  then (gameRooms, [ErrorTo sid "Room ID and player name are required"])
  else
    let rooms1 := if mapHas roomId gameRooms then gameRooms
                  else mapSet roomId (newGameRoom roomId) gameRooms in
    match mapGet roomId rooms1 with
    | Some room =>
        let '(room', evs, _) := addPlayer room sid playerName in
        (mapSet roomId room' rooms1, evs)
    | None => (rooms1, [])
    end.

(** The [disconnect] listener: every room is asked to remove the socket
    and is deleted when [removePlayer] answers [true]. *)
Fixpoint disconnect (gameRooms : list (string * GameRoom)) (sid : SocketId)
  : list (string * GameRoom) * list Event :=
  match gameRooms with
  | [] => ([], [])
  | (id, room) :: rest =>
      let '(room', evs, shouldDeleteRoom) := removePlayer room sid in
      let '(rest', evs') := disconnect rest sid in
      (if (shouldDeleteRoom : bool) then rest' else (id, room') :: rest', evs ++ evs')
  end.

End Basic.

(** ** The 6x7 server with board size options *)

Module Sized.

Record BoardSize : Type := mkBoardSize {
  width : Z;
  height : Z
}.

Record GameState : Type := mkGameState {
  currentPlayer : Z;
  gamePhase : string;
  placementTurn : Z;
  piecesPlacedThisTurn : Z;
  hasMoved : bool;
  hasAttacked : bool;
  gameEnded : bool;
  winner : option Z;
  boardSize : BoardSize;
  board : Board;
  player1Pieces : gmap string Num;
  player2Pieces : gmap string Num;
  lineOfSightEnabled : bool;
  limitedRangeEnabled : bool;
  selectedPiece : option Piece;
  selectedCell : option (Z * Z)
}.

Definition set_lineOfSightEnabled (v : bool) (s : GameState) : GameState :=
  mkGameState (currentPlayer s) (gamePhase s) (placementTurn s)
    (piecesPlacedThisTurn s) (hasMoved s) (hasAttacked s) (gameEnded s)
    (winner s) (boardSize s) (board s) (player1Pieces s) (player2Pieces s) v
    (limitedRangeEnabled s) (selectedPiece s) (selectedCell s).

Definition set_limitedRangeEnabled (v : bool) (s : GameState) : GameState :=
  mkGameState (currentPlayer s) (gamePhase s) (placementTurn s)
    (piecesPlacedThisTurn s) (hasMoved s) (hasAttacked s) (gameEnded s)
    (winner s) (boardSize s) (board s) (player1Pieces s) (player2Pieces s)
    (lineOfSightEnabled s) v (selectedPiece s) (selectedCell s).

Record GameRoom : Type := mkGameRoom {
  roomId : string;
  roomBoardSize : BoardSize;
  players : list (SocketId * Player);
  gameState : GameState;
  spectators : gset SocketId
}.

Definition set_gameState (v : GameState) (r : GameRoom) : GameRoom :=
  mkGameRoom (roomId r) (roomBoardSize r) (players r) v (spectators r).

Definition canMove (piece : Piece) (fromRow fromCol toRow toCol : Z)
    (boardSize : BoardSize) : bool :=
  if bool_decide (toRow < 0) || bool_decide (height boardSize ≤ toRow)
     || bool_decide (toCol < 0) || bool_decide (width boardSize ≤ toCol)
  then false
  else if String.eqb (type piece) "Cavalry" then
    let rowDiff := Z.abs (fromRow - toRow) in
    let colDiff := Z.abs (fromCol - toCol) in
    (bool_decide (rowDiff ≤ 2) && bool_decide (colDiff = 0))
    || (bool_decide (rowDiff = 0) && bool_decide (colDiff ≤ 2))
  else
    bool_decide (distance fromRow fromCol toRow toCol = 1).

Definition handleToggleOption (r : GameRoom) (who : Player) (option : string)
  : Js (GameRoom * list Event) :=
  let gs := gameState r in
  if negb (String.eqb (gamePhase gs) "placement")
     && negb (String.eqb (gamePhase gs) "waiting")
  then Ret (r, [])
  else
    let '(gs1, evs) :=
      if String.eqb option "lineOfSight" then
        let gs' := set_lineOfSightEnabled (negb (lineOfSightEnabled gs)) gs in
        (gs', [GameMessage ("Line of Sight "
                            +:+ (if lineOfSightEnabled gs' then "enabled" else "disabled"))
                 "info"])
      else if String.eqb option "limitedRange" then
        let gs' := set_limitedRangeEnabled (negb (limitedRangeEnabled gs)) gs in
        (gs', [GameMessage ("Archer range "
                            +:+ (if limitedRangeEnabled gs'
                                 then "limited to 4 spaces" else "unlimited"))
                 "info"])
      else (gs, []) in
    Ret (set_gameState gs1 r, evs ++ [GameStateUpdate]).

(** *** The room class *)

Definition set_currentPlayer (v : Z) (s : GameState) : GameState :=
  mkGameState v (gamePhase s) (placementTurn s) (piecesPlacedThisTurn s)
    (hasMoved s) (hasAttacked s) (gameEnded s) (winner s) (boardSize s)
    (board s) (player1Pieces s) (player2Pieces s) (lineOfSightEnabled s)
    (limitedRangeEnabled s) (selectedPiece s) (selectedCell s).

Definition set_gamePhase (v : string) (s : GameState) : GameState :=
  mkGameState (currentPlayer s) v (placementTurn s) (piecesPlacedThisTurn s)
    (hasMoved s) (hasAttacked s) (gameEnded s) (winner s) (boardSize s)
    (board s) (player1Pieces s) (player2Pieces s) (lineOfSightEnabled s)
    (limitedRangeEnabled s) (selectedPiece s) (selectedCell s).

Definition set_placementTurn (v : Z) (s : GameState) : GameState :=
  mkGameState (currentPlayer s) (gamePhase s) v (piecesPlacedThisTurn s)
    (hasMoved s) (hasAttacked s) (gameEnded s) (winner s) (boardSize s)
    (board s) (player1Pieces s) (player2Pieces s) (lineOfSightEnabled s)
    (limitedRangeEnabled s) (selectedPiece s) (selectedCell s).

Definition set_piecesPlacedThisTurn (v : Z) (s : GameState) : GameState :=
  mkGameState (currentPlayer s) (gamePhase s) (placementTurn s) v
    (hasMoved s) (hasAttacked s) (gameEnded s) (winner s) (boardSize s)
    (board s) (player1Pieces s) (player2Pieces s) (lineOfSightEnabled s)
    (limitedRangeEnabled s) (selectedPiece s) (selectedCell s).

Definition set_hasMoved (v : bool) (s : GameState) : GameState :=
  mkGameState (currentPlayer s) (gamePhase s) (placementTurn s)
    (piecesPlacedThisTurn s) v (hasAttacked s) (gameEnded s) (winner s)
    (boardSize s) (board s) (player1Pieces s) (player2Pieces s)
    (lineOfSightEnabled s) (limitedRangeEnabled s) (selectedPiece s)
    (selectedCell s).

Definition set_hasAttacked (v : bool) (s : GameState) : GameState :=
  mkGameState (currentPlayer s) (gamePhase s) (placementTurn s)
    (piecesPlacedThisTurn s) (hasMoved s) v (gameEnded s) (winner s)
    (boardSize s) (board s) (player1Pieces s) (player2Pieces s)
    (lineOfSightEnabled s) (limitedRangeEnabled s) (selectedPiece s)
    (selectedCell s).

Definition set_gameEnded (v : bool) (s : GameState) : GameState :=
  mkGameState (currentPlayer s) (gamePhase s) (placementTurn s)
    (piecesPlacedThisTurn s) (hasMoved s) (hasAttacked s) v (winner s)
    (boardSize s) (board s) (player1Pieces s) (player2Pieces s)
    (lineOfSightEnabled s) (limitedRangeEnabled s) (selectedPiece s)
    (selectedCell s).

Definition set_winner (v : option Z) (s : GameState) : GameState :=
  mkGameState (currentPlayer s) (gamePhase s) (placementTurn s)
    (piecesPlacedThisTurn s) (hasMoved s) (hasAttacked s) (gameEnded s) v
    (boardSize s) (board s) (player1Pieces s) (player2Pieces s)
    (lineOfSightEnabled s) (limitedRangeEnabled s) (selectedPiece s)
    (selectedCell s).

Definition set_board (v : Board) (s : GameState) : GameState :=
  mkGameState (currentPlayer s) (gamePhase s) (placementTurn s)
    (piecesPlacedThisTurn s) (hasMoved s) (hasAttacked s) (gameEnded s)
    (winner s) (boardSize s) v (player1Pieces s) (player2Pieces s)
    (lineOfSightEnabled s) (limitedRangeEnabled s) (selectedPiece s)
    (selectedCell s).

Definition set_player1Pieces (v : gmap string Num) (s : GameState) : GameState :=
  mkGameState (currentPlayer s) (gamePhase s) (placementTurn s)
    (piecesPlacedThisTurn s) (hasMoved s) (hasAttacked s) (gameEnded s)
    (winner s) (boardSize s) (board s) v (player2Pieces s)
    (lineOfSightEnabled s) (limitedRangeEnabled s) (selectedPiece s)
    (selectedCell s).

Definition set_player2Pieces (v : gmap string Num) (s : GameState) : GameState :=
  mkGameState (currentPlayer s) (gamePhase s) (placementTurn s)
    (piecesPlacedThisTurn s) (hasMoved s) (hasAttacked s) (gameEnded s)
    (winner s) (boardSize s) (board s) (player1Pieces s) v
    (lineOfSightEnabled s) (limitedRangeEnabled s) (selectedPiece s)
    (selectedCell s).

Definition set_selectedPiece (v : option Piece) (s : GameState) : GameState :=
  mkGameState (currentPlayer s) (gamePhase s) (placementTurn s)
    (piecesPlacedThisTurn s) (hasMoved s) (hasAttacked s) (gameEnded s)
    (winner s) (boardSize s) (board s) (player1Pieces s) (player2Pieces s)
    (lineOfSightEnabled s) (limitedRangeEnabled s) v (selectedCell s).

Definition set_selectedCell (v : option (Z * Z)) (s : GameState) : GameState :=
  mkGameState (currentPlayer s) (gamePhase s) (placementTurn s)
    (piecesPlacedThisTurn s) (hasMoved s) (hasAttacked s) (gameEnded s)
    (winner s) (boardSize s) (board s) (player1Pieces s) (player2Pieces s)
    (lineOfSightEnabled s) (limitedRangeEnabled s) (selectedPiece s) v.

Definition set_players (v : list (SocketId * Player)) (r : GameRoom) : GameRoom :=
  mkGameRoom (roomId r) (roomBoardSize r) v (gameState r) (spectators r).

Definition set_spectators (v : gset SocketId) (r : GameRoom) : GameRoom :=
  mkGameRoom (roomId r) (roomBoardSize r) (players r) (gameState r) v.

Definition update (f : GameState → GameState) (r : GameRoom) : GameRoom :=
  set_gameState (f (gameState r)) r.

(** [Array(n)] raises a [RangeError] unless [n] is an array length. *)
Definition arrayLength (n : Z) : bool := bool_decide (0 ≤ n < 2 ^ 32).

Definition defaultBoardSize : BoardSize := {| width := 6; height := 7 |}.

Definition startingPieces : gmap string Num :=
  list_to_map [("General", Int 1); ("Cavalry", Int 2); ("Heavy Infantry", Int 2);
               ("Light Infantry", Int 2); ("Archer", Int 1)].

(** The board has [size.height] rows; the row arrays are only built when
    there is a row, so the width of a board without rows is never looked
    at.  Memory is not modelled: every array length can be allocated. *)
Definition initializeGameState (size : BoardSize) : Js GameState :=
  if negb (arrayLength (height size)) then Throw
  else if bool_decide (0 < height size) && negb (arrayLength (width size)) then Throw
  else
    Ret {| currentPlayer := 1;
           gamePhase := "waiting";
           placementTurn := 1;
           piecesPlacedThisTurn := 0;
           hasMoved := false;
           hasAttacked := false;
           gameEnded := false;
           winner := None;
           boardSize := size;
           board := ∅;
           player1Pieces := startingPieces;
           player2Pieces := startingPieces;
           lineOfSightEnabled := false;
           limitedRangeEnabled := false;
           selectedPiece := None;
           selectedCell := None |}.

Definition newGameRoom (id : string) (size : BoardSize) : Js GameRoom :=
  gs ← initializeGameState size;
  Ret {| roomId := id; roomBoardSize := size; players := []; gameState := gs;
         spectators := ∅ |}.

Definition getPlayerName (r : GameRoom) (n : Z) : string :=
  match list_find (fun p => playerNumber p = n) (mapValues (players r)) with
  | Some (_, p) => name p
  | None => "Player " +:+ pretty n
  end.

Definition getPlayerBySocketId (r : GameRoom) (sid : SocketId) : option Player :=
  mapGet sid (players r).

Definition isPlayerTurn (r : GameRoom) (sid : SocketId) : bool :=
  match getPlayerBySocketId r sid with
  | Some p => bool_decide (playerNumber p = currentPlayer (gameState r))
  | None => false
  end.

(** [requestedBoardSize] is [None] when the join request carries no board
    size. *)
Definition addPlayer (r : GameRoom) (sid : SocketId) (playerName : string)
    (requestedBoardSize : option BoardSize) : GameRoom * list Event * bool :=
  if bool_decide (2 ≤ mapSize (players r)) then
    (set_spectators ({[sid]} ∪ spectators r) r,
     [JoinedAsSpectator sid; GameStateUpdate], false)
  else
    let mismatch :=
      bool_decide (mapSize (players r) = 1)
      && match requestedBoardSize with
         | Some requested =>
             bool_decide (width requested ≠ width (roomBoardSize r))
             || bool_decide (height requested ≠ height (roomBoardSize r))
         | None => false
         end in
    if mismatch then
      (r, [ErrorTo sid ("Board size mismatch! Room uses "
                        +:+ pretty (width (roomBoardSize r)) +:+ "x"
                        +:+ pretty (height (roomBoardSize r)))], false)
    else
      let n := mapSize (players r) + 1 in
      let r1 := set_players (mapSet sid (mkPlayer sid n playerName) (players r)) r in
      let '(r2, started) :=
        if bool_decide (mapSize (players r1) = 2)
        then (set_gameState (set_gamePhase "placement" (gameState r1)) r1,
              [GameMessage ("Game started! " +:+ getPlayerName r1 1 +:+ " goes first.")
                 "info"])
        else (r1, []) in
      (r2, PlayerAssigned sid n playerName :: started ++ [GameStateUpdate; PlayerListUpdate],
       true).

Definition removePlayer (r : GameRoom) (sid : SocketId)
  : Js (GameRoom * list Event * bool) :=
  match mapGet sid (players r) with
  | Some leaver =>
      let r1 := set_players (mapDelete sid (players r)) r in
      if bool_decide (mapSize (players r1) = 0) then Ret (r1, [], true)
      else
        '(r2, evs) ←
          match mapValues (players r1) with
          | [remainingPlayer] =>
              let r' :=
                set_players
                  (mapSet (socket_id remainingPlayer)
                     (mkPlayer (socket_id remainingPlayer) 1 (name remainingPlayer))
                     (players r1)) r1 in
              gs ← initializeGameState (roomBoardSize r');
              Ret (set_gameState gs r',
                   [PlayerAssigned (socket_id remainingPlayer) 1 (name remainingPlayer);
                    GameMessage (name leaver +:+ " left. Waiting for another player...")
                      "info"])
          | _ => Ret (r1, [])
          end;
        Ret (r2, evs ++ [GameStateUpdate; PlayerListUpdate], false)
  | None =>
      if bool_decide (sid ∈ spectators r)
      then Ret (set_spectators (spectators r ∖ {[sid]}) r, [], false)
      else Ret (r, [], false)
  end.

(** [Math.ceil(a / b)] for integers [a] and [b > 0]. *)
Definition ceilDiv (a b : Z) : Z := - ((- a) / b).

(** The rows [min .. max] in which a seat may place pieces. *)
Definition getPlacementRows (r : GameRoom) (player : Z) : Z * Z :=
  let topRows := ceilDiv (height (roomBoardSize r)) 3 in
  let bottomRows := ceilDiv (height (roomBoardSize r)) 3 in
  if bool_decide (player = 1) then (0, topRows - 1)
  else (height (roomBoardSize r) - bottomRows, height (roomBoardSize r) - 1).

(** The healing row of seat 1 and the healing row of seat 2. *)
Definition getHealingRows (r : GameRoom) : Z * Z :=
  (height (roomBoardSize r) - 1, 0).

(** *** Rule engine

    [canMove] and the functions below differ from the 6x7 server in the
    bounds checks, the number of rows and the healing rows.  Where the
    two files have the same text ([between] the ends of a scan, the ammo
    test, the charge direction of [movePiece], the charge test of
    [attackPiece], the catalog of [handlePlacePiece], one iteration of
    the loop of [handleEndTurn]) the definitions of [Basic] are used. *)

(** The number of row arrays of the board of a game state. *)
Definition rows (gs : GameState) : Z := height (boardSize gs).

Definition outOfBounds (toRow toCol : Z) (boardSize : BoardSize) : bool :=
  bool_decide (toRow < 0) || bool_decide (height boardSize ≤ toRow)
  || bool_decide (toCol < 0) || bool_decide (width boardSize ≤ toCol).

Fixpoint scanRow (n : Z) (b : Board) (row : Z) (cols : list Z) : Js bool :=
  match cols with
  | [] => Ret true
  | col :: cols' =>
      cell ← readCell n b row col;
      if bool_decide (is_Some cell) then Ret false else scanRow n b row cols'
  end.

Fixpoint scanCol (n : Z) (b : Board) (col : Z) (rows : list Z) : Js bool :=
  match rows with
  | [] => Ret true
  | row :: rows' =>
      cell ← readCell n b row col;
      if bool_decide (is_Some cell) then Ret false else scanCol n b col rows'
  end.

(** [n] is the number of rows of [b]. *)
Definition hasLineOfSight (n : Z) (fromRow fromCol toRow toCol : Z) (b : Board)
  : Js bool :=
  if bool_decide (fromRow = toRow) then
    scanRow n b fromRow (Basic.between (Z.min fromCol toCol) (Z.max fromCol toCol))
  else if bool_decide (fromCol = toCol) then
    scanCol n b fromCol (Basic.between (Z.min fromRow toRow) (Z.max fromRow toRow))
  else Ret true.

Definition canAttack (piece : Piece) (fromRow fromCol toRow toCol : Z)
    (gs : GameState) (boardSize : BoardSize) : Js bool :=
  if outOfBounds toRow toCol boardSize then Ret false
  else
    target ← readCell (rows gs) (board gs) toRow toCol;
    match target with
    | None => Ret false
    | Some target =>
        if bool_decide (player target = player piece) then Ret false
        else if String.eqb (type piece) "Archer" then
          let d := distance fromRow fromCol toRow toCol in
          if bool_decide (d = 1) then Ret true
          else if Basic.hasAmmo piece
                  && (bool_decide (fromRow = toRow) || bool_decide (fromCol = toCol))
          then
            if limitedRangeEnabled gs && bool_decide (4 < d) then Ret false
            else if lineOfSightEnabled gs then
              los ← hasLineOfSight (rows gs) fromRow fromCol toRow toCol (board gs);
              if negb los then Ret false else Ret true
            else Ret true
          else Ret false
        else Ret (bool_decide (distance fromRow fromCol toRow toCol = 1))
    end.

Definition shouldHeal (r : GameRoom) (piece : Piece) (row : Z) : bool :=
  let healingRows := getHealingRows r in
  ((bool_decide (player piece = 1) && bool_decide (row = healingRows.1))
   || (bool_decide (player piece = 2) && bool_decide (row = healingRows.2)))
  && negb (hasBeenReplenished piece).

Definition healed (r : GameRoom) (piece : Piece) (row : Z) : Piece :=
  if shouldHeal r piece row then
    let p1 := set_hasBeenReplenished true (set_health (maxHealth piece) piece) in
    if String.eqb (type piece) "Archer" then set_ammo (Some (Int 3)) p1 else p1
  else piece.

Definition checkForHealing (r : GameRoom) (piece : Piece) (row : Z)
  : Piece * list Event :=
  (healed r piece row,
   if shouldHeal r piece row
   then [GameMessage (getPlayerName r (player piece) +:+ "'s " +:+ type piece
                      +:+ " has been replenished!") "success"]
   else []).

Definition movePiece (r : GameRoom) (fromRow fromCol toRow toCol : Z)
  : Js (GameRoom * list Event) :=
  let gs := gameState r in
  cell ← readCell (rows gs) (board gs) fromRow fromCol;
  match cell with
  | None => Throw
  | Some piece =>
      let piece1 := Basic.charged piece fromRow fromCol toRow toCol in
      b1 ← writeCell (rows gs) (board gs) toRow toCol (Some piece1);
      b2 ← writeCell (rows gs) b1 fromRow fromCol None;
      let '(piece2, evs) := checkForHealing r piece1 toRow in
      (* the object healed is the one now stored in the target cell *)
      let b3 := alter (fun _ => piece2) (toRow, toCol) b2 in
      Ret (set_gameState (set_board b3 gs) r, evs)
  end.

Definition attackPiece (r : GameRoom) (attackerRow attackerCol targetRow targetCol : Z)
  : Js (GameRoom * list Event) :=
  let gs := gameState r in
  if gameEnded gs then Ret (r, [])
  else
    attacker ← readCell (rows gs) (board gs) attackerRow attackerCol;
    target ← readCell (rows gs) (board gs) targetRow targetCol;
    match target with
    | None => Ret (r, [])
    | Some target =>
        match attacker with
        | None => Throw
        | Some attacker =>
            let d := distance attackerRow attackerCol targetRow targetCol in
            let charge := Basic.isCharge attacker target attackerRow attackerCol targetRow targetCol in
            let damage := if charge then 2 else 1 in
            let evs1 := if charge
                        then [GameMessage "Cavalry charge! Double damage!" "success"]
                        else [] in
            let b1 := if String.eqb (type attacker) "Archer" && bool_decide (1 < d)
                      then alter (fun a => set_ammo (Some (decrement (ammo a))) a)
                             (attackerRow, attackerCol) (board gs)
                      else board gs in
            let wasGeneral := String.eqb (type target) "General" in
            let target1 := set_health (Some (minus (health target) damage)) target in
            if atMost (health target1) 0 then
              let gs1 := set_board (delete (targetRow, targetCol) b1) gs in
              if wasGeneral then
                Ret (set_gameState
                       (set_winner (Some (player attacker)) (set_gameEnded true gs1)) r,
                     evs1 ++ [GameMessage (getPlayerName r (player attacker)
                                           +:+ " wins! Enemy General defeated!") "victory"])
              else Ret (set_gameState gs1 r, evs1)
            else
              Ret (set_gameState
                     (set_board (<[(targetRow, targetCol) := target1]> b1) gs) r, evs1)
        end
    end.

(** *** Action handlers

    The catalog [pieceTypes] of [handlePlacePiece] has the text of the
    6x7 server, and is read in the same way. *)

Definition handlePlacePiece (r : GameRoom) (who : Player)
    (pieceType : string) (row col : Z) : Js (GameRoom * list Event) :=
  let gs := gameState r in
  if negb (isPlayerTurn r (socket_id who))
     || negb (String.eqb (gamePhase gs) "placement")
  then Ret (r, [])
  else if bool_decide (4 ≤ piecesPlacedThisTurn gs)
  then Ret (r, [GameMessage "You can only place 4 pieces per turn!" "error"])
  else
    cell ← readCell (rows gs) (board gs) row col;
    if bool_decide (is_Some cell)
    then Ret (r, [GameMessage "Cell is already occupied!" "error"])
    else
      let placementRows := getPlacementRows r (playerNumber who) in
      if bool_decide (row < placementRows.1) || bool_decide (placementRows.2 < row)
      then Ret (r, [GameMessage
                      ("Player " +:+ pretty (playerNumber who)
                       +:+ " can only place pieces in their territory!")
                      "error"])
      else
        let first := bool_decide (playerNumber who = 1) in
        let pieces := if first then player1Pieces gs else player2Pieces gs in
        if bool_decide (pieces !! pieceType = Some (Int 0))
        then Ret (r, [GameMessage "No more pieces of this type available!" "error"])
        else
          '(h, a) ← Basic.typeStats pieceType;
          let pieceData :=
            mkPiece pieceType (playerNumber who) h h false
              (if String.eqb pieceType "Archer" then a else None)
              None None None in
          b ← writeCell (rows gs) (board gs) row col (Some pieceData);
          let pieces' := assign pieceType (decrement (pieces !! pieceType)) pieces in
          let gs1 := set_board b gs in
          let gs2 := if first then set_player1Pieces pieces' gs1
                     else set_player2Pieces pieces' gs1 in
          let gs3 := set_piecesPlacedThisTurn (piecesPlacedThisTurn gs + 1) gs2 in
          Ret (set_gameState gs3 r, [GameStateUpdate]).

Definition handleSelectCell (r : GameRoom) (who : Player) (row col : Z)
  : Js (GameRoom * list Event) :=
  let gs := gameState r in
  if negb (String.eqb (gamePhase gs) "battle")
     || negb (isPlayerTurn r (socket_id who))
  then Ret (r, [])
  else
    match selectedCell gs with
    | None =>
        piece ← readCell (rows gs) (board gs) row col;
        match piece with
        | Some piece =>
            if bool_decide (player piece = playerNumber who)
            then Ret (update (set_selectedCell (Some (row, col))) r, [GameStateUpdate])
            else Ret (r, [])
        | None => Ret (r, [])
        end
    | Some (selRow, selCol) =>
        selectedPiece ← readCell (rows gs) (board gs) selRow selCol;
        targetPiece ← readCell (rows gs) (board gs) row col;
        if bool_decide (selRow = row) && bool_decide (selCol = col)
        then Ret (update (set_selectedCell None) r, [GameStateUpdate])
        else
          let finish (res : GameRoom * list Event) : Js (GameRoom * list Event) :=
            Ret (update (set_selectedCell None) res.1, res.2 ++ [GameStateUpdate]) in
          let invalid : Js (GameRoom * list Event) :=
            finish (r, [GameMessage "Invalid move or attack!" "error"]) in
          match targetPiece with
          | None =>
              match selectedPiece with
              | None =>
                  (* [canMove] answers on the bounds before it reads the piece *)
                  if outOfBounds row col (roomBoardSize r) then invalid else Throw
              | Some selectedPiece =>
                  if canMove selectedPiece selRow selCol row col (roomBoardSize r) then
                    if negb (hasAttacked gs) && negb (hasMoved gs) then
                      '(r1, evs) ← movePiece r selRow selCol row col;
                      finish (update (set_hasMoved true) r1,
                              evs ++ [GameMessage
                                "Move completed! You can now attack with any piece or end turn."
                                "success"])
                    else if hasMoved gs then
                      finish (r, [GameMessage "You can only move once per turn!" "error"])
                    else if hasAttacked gs then
                      finish (r, [GameMessage "You cannot move after attacking!" "error"])
                    else finish (r, [])
                  else invalid
              end
          | Some targetPiece =>
              match selectedPiece with
              | None => Throw
              | Some selectedPiece =>
                  if bool_decide (player targetPiece ≠ player selectedPiece) then
                    ok ← canAttack selectedPiece selRow selCol row col gs (roomBoardSize r);
                    if (ok : bool) then
                      if negb (hasAttacked gs) then
                        '(r1, evs) ← attackPiece r selRow selCol row col;
                        finish (update (set_hasAttacked true) r1,
                                evs ++ [GameMessage "Attack completed! Turn is over."
                                          "success"])
                      else
                        finish (r, [GameMessage "You can only attack once per turn!" "error"])
                    else invalid
                  else invalid
              end
          end
    end.

(** The loop runs over the board size of the room and reads the rows of
    the board: a row that the board does not have raises. *)
Definition clearChargeDirections (r : GameRoom) (b : Board) : Js Board :=
  let size := roomBoardSize r in
  if bool_decide (0 < width size) && bool_decide (0 < height size)
     && bool_decide (rows (gameState r) < height size)
  then Throw
  else Ret (foldl Basic.clearChargeAt b (boardCells (height size) (width size))).

Definition handleEndTurn (r : GameRoom) (who : Player)
  : Js (GameRoom * list Event) :=
  let gs := gameState r in
  if negb (isPlayerTurn r (socket_id who)) then Ret (r, [])
  else if String.eqb (gamePhase gs) "placement"
          && negb (bool_decide (piecesPlacedThisTurn gs = 4))
  then Ret (r, [GameMessage
                  "You must place exactly 4 pieces before ending your turn!" "error"])
  else
    let gs1 := set_hasAttacked false
                 (set_hasMoved false
                    (set_selectedCell None (set_selectedPiece None gs))) in
    b ← clearChargeDirections r (board gs1);
    let gs2 := set_board b gs1 in
    let '(gs3, evs) :=
      if String.eqb (gamePhase gs2) "placement" then
        let gs' := set_piecesPlacedThisTurn 0 gs2 in
        if bool_decide (currentPlayer gs' = 1) then (set_currentPlayer 2 gs', [])
        else
          let gs'' := set_placementTurn (placementTurn gs' + 1)
                        (set_currentPlayer 1 gs') in
          if bool_decide (2 < placementTurn gs'')
          then (set_gamePhase "battle" gs'',
                [GameMessage
                   "Battle Phase begins! You can move first (optional) then attack, OR just attack directly!"
                   "info"])
          else (gs'', [])
      else
        (set_currentPlayer (if bool_decide (currentPlayer gs2 = 1) then 2 else 1) gs2,
         []) in
    Ret (set_gameState gs3 r, evs ++ [GameStateUpdate]).

(** *** Socket events *)

Inductive Action : Type :=
| PlacePiece (pieceType : string) (row col : Z)
| SelectCell (row col : Z)
| EndTurn
| ToggleOption (option : string)
| OtherAction (type : string).

Definition gameAction (r : GameRoom) (sid : SocketId) (data : Action)
  : Js (GameRoom * list Event) :=
  match getPlayerBySocketId r sid with
  | None => Ret (r, [])
  | Some who =>
      match data with
      | PlacePiece pieceType row col => handlePlacePiece r who pieceType row col
      | SelectCell row col => handleSelectCell r who row col
      | EndTurn => handleEndTurn r who
      | ToggleOption option => handleToggleOption r who option
      | OtherAction _ => Ret (r, [])
      end
  end.

(** The [joinRoom] listener; [boardSize] is [None] when the request has
    no board size. *)
Definition joinRoom (gameRooms : list (string * GameRoom)) (sid : SocketId)
    (roomId playerName : string) (boardSize : option BoardSize)
  : Js (list (string * GameRoom) * list Event) :=
  if bool_decide (roomId = "") || bool_decide (playerName = "")
  then Ret (gameRooms, [ErrorTo sid "Room ID and player name are required"])
  else
    rooms1 ←
      (if mapHas roomId gameRooms then Ret gameRooms
       else
         let size := default defaultBoardSize boardSize in
         room ← newGameRoom roomId size;
         Ret (mapSet roomId room gameRooms));
    match mapGet roomId rooms1 with
    | Some room =>
        let '(room', evs, _) := addPlayer room sid playerName boardSize in
        Ret (mapSet roomId room' rooms1, evs)
    | None => Ret (rooms1, [])
    end.

(** The [disconnect] listener: every room is asked to remove the socket
    and is deleted when [removePlayer] answers [true]. *)
Fixpoint disconnect (gameRooms : list (string * GameRoom)) (sid : SocketId)
  : Js (list (string * GameRoom) * list Event) :=
  match gameRooms with
  | [] => Ret ([], [])
  | (id, room) :: rest =>
      '(room', evs, shouldDeleteRoom) ← removePlayer room sid;
      '(rest', evs') ← disconnect rest sid;
      Ret (if (shouldDeleteRoom : bool) then rest' else (id, room') :: rest', evs ++ evs')
  end.

End Sized.

(** ** The Ancient Empires server *)

Module Empires.

Record Abilities : Type := mkAbilities {
  archerRangeBonus : option Z;
  archerKillAmmoSave : bool;
  horseArcherMobility : bool;
  horseArcherAmmo : option Z;
  alexanderCavalryMovement : bool;
  heavyInfantryDiagonalMove : bool;
  heavyInfantryCleave : bool
}.

Record Nation : Type := mkNation {
  nationName : string;
  pieces : gmap string Num;
  abilities : Abilities
}.

Definition noAbilities : Abilities :=
  mkAbilities None false false None false false false.

Definition nations (key : string) : option Nation :=
  if String.eqb key "english" then
    Some (mkNation "English"
            (list_to_map [("General", Int 1); ("Cavalry", Int 2);
                          ("Heavy Infantry", Int 2); ("Light Infantry", Int 2);
                          ("Archer", Int 1)])
            (mkAbilities (Some 1) true false None false false false))
  else if String.eqb key "mongols" then
    Some (mkNation "Mongols"
            (list_to_map [("General", Int 1); ("Cavalry", Int 1);
                          ("Horse Archer", Int 2); ("Heavy Infantry", Int 2);
                          ("Light Infantry", Int 2); ("Archer", Int 0)])
            (mkAbilities None false true (Some 2) false false false))
  else if String.eqb key "macedonians" then
    Some (mkNation "Macedonians"
            (list_to_map [("General", Int 1); ("Cavalry", Int 2);
                          ("Heavy Infantry", Int 2); ("Light Infantry", Int 2);
                          ("Archer", Int 1)])
            (mkAbilities None false false None true false false))
  else if String.eqb key "spartans" then
    Some (mkNation "Spartans"
            (list_to_map [("General", Int 1); ("Cavalry", Int 2);
                          ("Heavy Infantry", Int 2); ("Light Infantry", Int 2);
                          ("Archer", Int 0)])
            (mkAbilities None false false None false true true))
  else None.

(** The entries of the catalog [pieceTypes]: health and ammo. *)
Definition pieceTypes (t : string) : option (Z * option Z) :=
  if String.eqb t "General" then Some (3, None)
  else if String.eqb t "Cavalry" then Some (2, None)
  else if String.eqb t "Horse Archer" then Some (2, Some 2)
  else if String.eqb t "Heavy Infantry" then Some (3, None)
  else if String.eqb t "Light Infantry" then Some (2, None)
  else if String.eqb t "Archer" then Some (2, Some 3)
  else None.

(** [pieceTypes[t].health] and [pieceTypes[t].ammo]: the numbers of an
    entry; [undefined] twice for a name that the catalog inherits; a
    [TypeError] for any other name. *)
Definition typeStats (t : string) : Js (option Num * option Num) :=
  match pieceTypes t with
  | Some (h, a) => Ret (Some (Int h), Int <$> a)
  | None => if inherited t then Ret (None, None) else Throw
  end.

Record Player : Type := mkPlayer {
  socket_id : SocketId;
  playerNumber : Z;
  name : string;
  playerNation : option string
}.

Record GameState : Type := mkGameState {
  currentPlayer : Z;
  gamePhase : string;
  placementTurn : Z;
  piecesPlacedThisTurn : Z;
  hasMoved : bool;
  hasAttacked : bool;
  gameEnded : bool;
  winner : option Z;
  board : Board;
  player1Nation : option string;
  player2Nation : option string;
  player1Pieces : gmap string Num;
  player2Pieces : gmap string Num;
  selectedPiece : option Piece;
  selectedCell : option (Z * Z);
  selectedPieceType : option string
}.

Definition set_currentPlayer (v : Z) (s : GameState) : GameState :=
  mkGameState v (gamePhase s) (placementTurn s) (piecesPlacedThisTurn s)
    (hasMoved s) (hasAttacked s) (gameEnded s) (winner s) (board s)
    (player1Nation s) (player2Nation s) (player1Pieces s) (player2Pieces s)
    (selectedPiece s) (selectedCell s) (selectedPieceType s).

Definition set_gamePhase (v : string) (s : GameState) : GameState :=
  mkGameState (currentPlayer s) v (placementTurn s) (piecesPlacedThisTurn s)
    (hasMoved s) (hasAttacked s) (gameEnded s) (winner s) (board s)
    (player1Nation s) (player2Nation s) (player1Pieces s) (player2Pieces s)
    (selectedPiece s) (selectedCell s) (selectedPieceType s).

Definition set_placementTurn (v : Z) (s : GameState) : GameState :=
  mkGameState (currentPlayer s) (gamePhase s) v (piecesPlacedThisTurn s)
    (hasMoved s) (hasAttacked s) (gameEnded s) (winner s) (board s)
    (player1Nation s) (player2Nation s) (player1Pieces s) (player2Pieces s)
    (selectedPiece s) (selectedCell s) (selectedPieceType s).

Definition set_piecesPlacedThisTurn (v : Z) (s : GameState) : GameState :=
  mkGameState (currentPlayer s) (gamePhase s) (placementTurn s) v
    (hasMoved s) (hasAttacked s) (gameEnded s) (winner s) (board s)
    (player1Nation s) (player2Nation s) (player1Pieces s) (player2Pieces s)
    (selectedPiece s) (selectedCell s) (selectedPieceType s).

Definition set_hasMoved (v : bool) (s : GameState) : GameState :=
  mkGameState (currentPlayer s) (gamePhase s) (placementTurn s)
    (piecesPlacedThisTurn s) v (hasAttacked s) (gameEnded s) (winner s)
    (board s) (player1Nation s) (player2Nation s) (player1Pieces s)
    (player2Pieces s) (selectedPiece s) (selectedCell s) (selectedPieceType s).

Definition set_hasAttacked (v : bool) (s : GameState) : GameState :=
  mkGameState (currentPlayer s) (gamePhase s) (placementTurn s)
    (piecesPlacedThisTurn s) (hasMoved s) v (gameEnded s) (winner s)
    (board s) (player1Nation s) (player2Nation s) (player1Pieces s)
    (player2Pieces s) (selectedPiece s) (selectedCell s) (selectedPieceType s).

Definition set_gameEnded (v : bool) (s : GameState) : GameState :=
  mkGameState (currentPlayer s) (gamePhase s) (placementTurn s)
    (piecesPlacedThisTurn s) (hasMoved s) (hasAttacked s) v (winner s)
    (board s) (player1Nation s) (player2Nation s) (player1Pieces s)
    (player2Pieces s) (selectedPiece s) (selectedCell s) (selectedPieceType s).

Definition set_winner (v : option Z) (s : GameState) : GameState :=
  mkGameState (currentPlayer s) (gamePhase s) (placementTurn s)
    (piecesPlacedThisTurn s) (hasMoved s) (hasAttacked s) (gameEnded s) v
    (board s) (player1Nation s) (player2Nation s) (player1Pieces s)
    (player2Pieces s) (selectedPiece s) (selectedCell s) (selectedPieceType s).

Definition set_board (v : Board) (s : GameState) : GameState :=
  mkGameState (currentPlayer s) (gamePhase s) (placementTurn s)
    (piecesPlacedThisTurn s) (hasMoved s) (hasAttacked s) (gameEnded s)
    (winner s) v (player1Nation s) (player2Nation s) (player1Pieces s)
    (player2Pieces s) (selectedPiece s) (selectedCell s) (selectedPieceType s).

Definition set_player1Pieces (v : gmap string Num) (s : GameState) : GameState :=
  mkGameState (currentPlayer s) (gamePhase s) (placementTurn s)
    (piecesPlacedThisTurn s) (hasMoved s) (hasAttacked s) (gameEnded s)
    (winner s) (board s) (player1Nation s) (player2Nation s) v
    (player2Pieces s) (selectedPiece s) (selectedCell s) (selectedPieceType s).

Definition set_player2Pieces (v : gmap string Num) (s : GameState) : GameState :=
  mkGameState (currentPlayer s) (gamePhase s) (placementTurn s)
    (piecesPlacedThisTurn s) (hasMoved s) (hasAttacked s) (gameEnded s)
    (winner s) (board s) (player1Nation s) (player2Nation s) (player1Pieces s)
    v (selectedPiece s) (selectedCell s) (selectedPieceType s).

Definition set_selectedPiece (v : option Piece) (s : GameState) : GameState :=
  mkGameState (currentPlayer s) (gamePhase s) (placementTurn s)
    (piecesPlacedThisTurn s) (hasMoved s) (hasAttacked s) (gameEnded s)
    (winner s) (board s) (player1Nation s) (player2Nation s) (player1Pieces s)
    (player2Pieces s) v (selectedCell s) (selectedPieceType s).

Definition set_selectedCell (v : option (Z * Z)) (s : GameState) : GameState :=
  mkGameState (currentPlayer s) (gamePhase s) (placementTurn s)
    (piecesPlacedThisTurn s) (hasMoved s) (hasAttacked s) (gameEnded s)
    (winner s) (board s) (player1Nation s) (player2Nation s) (player1Pieces s)
    (player2Pieces s) (selectedPiece s) v (selectedPieceType s).

Definition set_selectedPieceType (v : option string) (s : GameState) : GameState :=
  mkGameState (currentPlayer s) (gamePhase s) (placementTurn s)
    (piecesPlacedThisTurn s) (hasMoved s) (hasAttacked s) (gameEnded s)
    (winner s) (board s) (player1Nation s) (player2Nation s) (player1Pieces s)
    (player2Pieces s) (selectedPiece s) (selectedCell s) v.

Record GameRoom : Type := mkGameRoom {
  roomId : string;
  players : list (SocketId * Player);
  gameState : GameState;
  spectators : gset SocketId
}.

Definition set_gameState (v : GameState) (r : GameRoom) : GameRoom :=
  mkGameRoom (roomId r) (players r) v (spectators r).

Definition update (f : GameState → GameState) (r : GameRoom) : GameRoom :=
  set_gameState (f (gameState r)) r.

Definition size : Z := 7.

Definition getPlayerName (r : GameRoom) (n : Z) : string :=
  match list_find (fun p => playerNumber p = n) (mapValues (players r)) with
  | Some (_, p) => name p
  | None => "Player " +:+ pretty n
  end.

Definition getPlayerBySocketId (r : GameRoom) (sid : SocketId) : option Player :=
  mapGet sid (players r).

Definition isPlayerTurn (r : GameRoom) (sid : SocketId) : bool :=
  match getPlayerBySocketId r sid with
  | Some p => bool_decide (playerNumber p = currentPlayer (gameState r))
  | None => false
  end.

(** *** Action handlers *)

Definition handleSelectPieceType (r : GameRoom) (who : Player) (pieceType : string)
  : Js (GameRoom * list Event) :=
  let gs := gameState r in
  if negb (String.eqb (gamePhase gs) "placement")
     || negb (isPlayerTurn r (socket_id who))
  then Ret (r, [])
  else Ret (update (set_selectedPieceType (Some pieceType)) r, [GameStateUpdate]).

(** [Object.values(roster).reduce((a, b) => a + b, 0)] *)
Definition rosterTotal (roster : gmap string Num) : Num :=
  map_fold (fun _ v acc => numAdd acc v) (Int 0) roster.

Definition showNum (q : Num) : string :=
  match q with
  | Int z => pretty z
  | NaN => "NaN"
  end.

Definition createPieceData (pieceType : string) (player : Z)
    (nation : option string) (placementTurn : Z) : Js Piece :=
  '(h, a) ← typeStats pieceType;
  Ret (mkPiece pieceType player h h false
         (if String.eqb pieceType "Archer" then a
          else if String.eqb pieceType "Horse Archer" then a
          else None)
         None nation (Some placementTurn)).

Definition handlePlacePiece (r : GameRoom) (who : Player) (row col : Z)
  : Js (GameRoom * list Event) :=
  let gs := gameState r in
  if negb (isPlayerTurn r (socket_id who))
     || negb (String.eqb (gamePhase gs) "placement")
  then Ret (r, [])
  else
    match selectedPieceType gs with
    | None | Some "" =>
        Ret (r, [GameMessage "Select a piece type first!" "error"])
    | Some pieceType =>
        let first := bool_decide (playerNumber who = 1) in
        let pieces := if first then player1Pieces gs else player2Pieces gs in
        let requiredPieces :=
          if bool_decide (placementTurn gs = 1) then Int 4 else rosterTotal pieces in
        if geNum (piecesPlacedThisTurn gs) requiredPieces
        then Ret (r, [GameMessage ("You can only place " +:+ showNum requiredPieces
                                   +:+ " pieces this turn!") "error"])
        else
          cell ← readCell size (board gs) row col;
          if bool_decide (is_Some cell)
          then Ret (r, [GameMessage "Cell is already occupied!" "error"])
          else
            let validRows := if first then [0; 1; 2] else [4; 5; 6] in
            if negb (bool_decide (row ∈ validRows))
            then Ret (r, [GameMessage
                            ("Player " +:+ pretty (playerNumber who)
                             +:+ " can only place pieces in their deployment zone!")
                            "error"])
            else if bool_decide (pieces !! pieceType = Some (Int 0))
            then Ret (r, [GameMessage "No more pieces of this type available!" "error"])
            else
              pieceData ← createPieceData pieceType (playerNumber who)
                            (playerNation who) (placementTurn gs);
              b ← writeCell size (board gs) row col (Some pieceData);
              let pieces' := assign pieceType (decrement (pieces !! pieceType)) pieces in
              let gs1 := set_board b gs in
              let gs2 := if first then set_player1Pieces pieces' gs1
                         else set_player2Pieces pieces' gs1 in
              let gs3 := set_piecesPlacedThisTurn (piecesPlacedThisTurn gs + 1) gs2 in
              Ret (set_gameState (set_selectedPieceType None gs3) r, [GameStateUpdate])
    end.

Definition clearsCharge (piece : Piece) : bool :=
  String.eqb (type piece) "Cavalry"
  || (String.eqb (type piece) "General"
      && bool_decide (nation piece = Some "macedonians")).

Definition clearChargeAt (b : Board) (rc : Z * Z) : Board :=
  match b !! rc with
  | Some piece =>
      if clearsCharge piece then <[rc := set_chargeDirection None piece]> b else b
  | None => b
  end.

Definition clearChargeDirections (b : Board) : Board :=
  foldl clearChargeAt b (boardCells 7 7).

(** The quota that [handleEndTurn] asks for in the placement phase.
    [Object.values] raises on the roster of a nation that is not in the
    catalog, [undefined] under an inherited name as well. *)
Definition endTurnQuota (gs : GameState) (who : Player) : Js Num :=
  if bool_decide (placementTurn gs = 1) then Ret (Int 4)
  else
    let key := if bool_decide (playerNumber who = 1)
               then player1Nation gs else player2Nation gs in
    match key ≫= nations with
    | Some nation => Ret (numAdd (rosterTotal (pieces nation)) (Int (-4)))
    | None => Throw
    end.

Definition handleEndTurn (r : GameRoom) (who : Player)
  : Js (GameRoom * list Event) :=
  let gs := gameState r in
  if negb (isPlayerTurn r (socket_id who)) then Ret (r, [])
  else
    rejected ←
      (if String.eqb (gamePhase gs) "placement" then
         requiredPieces ← endTurnQuota gs who;
         if neNum (piecesPlacedThisTurn gs) requiredPieces
         then Ret [GameMessage ("You must place exactly " +:+ showNum requiredPieces
                                +:+ " pieces before ending your turn!") "error"]
         else Ret []
       else Ret []);
    match rejected with
    | _ :: _ => Ret (r, rejected)
    | [] =>
        let gs1 := set_hasAttacked false
                     (set_hasMoved false
                        (set_selectedPieceType None
                           (set_selectedCell None (set_selectedPiece None gs)))) in
        let gs2 := set_board (clearChargeDirections (board gs1)) gs1 in
        let '(gs3, evs) :=
          if String.eqb (gamePhase gs2) "placement" then
            let gs' := set_piecesPlacedThisTurn 0 gs2 in
            if bool_decide (currentPlayer gs' = 1) then (set_currentPlayer 2 gs', [])
            else
              let gs'' := set_placementTurn (placementTurn gs' + 1)
                            (set_currentPlayer 1 gs') in
              if bool_decide (2 < placementTurn gs'')
              then (set_gamePhase "battle" gs'',
                    [GameMessage "Battle Phase begins!" "info"])
              else (gs'', [])
          else
            (set_currentPlayer (if bool_decide (currentPlayer gs2 = 1) then 2 else 1) gs2,
             []) in
        Ret (set_gameState gs3 r, evs ++ [GameStateUpdate])
    end.

(** *** Rule engine *)

Definition outOfBounds (row col : Z) : bool :=
  bool_decide (row < 0) || bool_decide (7 ≤ row)
  || bool_decide (col < 0) || bool_decide (7 ≤ col).

Definition twoStraight (fromRow fromCol toRow toCol : Z) : bool :=
  let rowDiff := Z.abs (fromRow - toRow) in
  let colDiff := Z.abs (fromCol - toCol) in
  (bool_decide (rowDiff ≤ 2) && bool_decide (colDiff = 0))
  || (bool_decide (rowDiff = 0) && bool_decide (colDiff ≤ 2)).

Definition canMove (piece : Piece) (fromRow fromCol toRow toCol : Z) : bool :=
  if outOfBounds toRow toCol then false
  else if String.eqb (type piece) "General"
          && bool_decide (nation piece = Some "macedonians")
  then twoStraight fromRow fromCol toRow toCol
  else if String.eqb (type piece) "Cavalry" || String.eqb (type piece) "Horse Archer"
  then twoStraight fromRow fromCol toRow toCol
  else if String.eqb (type piece) "Heavy Infantry"
          && bool_decide (nation piece = Some "spartans")
  then
    let rowDiff := Z.abs (fromRow - toRow) in
    let colDiff := Z.abs (fromCol - toCol) in
    bool_decide (rowDiff ≤ 1) && bool_decide (colDiff ≤ 1)
    && bool_decide (0 < rowDiff + colDiff)
  else bool_decide (distance fromRow fromCol toRow toCol = 1).

Definition hasAmmo (piece : Piece) : bool :=
  match ammo piece with
  | Some (Int a) => bool_decide (0 < a)
  | _ => false
  end.

(** [nations[piece.nation]] is [undefined] for a piece without nation
    and for a key that no object has; under an inherited name it is an
    object without [abilities]. *)
Definition getArcherRange (piece : Piece) : Js Z :=
  match nation piece with
  | Some key =>
      match nations key with
      | Some nation =>
          match archerRangeBonus (abilities nation) with
          | Some bonus => if bool_decide (bonus ≠ 0) then Ret (4 + bonus) else Ret 4
          | None => Ret 4
          end
      | None => if inherited key then Ret 4 else Throw
      end
  | None => Throw
  end.

Definition canAttack (piece : Piece) (fromRow fromCol toRow toCol : Z)
    (gs : GameState) : Js bool :=
  if outOfBounds toRow toCol then Ret false
  else
    target ← readCell size (board gs) toRow toCol;
    match target with
    | None => Ret false
    | Some target =>
        if bool_decide (player target = player piece) then Ret false
        else
          let d := distance fromRow fromCol toRow toCol in
          let straight := bool_decide (fromRow = toRow) || bool_decide (fromCol = toCol) in
          if bool_decide (d = 1) then Ret true
          else
            byArcher ←
              (if String.eqb (type piece) "Archer" && hasAmmo piece then
                 range ← getArcherRange piece;
                 Ret (straight && bool_decide (d ≤ range))
               else Ret false);
            if (byArcher : bool) then Ret true
            else if String.eqb (type piece) "Horse Archer" && hasAmmo piece
                    && straight && bool_decide (d ≤ 4)
            then Ret true
            else Ret false
    end.

Definition shouldHeal (piece : Piece) (row : Z) : bool :=
  ((bool_decide (player piece = 1) && bool_decide (row = 6))
   || (bool_decide (player piece = 2) && bool_decide (row = 0)))
  && negb (hasBeenReplenished piece)
  && negb (String.eqb (type piece) "General").

Definition healed (piece : Piece) (row : Z) : Js Piece :=
  if shouldHeal piece row then
    let p1 := set_hasBeenReplenished true (set_health (maxHealth piece) piece) in
    if String.eqb (type piece) "Archer" || String.eqb (type piece) "Horse Archer" then
      '(_, a) ← typeStats (type piece);
      Ret (set_ammo a p1)
    else Ret p1
  else Ret piece.

Definition checkForHealing (r : GameRoom) (piece : Piece) (row : Z)
  : Js (Piece * list Event) :=
  piece' ← healed piece row;
  Ret (piece',
       if shouldHeal piece row
       then [GameMessage (getPlayerName r (player piece) +:+ "'s " +:+ type piece
                          +:+ " has been replenished!") "success"]
       else []).

Definition unitStep (d : Z) : Z :=
  if bool_decide (d ≠ 0) then (if bool_decide (0 < d) then 1 else -1) else d.

Definition charges (piece : Piece) : bool :=
  String.eqb (type piece) "Cavalry"
  || (String.eqb (type piece) "General"
      && bool_decide (nation piece = Some "macedonians")).

Definition charged (piece : Piece) (fromRow fromCol toRow toCol : Z) : Piece :=
  if charges piece then
    if bool_decide (distance fromRow fromCol toRow toCol = 2)
    then set_chargeDirection
           (Some (unitStep (toRow - fromRow), unitStep (toCol - fromCol))) piece
    else set_chargeDirection None piece
  else piece.

Definition movePiece (r : GameRoom) (fromRow fromCol toRow toCol : Z)
  : Js (GameRoom * list Event) :=
  let gs := gameState r in
  cell ← readCell size (board gs) fromRow fromCol;
  match cell with
  | None => Throw
  | Some piece =>
      let piece1 := charged piece fromRow fromCol toRow toCol in
      b1 ← writeCell size (board gs) toRow toCol (Some piece1);
      b2 ← writeCell size b1 fromRow fromCol None;
      '(piece2, evs) ← checkForHealing r piece1 toRow;
      let b3 := alter (fun _ => piece2) (toRow, toCol) b2 in
      Ret (set_gameState (set_board b3 gs) r, evs)
  end.

Definition isCharge (attacker target : Piece)
    (attackerRow attackerCol targetRow targetCol : Z) : bool :=
  charges attacker
  && match chargeDirection attacker with
     | Some (dr, dc) =>
         bool_decide (distance attackerRow attackerCol targetRow targetCol = 1)
         && negb (String.eqb (type target) "Heavy Infantry")
         && bool_decide (targetRow - attackerRow = dr)
         && bool_decide (targetCol - attackerCol = dc)
     | None => false
     end.

Definition shouldConsumeAmmo (attacker target : Piece) (d : Z) : bool :=
  if String.eqb (type attacker) "Archer"
     && bool_decide (nation attacker = Some "english")
     && match nations "english" with
        | Some nation => archerKillAmmoSave (abilities nation)
        | None => false
        end
     && atMost (health target) 1
  then false
  else bool_decide (1 < d).

Definition directions : list (Z * Z) := [(-1, 0); (1, 0); (0, -1); (0, 1)].

(** The loop of [handleSpartanCleave] over the directions still to
    visit; [cleaveCount] is the counter so far.  The [return] on a dead
    General ends the function at once. *)
Fixpoint cleaveLoop (r : GameRoom) (attacker : Piece)
    (attackerRow attackerCol targetRow targetCol : Z)
    (dirs : list (Z * Z)) (gs : GameState) (cleaveCount : Z)
  : GameState * list Event :=
  match dirs with
  | [] =>
      (gs, if bool_decide (0 < cleaveCount)
           then [GameMessage ("Spartan Heavy Infantry cleaves " +:+ pretty cleaveCount
                              +:+ " additional enemies!") "success"]
           else [])
  | (dr, dc) :: rest =>
      let cleaveRow := attackerRow + dr in
      let cleaveCol := attackerCol + dc in
      let skip := cleaveLoop r attacker attackerRow attackerCol targetRow targetCol
                    rest gs cleaveCount in
      if outOfBounds cleaveRow cleaveCol then skip
      else
        match board gs !! (cleaveRow, cleaveCol) with
        | Some cleaveTarget =>
            if bool_decide (player cleaveTarget ≠ player attacker)
               && negb (bool_decide (cleaveRow = targetRow)
                        && bool_decide (cleaveCol = targetCol))
            then
              let hit := set_health (Some (minus (health cleaveTarget) 1)) cleaveTarget in
              if atMost (health hit) 0 then
                let gs1 := set_board (delete (cleaveRow, cleaveCol) (board gs)) gs in
                if String.eqb (type cleaveTarget) "General" then
                  (set_winner (Some (player attacker)) (set_gameEnded true gs1),
                   [GameMessage (getPlayerName r (player attacker)
                                 +:+ " wins! Enemy General defeated by cleave attack!")
                      "victory"])
                else
                  cleaveLoop r attacker attackerRow attackerCol targetRow targetCol
                    rest gs1 (cleaveCount + 1)
              else
                cleaveLoop r attacker attackerRow attackerCol targetRow targetCol rest
                  (set_board (<[(cleaveRow, cleaveCol) := hit]> (board gs)) gs)
                  (cleaveCount + 1)
            else skip
        | None => skip
        end
  end.

Definition handleSpartanCleave (r : GameRoom)
    (attackerRow attackerCol targetRow targetCol : Z) : Js (GameRoom * list Event) :=
  let gs := gameState r in
  attacker ← readCell size (board gs) attackerRow attackerCol;
  match attacker with
  | None =>
      (* [attacker.player] is only read when an occupied neighbour is met *)
      if bool_decide
           (Exists (fun d => outOfBounds (attackerRow + d.1) (attackerCol + d.2) = false
                             ∧ is_Some (board gs !! (attackerRow + d.1, attackerCol + d.2)))
              directions)
      then Throw
      else Ret (r, [])
  | Some attacker =>
      let '(gs', evs) := cleaveLoop r attacker attackerRow attackerCol targetRow targetCol
                           directions gs 0 in
      Ret (set_gameState gs' r, evs)
  end.

Definition attackPiece (r : GameRoom) (attackerRow attackerCol targetRow targetCol : Z)
  : Js (GameRoom * list Event) :=
  let gs := gameState r in
  if gameEnded gs then Ret (r, [])
  else
    attacker ← readCell size (board gs) attackerRow attackerCol;
    target ← readCell size (board gs) targetRow targetCol;
    match target with
    | None => Ret (r, [])
    | Some target =>
        match attacker with
        | None => Throw
        | Some attacker =>
            let d := distance attackerRow attackerCol targetRow targetCol in
            let charge := isCharge attacker target attackerRow attackerCol targetRow targetCol in
            let damage := if charge then 2 else 1 in
            let evs1 := if charge
                        then [GameMessage "Cavalry charge! Double damage!" "success"]
                        else [] in
            let b1 := if shouldConsumeAmmo attacker target d
                      then alter (fun a => set_ammo (Some (decrement (ammo a))) a)
                             (attackerRow, attackerCol) (board gs)
                      else board gs in
            let wasGeneral := String.eqb (type target) "General" in
            let target1 := set_health (Some (minus (health target) damage)) target in
            let r2 := set_gameState
                        (set_board (<[(targetRow, targetCol) := target1]> b1) gs) r in
            '(r3, evs2) ←
              (if String.eqb (type attacker) "Heavy Infantry"
                  && bool_decide (nation attacker = Some "spartans")
               then handleSpartanCleave r2 attackerRow attackerCol targetRow targetCol
               else Ret (r2, []));
            let gs3 := gameState r3 in
            if atMost (health target1) 0 then
              let gs4 := set_board (delete (targetRow, targetCol) (board gs3)) gs3 in
              if wasGeneral then
                Ret (set_gameState
                       (set_winner (Some (player attacker)) (set_gameEnded true gs4)) r3,
                     evs1 ++ evs2
                     ++ [GameMessage (getPlayerName r (player attacker)
                                      +:+ " wins! Enemy General defeated!") "victory"])
              else Ret (set_gameState gs4 r3, evs1 ++ evs2)
            else Ret (r3, evs1 ++ evs2)
        end
    end.

Definition handleSelectCell (r : GameRoom) (who : Player) (row col : Z)
  : Js (GameRoom * list Event) :=
  let gs := gameState r in
  if negb (String.eqb (gamePhase gs) "battle")
     || negb (isPlayerTurn r (socket_id who))
  then Ret (r, [])
  else
    match selectedCell gs with
    | None =>
        piece ← readCell size (board gs) row col;
        match piece with
        | Some piece =>
            if bool_decide (player piece = playerNumber who)
            then Ret (update (set_selectedCell (Some (row, col))) r, [GameStateUpdate])
            else Ret (r, [])
        | None => Ret (r, [])
        end
    | Some (selRow, selCol) =>
        selectedPiece ← readCell size (board gs) selRow selCol;
        targetPiece ← readCell size (board gs) row col;
        if bool_decide (selRow = row) && bool_decide (selCol = col)
        then Ret (update (set_selectedCell None) r, [GameStateUpdate])
        else
          let finish (res : GameRoom * list Event) : Js (GameRoom * list Event) :=
            Ret (update (set_selectedCell None) res.1, res.2 ++ [GameStateUpdate]) in
          match targetPiece with
          | None =>
              match selectedPiece with
              | None =>
                  (* [canMove] answers on the bounds before it reads the piece *)
                  if outOfBounds row col then finish (r, []) else Throw
              | Some selectedPiece =>
                  if canMove selectedPiece selRow selCol row col then
                    if negb (hasAttacked gs) && negb (hasMoved gs) then
                      '(r1, evs) ← movePiece r selRow selCol row col;
                      finish (update (set_hasMoved true) r1,
                              evs ++ [GameMessage "Move completed!" "success"])
                    else finish (r, [GameMessage "Invalid move timing!" "error"])
                  else finish (r, [])
              end
          | Some targetPiece =>
              match selectedPiece with
              | None => Throw
              | Some selectedPiece =>
                  if bool_decide (player targetPiece ≠ player selectedPiece) then
                    ok ← canAttack selectedPiece selRow selCol row col gs;
                    if (ok : bool) then
                      if negb (hasAttacked gs) then
                        '(r1, evs) ← attackPiece r selRow selCol row col;
                        finish (update (set_hasAttacked true) r1,
                                evs ++ [GameMessage "Attack completed!" "success"])
                      else
                        finish (r, [GameMessage "You can only attack once per turn!" "error"])
                    else finish (r, [])
                  else finish (r, [])
              end
          end
    end.

(** *** Socket events *)

Inductive Action : Type :=
| PlacePiece (row col : Z)
| SelectCell (row col : Z)
| EndTurn
| SelectPieceType (pieceType : string)
| OtherAction (type : string).

Definition gameAction (r : GameRoom) (sid : SocketId) (data : Action)
  : Js (GameRoom * list Event) :=
  match getPlayerBySocketId r sid with
  | None => Ret (r, [])
  | Some who =>
      match data with
      | PlacePiece row col => handlePlacePiece r who row col
      | SelectCell row col => handleSelectCell r who row col
      | EndTurn => handleEndTurn r who
      | SelectPieceType pieceType => handleSelectPieceType r who pieceType
      | OtherAction _ => Ret (r, [])
      end
  end.

Fixpoint gameActions (r : GameRoom) (sid : SocketId) (datas : list Action)
  : Js (GameRoom * list Event) :=
  match datas with
  | [] => Ret (r, [])
  | data :: datas' =>
      '(r1, evs1) ← gameAction r sid data;
      '(r2, evs2) ← gameActions r1 sid datas';
      Ret (r2, evs1 ++ evs2)
  end.

(** *** The room class *)

Definition set_player1Nation (v : option string) (s : GameState) : GameState :=
  mkGameState (currentPlayer s) (gamePhase s) (placementTurn s)
    (piecesPlacedThisTurn s) (hasMoved s) (hasAttacked s) (gameEnded s)
    (winner s) (board s) v (player2Nation s) (player1Pieces s)
    (player2Pieces s) (selectedPiece s) (selectedCell s) (selectedPieceType s).

Definition set_player2Nation (v : option string) (s : GameState) : GameState :=
  mkGameState (currentPlayer s) (gamePhase s) (placementTurn s)
    (piecesPlacedThisTurn s) (hasMoved s) (hasAttacked s) (gameEnded s)
    (winner s) (board s) (player1Nation s) v (player1Pieces s)
    (player2Pieces s) (selectedPiece s) (selectedCell s) (selectedPieceType s).

Definition set_players (v : list (SocketId * Player)) (r : GameRoom) : GameRoom :=
  mkGameRoom (roomId r) v (gameState r) (spectators r).

Definition set_spectators (v : gset SocketId) (r : GameRoom) : GameRoom :=
  mkGameRoom (roomId r) (players r) (gameState r) v.

Definition set_playerNumber (v : Z) (p : Player) : Player :=
  mkPlayer (socket_id p) v (name p) (playerNation p).

Definition set_playerNation (v : option string) (p : Player) : Player :=
  mkPlayer (socket_id p) (playerNumber p) (name p) v.

Definition initializeGameState : GameState :=
  {| currentPlayer := 1;
     gamePhase := "waiting";
     placementTurn := 1;
     piecesPlacedThisTurn := 0;
     hasMoved := false;
     hasAttacked := false;
     gameEnded := false;
     winner := None;
     board := ∅;
     player1Nation := None;
     player2Nation := None;
     player1Pieces := ∅;
     player2Pieces := ∅;
     selectedPiece := None;
     selectedCell := None;
     selectedPieceType := None |}.

Definition newGameRoom (id : string) : GameRoom :=
  {| roomId := id; players := []; gameState := initializeGameState;
     spectators := ∅ |}.

Definition addPlayer (r : GameRoom) (sid : SocketId) (playerName : string)
  : GameRoom * list Event * bool :=
  if bool_decide (2 ≤ mapSize (players r)) then
    (set_spectators ({[sid]} ∪ spectators r) r,
     [JoinedAsSpectator sid; GameStateUpdate], false)
  else
    let n := mapSize (players r) + 1 in
    let r1 := set_players (mapSet sid (mkPlayer sid n playerName None) (players r)) r in
    let '(r2, started) :=
      if bool_decide (mapSize (players r1) = 2)
      then (set_gameState (set_gamePhase "nation-selection" (gameState r1)) r1,
            [GameMessage "Game ready! Players select your nations." "info"])
      else (r1, []) in
    (r2, PlayerAssigned sid n playerName :: started ++ [GameStateUpdate; PlayerListUpdate],
     true).

(** [{...nations[key].pieces}]: a copy of the roster of a nation of the
    catalog; the empty object for a name that the catalog inherits
    (the spread of [undefined] copies nothing); a [TypeError] for any
    other key. *)
Definition nationRoster (key : string) : Js (gmap string Num) :=
  match nations key with
  | Some nation => Ret (pieces nation)
  | None => if inherited key then Ret ∅ else Throw
  end.

(** [selectNation] answers [false] for a socket without a seat and for a
    nation that another seat holds. *)
Definition selectNation (r : GameRoom) (sid : SocketId) (nationKey : string)
  : Js (GameRoom * list Event * bool) :=
  match mapGet sid (players r) with
  | None => Ret (r, [], false)
  | Some player =>
      if bool_decide (Exists (fun p => playerNation p = Some nationKey
                                       ∧ socket_id p ≠ sid)
                        (mapValues (players r)))
      then Ret (r, [], false)
      else
        let r1 := set_players
                    (mapSet sid (set_playerNation (Some nationKey) player) (players r))
                    r in
        roster ← nationRoster nationKey;
        let gs := gameState r1 in
        let gs1 :=
          if bool_decide (playerNumber player = 1)
          then set_player1Pieces roster (set_player1Nation (Some nationKey) gs)
          else set_player2Pieces roster (set_player2Nation (Some nationKey) gs) in
        let r2 := set_gameState gs1 r1 in
        let allSelected :=
          bool_decide (Forall (fun p => playerNation p ≠ None)
                         (mapValues (players r2))) in
        let '(r3, evs) :=
          if allSelected
          then (update (set_gamePhase "placement") r2,
                [GameMessage ("Nations selected! " +:+ getPlayerName r2 1
                              +:+ " goes first with placement.") "info"])
          else (r2, []) in
        Ret (r3, evs ++ [GameStateUpdate], true)
  end.

Definition removePlayer (r : GameRoom) (sid : SocketId)
  : GameRoom * list Event * bool :=
  match mapGet sid (players r) with
  | Some leaver =>
      let r1 := set_players (mapDelete sid (players r)) r in
      if bool_decide (mapSize (players r1) = 0) then (r1, [], true)
      else
        let r2 := set_gameState initializeGameState r1 in
        let evs1 := [GameMessage (name leaver +:+ " left. Game reset.") "info"] in
        (* the player object that is left is changed in place *)
        let '(r3, evs2) :=
          match players r2 with
          | [(k, remainingPlayer)] =>
              (set_players
                 [(k, set_playerNation None (set_playerNumber 1 remainingPlayer))] r2,
               [PlayerAssigned (socket_id remainingPlayer) 1 (name remainingPlayer)])
          | _ => (r2, [])
          end in
        (r3, evs1 ++ evs2 ++ [GameStateUpdate; PlayerListUpdate], false)
  | None =>
      if bool_decide (sid ∈ spectators r)
      then (set_spectators (spectators r ∖ {[sid]}) r, [], false)
      else (r, [], false)
  end.

(** *** Socket events of the room directory *)

Definition joinRoom (gameRooms : list (string * GameRoom)) (sid : SocketId)
    (roomId playerName : string) : list (string * GameRoom) * list Event :=
  if bool_decide (roomId = "") || bool_decide (playerName = "")
  then (gameRooms, [ErrorTo sid "Room ID and player name are required"])
  else
    let rooms1 := if mapHas roomId gameRooms then gameRooms
                  else mapSet roomId (newGameRoom roomId) gameRooms in
    match mapGet roomId rooms1 with
    | Some room =>
        let '(room', evs, _) := addPlayer room sid playerName in
        (mapSet roomId room' rooms1, evs)
    | None => (rooms1, [])
    end.

(** The [selectNation] listener, from the point where the room of the
    socket has been found. *)
Definition selectNationEvent (r : GameRoom) (sid : SocketId) (nationKey : string)
  : Js (GameRoom * list Event) :=
  '(r', evs, success) ← selectNation r sid nationKey;
  Ret (r', evs ++ (if (success : bool) then []
                   else [ErrorTo sid "Nation already selected or invalid"])).

Fixpoint disconnect (gameRooms : list (string * GameRoom)) (sid : SocketId)
  : list (string * GameRoom) * list Event :=
  match gameRooms with
  | [] => ([], [])
  | (id, room) :: rest =>
      let '(room', evs, shouldDeleteRoom) := removePlayer room sid in
      let '(rest', evs') := disconnect rest sid in
      (if (shouldDeleteRoom : bool) then rest' else (id, room') :: rest', evs ++ evs')
  end.

End Empires.

(** * Vocabulary of the specification and scenarios *)

Section ArcherAttackTerms.
Import Basic.




End ArcherAttackTerms.

Section BasicMovesTerms.
Import Basic.

(** The board that a move leaves behind. *)
Definition movedBoard (b : Board) (piece : Piece) (fromRow fromCol toRow toCol : Z)
  : Board :=
  <[(toRow, toCol) := healed (charged piece fromRow fromCol toRow toCol) toRow]>
    (delete (fromRow, fromCol) b).

(** What is left in a cell whose piece took [dmg] damage: nothing when
    that brings its health to 0 or below, the piece with [dmg] health
    less otherwise. *)
Definition damaged (dmg : Z) (target : Piece) : option Piece :=
  if atMost (Some (minus (health target) dmg)) 0 then None
  else Some (set_health (Some (minus (health target) dmg)) target).

Definition clearCharge (piece : Piece) : Piece :=
  if String.eqb (type piece) "Cavalry" then set_chargeDirection None piece else piece.





End BasicMovesTerms.

Section MoveBoundsTerms.

Definition edgeRoom : Basic.GameRoom :=
  {| Basic.roomId := "r";
     Basic.players := [("a", mkPlayer "a" 1 "Ann"); ("b", mkPlayer "b" 2 "Bob")];
     Basic.gameState :=
       Basic.set_selectedCell (Some (3, 5))
         (Basic.set_gamePhase "battle"
            (Basic.set_board
               (<[(3, 5) := mkPiece "Light Infantry" 1 (Some (Int 2)) (Some (Int 2)) false
                              None None None None]> ∅)
               Basic.initializeGameState));
     Basic.spectators := ∅ |}.

End MoveBoundsTerms.

Section TogglesTerms.

Definition toggleable (phase : string) : Prop :=
  phase = "waiting" ∨ phase = "placement".

(** The room [r'] is the room [r] in everything but the two ruleset
    toggles (6x7 server). *)
Definition besidesToggles (r r' : Basic.GameRoom) : Prop :=
  let gs := Basic.gameState r in
  let gs' := Basic.gameState r' in
  Basic.roomId r' = Basic.roomId r
  ∧ Basic.players r' = Basic.players r
  ∧ Basic.spectators r' = Basic.spectators r
  ∧ Basic.currentPlayer gs' = Basic.currentPlayer gs
  ∧ Basic.gamePhase gs' = Basic.gamePhase gs
  ∧ Basic.placementTurn gs' = Basic.placementTurn gs
  ∧ Basic.piecesPlacedThisTurn gs' = Basic.piecesPlacedThisTurn gs
  ∧ Basic.hasMoved gs' = Basic.hasMoved gs
  ∧ Basic.hasAttacked gs' = Basic.hasAttacked gs
  ∧ Basic.gameEnded gs' = Basic.gameEnded gs
  ∧ Basic.winner gs' = Basic.winner gs
  ∧ Basic.board gs' = Basic.board gs
  ∧ Basic.player1Pieces gs' = Basic.player1Pieces gs
  ∧ Basic.player2Pieces gs' = Basic.player2Pieces gs
  ∧ Basic.selectedPiece gs' = Basic.selectedPiece gs
  ∧ Basic.selectedCell gs' = Basic.selectedCell gs.

(** The same for the server with board size options. *)
Definition besidesTogglesSized (r r' : Sized.GameRoom) : Prop :=
  let gs := Sized.gameState r in
  let gs' := Sized.gameState r' in
  Sized.roomId r' = Sized.roomId r
  ∧ Sized.roomBoardSize r' = Sized.roomBoardSize r
  ∧ Sized.players r' = Sized.players r
  ∧ Sized.spectators r' = Sized.spectators r
  ∧ Sized.currentPlayer gs' = Sized.currentPlayer gs
  ∧ Sized.gamePhase gs' = Sized.gamePhase gs
  ∧ Sized.placementTurn gs' = Sized.placementTurn gs
  ∧ Sized.piecesPlacedThisTurn gs' = Sized.piecesPlacedThisTurn gs
  ∧ Sized.hasMoved gs' = Sized.hasMoved gs
  ∧ Sized.hasAttacked gs' = Sized.hasAttacked gs
  ∧ Sized.gameEnded gs' = Sized.gameEnded gs
  ∧ Sized.winner gs' = Sized.winner gs
  ∧ Sized.boardSize gs' = Sized.boardSize gs
  ∧ Sized.board gs' = Sized.board gs
  ∧ Sized.player1Pieces gs' = Sized.player1Pieces gs
  ∧ Sized.player2Pieces gs' = Sized.player2Pieces gs
  ∧ Sized.selectedPiece gs' = Sized.selectedPiece gs
  ∧ Sized.selectedCell gs' = Sized.selectedCell gs.

(** Seat 2 toggles line of sight while seat 1 is to play. *)
Definition placementRoom : Basic.GameRoom :=
  {| Basic.roomId := "r";
     Basic.players := [("a", mkPlayer "a" 1 "Ann"); ("b", mkPlayer "b" 2 "Bob")];
     Basic.gameState := Basic.set_gamePhase "placement" Basic.initializeGameState;
     Basic.spectators := {["s"]} |}.

End TogglesTerms.

Section DirectoryTerms.
Import Basic.

(** [sid] holds a seat in [r], and no seat is left once it is gone. *)
Definition lastSeat (r : GameRoom) (sid : SocketId) : Prop :=
  is_Some (mapGet sid (players r)) ∧ mapDelete sid (players r) = [].

#[local] Instance lastSeat_dec r sid : Decision (lastSeat r sid).
Proof. unfold lastSeat. apply _. Defined.

(** Ann and Bob take the seats of room [room1], Sam watches. *)
Definition watchedRooms : list (string * GameRoom) :=
  (joinRoom (joinRoom (joinRoom [] "a" "room1" "Ann").1 "b" "room1" "Bob").1
     "s" "room1" "Sam").1.

End DirectoryTerms.

Section QuotasTerms.

(** Seat 1 (English) opens the second placement round of an Ancient
    Empires match with 4 pieces left: one Heavy Infantry, two Light
    Infantry, one Archer. *)
Definition roundTwoRoom : Empires.GameRoom :=
  {| Empires.roomId := "r";
     Empires.players :=
       [("a", Empires.mkPlayer "a" 1 "Ann" (Some "english"));
        ("b", Empires.mkPlayer "b" 2 "Bob" (Some "spartans"))];
     Empires.gameState :=
       {| Empires.currentPlayer := 1;
          Empires.gamePhase := "placement";
          Empires.placementTurn := 2;
          Empires.piecesPlacedThisTurn := 0;
          Empires.hasMoved := false;
          Empires.hasAttacked := false;
          Empires.gameEnded := false;
          Empires.winner := None;
          Empires.board :=
            <[(1, 0) := mkPiece "General" 1 (Some (Int 3)) (Some (Int 3)) false
                          None None (Some "english") (Some 1)]>
              (<[(1, 1) := mkPiece "Cavalry" 1 (Some (Int 2)) (Some (Int 2)) false
                             None None (Some "english") (Some 1)]>
                 (<[(1, 2) := mkPiece "Cavalry" 1 (Some (Int 2)) (Some (Int 2)) false
                                None None (Some "english") (Some 1)]>
                    (<[(1, 3) := mkPiece "Heavy Infantry" 1 (Some (Int 3)) (Some (Int 3)) false
                                   None None
                                   (Some "english") (Some 1)]> ∅)));
          Empires.player1Nation := Some "english";
          Empires.player2Nation := Some "spartans";
          Empires.player1Pieces :=
            list_to_map [("General", Int 0); ("Cavalry", Int 0); ("Heavy Infantry", Int 1);
                         ("Light Infantry", Int 2); ("Archer", Int 1)];
          Empires.player2Pieces :=
            list_to_map [("General", Int 0); ("Cavalry", Int 0); ("Heavy Infantry", Int 1);
                         ("Light Infantry", Int 2); ("Archer", Int 0)];
          Empires.selectedPiece := None;
          Empires.selectedCell := None;
          Empires.selectedPieceType := None |};
     Empires.spectators := ∅ |}.

Definition twoPlaced : Empires.GameRoom * list Event :=
  match Empires.gameActions roundTwoRoom "a"
          [Empires.SelectPieceType "Light Infantry"; Empires.PlacePiece 0 0;
           Empires.SelectPieceType "Light Infantry"; Empires.PlacePiece 0 1;
           Empires.SelectPieceType "Heavy Infantry"] with
  | Ret res => res
  | Throw => (roundTwoRoom, [])
  end.

End QuotasTerms.

Section CleaveTerms.
Import Empires.
Variables (r : GameRoom) (attacker : Piece).
Variables (attackerRow attackerCol targetRow targetCol : Z).

(** The cell next to the attacker in direction [d]. *)
Definition neighbour (d : Z * Z) : Z * Z := (attackerRow + d.1, attackerCol + d.2).

(** The piece that a visit of direction [d] hits: an enemy piece on the
    board next to the attacker, not standing on the primary target's cell. *)
Definition cleaveVictim (b : Board) (d : Z * Z) : option Piece :=
  if outOfBounds (attackerRow + d.1) (attackerCol + d.2) then None
  else
    match b !! neighbour d with
    | Some p =>
        if bool_decide (player p ≠ player attacker)
           && negb (bool_decide (attackerRow + d.1 = targetRow)
                    && bool_decide (attackerCol + d.2 = targetCol))
        then Some p else None
    | None => None
    end.

(** Direction [d] holds a General that the cleave kills. *)
Definition fatal (b : Board) (d : Z * Z) : bool :=
  match cleaveVictim b d with
  | Some g => String.eqb (type g) "General" && atMost (Some (minus (health g) 1)) 0
  | None => false
  end.

(** The board once direction [d] has been visited. *)
Definition hitBoard (b : Board) (d : Z * Z) : Board :=
  match cleaveVictim b d with
  | Some p =>
      if atMost (Some (minus (health p) 1)) 0 then delete (neighbour d) b
      else <[neighbour d := set_health (Some (minus (health p) 1)) p]> b
  | None => b
  end.

(** What the loop over [dirs] makes of the state [gs]. *)
Record cleaved (dirs : list (Z * Z)) (gs gs' : GameState) : Prop := {
  cleaved_reached : ∀ pre d post,
    dirs = pre ++ d :: post → Forall (λ d', fatal (board gs) d' = false) pre →
    board gs' !! neighbour d = hitBoard (board gs) d !! neighbour d;
  cleaved_skipped : ∀ pre d post,
    dirs = pre ++ d :: post → Exists (λ d', fatal (board gs) d' = true) pre →
    board gs' !! neighbour d = board gs !! neighbour d;
  cleaved_far : ∀ k,
    (∀ d, d ∈ dirs → neighbour d ≠ k) → board gs' !! k = board gs !! k;
  cleaved_won :
    Exists (λ d, fatal (board gs) d = true) dirs →
    gameEnded gs' = true ∧ winner gs' = Some (player attacker);
  cleaved_open :
    Forall (λ d, fatal (board gs) d = false) dirs →
    gameEnded gs' = gameEnded gs ∧ winner gs' = winner gs;
  cleaved_phase : gamePhase gs' = gamePhase gs
}.

End CleaveTerms.

Section EmpiresAttackTerms.
Import Empires.

(** The attacker's cell after the ammo bookkeeping. *)
Definition spent (consume : bool) (cell : Z * Z) (b : Board) : Board :=
  if consume then alter (λ a, set_ammo (Some (decrement (ammo a))) a) cell b else b.

(** The attacker charges: it is a Cavalry, or the General of the
    Macedonians, it carries the direction of its last move, and the
    attacked cell is the next one in that direction. *)
Definition charging (attacker : Piece)
    (attackerRow attackerCol targetRow targetCol : Z) : Prop :=
  (type attacker = "Cavalry"
   ∨ (type attacker = "General" ∧ nation attacker = Some "macedonians"))
  ∧ chargeDirection attacker = Some (targetRow - attackerRow, targetCol - attackerCol)
  ∧ distance attackerRow attackerCol targetRow targetCol = 1.

(** The attack from [(attackerRow, attackerCol)] on the piece [target] on
    [(targetRow, targetCol)] brings the health of the General on cell [k]
    to 0 or below.  Either that General is the target, and one point of
    damage, or the two points of a charge, use up its health; or the
    attacker is a Spartan Heavy Infantry and the General is the first
    piece, in the order of the visit, that the cleave kills. *)
Definition fells (b : Board) (attacker target : Piece)
    (attackerRow attackerCol targetRow targetCol : Z) (k : Z * Z) : Prop :=
  (k = (targetRow, targetCol)
   ∧ type target = "General"
   ∧ (atMost (Some (minus (health target) 1)) 0 = true
      ∨ (charging attacker attackerRow attackerCol targetRow targetCol
         ∧ atMost (Some (minus (health target) 2)) 0 = true)))
  ∨ (type attacker = "Heavy Infantry"
     ∧ nation attacker = Some "spartans"
     ∧ ∃ pre d post,
         directions = pre ++ d :: post
         ∧ Forall (λ d', fatal attacker attackerRow attackerCol targetRow targetCol b d'
                         = false) pre
         ∧ fatal attacker attackerRow attackerCol targetRow targetCol b d = true
         ∧ k = neighbour attackerRow attackerCol d).

End EmpiresAttackTerms.

Section ScenariosTerms.

Definition spartan : Piece :=
  mkPiece "Heavy Infantry" 1 (Some (Int 3)) (Some (Int 3)) false
    None None (Some "spartans") (Some 1).

Definition enemyGeneral : Piece :=
  mkPiece "General" 2 (Some (Int 1)) (Some (Int 3)) false
    None None (Some "english") (Some 1).

Definition enemyInfantry : Piece :=
  mkPiece "Light Infantry" 2 (Some (Int 2)) (Some (Int 2)) false
    None None (Some "english") (Some 1).

(** A Spartan Heavy Infantry of seat 1 at (3, 3); around it the enemy
    General with 1 health (up), a Light Infantry (down) and a second
    Light Infantry (right). *)
Definition cleaveRoom : Empires.GameRoom :=
  {| Empires.roomId := "r";
     Empires.players :=
       [("a", Empires.mkPlayer "a" 1 "Ann" (Some "spartans"));
        ("b", Empires.mkPlayer "b" 2 "Bob" (Some "english"))];
     Empires.gameState :=
       {| Empires.currentPlayer := 1;
          Empires.gamePhase := "battle";
          Empires.placementTurn := 3;
          Empires.piecesPlacedThisTurn := 0;
          Empires.hasMoved := false;
          Empires.hasAttacked := false;
          Empires.gameEnded := false;
          Empires.winner := None;
          Empires.board :=
            <[(3, 3) := spartan]>
              (<[(2, 3) := enemyGeneral]>
                 (<[(4, 3) := enemyInfantry]> (<[(3, 4) := enemyInfantry]> ∅)));
          Empires.player1Nation := Some "spartans";
          Empires.player2Nation := Some "english";
          Empires.player1Pieces := ∅;
          Empires.player2Pieces := ∅;
          Empires.selectedPiece := None;
          Empires.selectedCell := None;
          Empires.selectedPieceType := None |};
     Empires.spectators := ∅ |}.

Definition killRoom : Basic.GameRoom :=
  {| Basic.roomId := "r";
     Basic.players := [("a", mkPlayer "a" 1 "Ann"); ("b", mkPlayer "b" 2 "Bob")];
     Basic.gameState :=
       Basic.set_hasMoved true
         (Basic.set_gamePhase "battle"
            (Basic.set_board
               (<[(3, 3) := mkPiece "Light Infantry" 1 (Some (Int 2)) (Some (Int 2)) false
                              None None None None]>
                  (<[(3, 4) := mkPiece "General" 2 (Some (Int 1)) (Some (Int 3)) false
                                 None None None None]>
                     (<[(6, 0) := mkPiece "Light Infantry" 2 (Some (Int 2)) (Some (Int 2)) false
                                    None None None None]>
                        ∅)))
               Basic.initializeGameState));
     Basic.spectators := ∅ |}.

Definition afterKill : Basic.GameRoom * list Event :=
  match Basic.gameActions killRoom "a" [Basic.SelectCell 3 3; Basic.SelectCell 3 4] with
  | Ret res => res
  | Throw => (killRoom, [])
  end.

Definition afterEndTurn : Basic.GameRoom * list Event :=
  match Basic.gameAction afterKill.1 "a" Basic.EndTurn with
  | Ret res => res
  | Throw => (killRoom, [])
  end.

Definition afterMove : Basic.GameRoom * list Event :=
  match Basic.gameActions afterEndTurn.1 "b" [Basic.SelectCell 6 0; Basic.SelectCell 5 0] with
  | Ret res => res
  | Throw => (killRoom, [])
  end.

End ScenariosTerms.

Section RejectionsTerms.
Import Basic.

(** The events of a rejected intent: nothing at all, or an advisory of
    kind [error] among them. *)
Definition rejected (evs : list Event) : Prop :=
  evs = [] ∨ Exists (λ e, isError e = true) evs.

Definition selRoom : GameRoom :=
  {| roomId := "r";
     players := [("a", mkPlayer "a" 1 "Ann"); ("b", mkPlayer "b" 2 "Bob")];
     gameState :=
       set_selectedCell (Some (3, 3))
         (set_gamePhase "battle"
            (set_board
               (<[(3, 3) := mkPiece "Light Infantry" 1 (Some (Int 2)) (Some (Int 2)) false
                              None None None None]> ∅)
               initializeGameState));
     spectators := ∅ |}.

End RejectionsTerms.

Section OccupancyTerms.
Import Basic.

(** The rooms that a sequence of joins, departures and game actions can
    produce from a new room. *)
Inductive reachable : GameRoom → Prop :=
| reach_new id : reachable (newGameRoom id)
| reach_join r sid playerName :
    reachable r → reachable (addPlayer r sid playerName).1.1
| reach_leave r sid :
    reachable r → reachable (removePlayer r sid).1.1
| reach_action r sid data r' evs :
    reachable r → gameAction r sid data = Ret (r', evs) → reachable r'.

(** [p'] is the piece [p], possibly with other health, ammo, charge
    direction or replenished flag. *)
Definition sameOccupant (p p' : Piece) : Prop :=
  type p = type p' ∧ player p = player p' ∧ maxHealth p = maxHealth p'.

(** No cell that held a piece holds another one afterwards: a cell that is
    occupied after the step was empty before it or holds the same piece. *)
Definition keepsOccupants (b b' : Board) : Prop :=
  ∀ k p', b' !! k = Some p' → b !! k = None ∨ ∃ p, b !! k = Some p ∧ sameOccupant p p'.

(** No piece on the board is out of health: neither its health nor its
    full health is a number at or below 0. *)
Definition alive (b : Board) : Prop :=
  ∀ k p, b !! k = Some p → atMost (health p) 0 = false ∧ atMost (maxHealth p) 0 = false.

(** The board that an attack leaves behind. *)
Definition attackedBoard (b : Board) (attacker target : Piece)
    (attackerRow attackerCol targetRow targetCol : Z) : Board :=
  let d := distance attackerRow attackerCol targetRow targetCol in
  let damage := if isCharge attacker target attackerRow attackerCol targetRow targetCol
                then 2 else 1 in
  let b1 := if String.eqb (type attacker) "Archer" && bool_decide (1 < d)
            then alter (λ a, set_ammo (Some (decrement (ammo a))) a)
                   (attackerRow, attackerCol) b
            else b in
  if atMost (Some (minus (health target) damage)) 0 then delete (targetRow, targetCol) b1
  else <[(targetRow, targetCol) := set_health (Some (minus (health target) damage)) target]>
         b1.

(** The piece object that [handlePlacePiece] builds from the health [h]
    and the ammo [a] that it reads in the catalog. *)
Definition pieceObject (pieceType : string) (seat : Z) (h a : option Num) : Piece :=
  mkPiece pieceType seat h h false (if String.eqb pieceType "Archer" then a else None)
    None None None.

(** The piece built for an entry of the catalog. *)
Definition pieceData (pieceType : string) (seat h : Z) (a : option Z) : Piece :=
  pieceObject pieceType seat (Some (Int h)) (Int <$> a).

(** Ann and Bob have joined room [room1] and Ann has placed her General. *)
Definition openingRoom : GameRoom :=
  match
    gameAction
      (addPlayer (addPlayer (newGameRoom "room1") "a" "Ann").1.1 "b" "Bob").1.1
      "a" (PlacePiece "General" 0 0)
  with
  | Ret res => res.1
  | Throw => newGameRoom "room1"
  end.

(** The same seats, but Ann's first piece is of the type [constructor],
    a name that every object inherits. *)
Definition strayRoom : GameRoom :=
  match
    gameAction
      (addPlayer (addPlayer (newGameRoom "room1") "a" "Ann").1.1 "b" "Bob").1.1
      "a" (PlacePiece "constructor" 0 0)
  with
  | Ret res => res.1
  | Throw => newGameRoom "room1"
  end.

End OccupancyTerms.

(** ** Seats, turns and boards of any size *)

Section SeatsTerms.
Import Basic.

(** The seats of a room are well formed: at most two of them, each
    stored under the id of its socket, no socket twice, numbered 1 or 2. *)
Definition seated (players : list (SocketId * Player)) : Prop :=
  mapSize players ≤ 2
  ∧ NoDup players.*1
  ∧ Forall (fun kv => socket_id kv.2 = kv.1
                      ∧ (playerNumber kv.2 = 1 ∨ playerNumber kv.2 = 2)) players.

(** The intents that are bound to a turn: all but the ruleset toggles. *)
Definition turnBound (data : Action) : Prop :=
  match data with
  | ToggleOption _ => False
  | _ => True
  end.

(** A room with one seat, and the same room after the seated socket has
    joined once more and a second socket has joined. *)
Definition loneRoom : GameRoom := (addPlayer (newGameRoom "room1") "a" "Ann").1.1.

Definition twoRoom : GameRoom := (addPlayer loneRoom "b" "Bob").1.1.

End SeatsTerms.

Section PlacementTerms.
Import Basic.

(** The roster of a seat: seat 1 has [player1Pieces], every other seat
    number [player2Pieces]. *)
Definition rosterOf (gs : GameState) (seat : Z) : gmap string Num :=
  if bool_decide (seat = 1) then player1Pieces gs else player2Pieces gs.

(** The rows of the placement zone of a seat. *)
Definition inZone (seat row : Z) : Prop :=
  if bool_decide (seat = 1) then row ≤ 2 else 4 ≤ row.

(** What an accepted placement leaves behind. *)
Definition placed (gs : GameState) (seat : Z) (pieceType : string)
    (row col h : Z) (a : option Z) : GameState :=
  let roster := <[pieceType := decrement (rosterOf gs seat !! pieceType)]> (rosterOf gs seat) in
  let gs1 := set_board (<[(row, col) := pieceData pieceType seat h a]> (board gs)) gs in
  set_piecesPlacedThisTurn (piecesPlacedThisTurn gs + 1)
    (if bool_decide (seat = 1) then set_player1Pieces roster gs1
     else set_player2Pieces roster gs1).

(** Bob's turn in the battle phase. *)
Definition battleRoom : GameRoom :=
  update (set_currentPlayer 2) (update (set_gamePhase "battle") placementRoom).

End PlacementTerms.

Section TurnsTerms.
Import Basic.

(** The fields that the end of a turn does not touch. *)
Definition sameMatch (gs gs' : GameState) : Prop :=
  player1Pieces gs' = player1Pieces gs
  ∧ player2Pieces gs' = player2Pieces gs
  ∧ lineOfSightEnabled gs' = lineOfSightEnabled gs
  ∧ limitedRangeEnabled gs' = limitedRangeEnabled gs
  ∧ gameEnded gs' = gameEnded gs
  ∧ winner gs' = winner gs.

(** The seat that moves after [seat]. *)
Definition nextSeat (seat : Z) : Z := if bool_decide (seat = 1) then 2 else 1.

(** Bob's second placement turn, with his four pieces placed. *)
Definition lastPlacementRoom : GameRoom :=
  update (set_piecesPlacedThisTurn 4)
    (update (set_placementTurn 2) (update (set_currentPlayer 2) placementRoom)).

End TurnsTerms.

Section BasicRulesTerms.
Import Basic.

(** Ann's archer with two arrows stands on (0, 0) and is selected, Bob's
    General on (0, 3); Ann has moved. *)
Definition quiverRoom : GameRoom :=
  {| roomId := "r";
     players := [("a", mkPlayer "a" 1 "Ann"); ("b", mkPlayer "b" 2 "Bob")];
     gameState :=
       set_selectedCell (Some (0, 0))
         (set_hasMoved true
            (set_gamePhase "battle"
               (set_board
                  (<[(0, 0) := mkPiece "Archer" 1 (Some (Int 2)) (Some (Int 2)) false
                                 (Some (Int 2)) None None None]>
                     (<[(0, 3) := mkPiece "General" 2 (Some (Int 3)) (Some (Int 3)) false
                                    None None None None]> ∅))
                  initializeGameState)));
     spectators := ∅ |}.

End BasicRulesTerms.

Section SizedTerms.
Import Sized.

(** The board of the game state is the board of the room. *)
Definition wellSized (r : GameRoom) : Prop :=
  boardSize (gameState r) = roomBoardSize r.

(** The sizes for which the two [Array] calls of [initializeGameState]
    go through. *)
Definition buildable (size : BoardSize) : Prop :=
  0 ≤ height size < 2 ^ 32 ∧ (0 < height size → 0 ≤ width size < 2 ^ 32).

(** The state of a room that has just been opened by its first socket. *)
Definition openedState (size : BoardSize) : GameState :=
  {| currentPlayer := 1;
     gamePhase := "waiting";
     placementTurn := 1;
     piecesPlacedThisTurn := 0;
     hasMoved := false;
     hasAttacked := false;
     gameEnded := false;
     winner := None;
     boardSize := size;
     board := ∅;
     player1Pieces := startingPieces;
     player2Pieces := startingPieces;
     lineOfSightEnabled := false;
     limitedRangeEnabled := false;
     selectedPiece := None;
     selectedCell := None |}.

Definition openedRoom (id : string) (size : BoardSize) (sid : SocketId)
    (playerName : string) : GameRoom :=
  {| roomId := id; roomBoardSize := size;
     players := [(sid, mkPlayer sid 1 playerName)];
     gameState := openedState size; spectators := ∅ |}.


(** A 4x5 room opened by Ann. *)
Definition smallRoom : GameRoom := openedRoom "room1" (mkBoardSize 4 5) "a" "Ann".

End SizedTerms.

Section SizedPlayTerms.
Import Sized.

(** Ann and Bob on the 4x5 board, placement phase. *)
Definition fieldRoom : GameRoom := (addPlayer smallRoom "b" "Bob" None).1.1.

Definition fieldPlaced : GameRoom * list Event :=
  match handlePlacePiece fieldRoom (mkPlayer "a" 1 "Ann") "Archer" 1 0 with
  | Ret res => res
  | Throw => (fieldRoom, [])
  end.

(** Ann's cavalry on (3, 1) of the 4x5 board is selected in the battle
    phase; Bob's archer stands next to it on (3, 2). *)
Definition skirmishRoom : GameRoom :=
  update (set_selectedCell (Some (3, 1)))
    (update (set_gamePhase "battle")
       (update (set_board
                  (<[(3, 1) := mkPiece "Cavalry" 1 (Some (Int 2)) (Some (Int 2)) false
                                 None (Some (1, 0)) None None]>
                     (<[(3, 2) := mkPiece "Archer" 2 (Some (Int 1)) (Some (Int 2)) false
                                    (Some (Int 3)) None None None]> ∅)))
          fieldRoom)).

(** What [movePiece] leaves on the board. *)
Definition sizedMoved (r : GameRoom) (piece : Piece)
    (fromRow fromCol toRow toCol : Z) : Board :=
  <[(toRow, toCol) := healed r (Basic.charged piece fromRow fromCol toRow toCol) toRow]>
    (delete (fromRow, fromCol) (board (gameState r))).

(** The row on which the pieces of a seat are replenished. *)
Definition farRow (r : GameRoom) (seat row : Z) : Prop :=
  (seat = 1 ∧ row = height (roomBoardSize r) - 1) ∨ (seat = 2 ∧ row = 0).

End SizedPlayTerms.

Section NationsTerms.
Import Empires.

(** The game state after a seat has taken a nation of the catalog. *)
Definition chosen (gs : GameState) (seat : Z) (key : string) (nation : Nation)
  : GameState :=
  if bool_decide (seat = 1)
  then set_player1Pieces (pieces nation) (set_player1Nation (Some key) gs)
  else set_player2Pieces (pieces nation) (set_player2Nation (Some key) gs).

(** A property of every seat of the room but the one of [sid]. *)
Definition otherSeats (r : GameRoom) (sid : SocketId) (P : Player → Prop) : Prop :=
  ∀ k q, (k, q) ∈ players r → k ≠ sid → P q.

(** Ann (English) and Bob (Spartans) in the battle phase. *)
Definition warRoom : GameRoom :=
  update (set_placementTurn 3) (update (set_gamePhase "battle") roundTwoRoom).

End NationsTerms.

Section EmpiresPlacementTerms.
Import Empires.

(** The roster of a seat: seat 1 has [player1Pieces], every other seat
    number [player2Pieces]. *)
Definition empireRoster (gs : GameState) (seat : Z) : gmap string Num :=
  if bool_decide (seat = 1) then player1Pieces gs else player2Pieces gs.

(** The rows of the deployment zone of a seat. *)
Definition deployment (seat row : Z) : Prop :=
  if bool_decide (seat = 1) then 0 ≤ row ≤ 2 else 4 ≤ row ≤ 6.

(** Ann (English, seat 1) in the first placement round, about to place a
    Horse Archer, a piece type that the English roster does not list. *)
Definition recruitRoom : GameRoom :=
  update (set_selectedPieceType (Some "Horse Archer"))
    (update (set_placementTurn 1) roundTwoRoom).

Definition recruited : GameRoom * list Event :=
  match handlePlacePiece recruitRoom (mkPlayer "a" 1 "Ann" (Some "english")) 0 0 with
  | Ret res => res
  | Throw => (recruitRoom, [])
  end.

End EmpiresPlacementTerms.

Section EmpiresRulesTerms.
Import Empires.

(** How far the arrows of an archer fly: four cells, five for an archer
    of the English. *)
Definition archerReach (piece : Piece) : Z :=
  if bool_decide (nation piece = Some "english") then 5 else 4.

(** The pieces that shoot over [d] cells. *)
Definition shoots (piece : Piece) (d : Z) : Prop :=
  (type piece = "Archer" ∧ d ≤ archerReach piece)
  ∨ (type piece = "Horse Archer" ∧ d ≤ 4).

(** The attacks after which an archer has as many arrows as before: on
    an adjacent piece, and for the English on a piece with one health
    point or less. *)
Definition keepsArrow (attacker target : Piece) (d : Z) : bool :=
  bool_decide (d ≤ 1)
  || (bool_decide (nation attacker = Some "english") && atMost (health target) 1).

(** Ann's English archer on (2, 0) and Bob's wounded Spartan cavalry on
    (2, 4), battle phase. *)
Definition volleyRoom : GameRoom :=
  update (set_board
            (<[(2, 0) := mkPiece "Archer" 1 (Some (Int 2)) (Some (Int 2)) false
                           (Some (Int 3)) None (Some "english") (Some 1)]>
               (<[(2, 4) := mkPiece "Cavalry" 2 (Some (Int 1)) (Some (Int 2)) false
                              None None (Some "spartans") (Some 1)]>
                  ∅)))
    warRoom.

End EmpiresRulesTerms.

(** * Properties *)

(** ** Catalog entries *)

Section Catalogs.

Lemma assign_own (key : string) (v : Num) (object : gmap string Num) :
  key ≠ "__proto__" → assign key v object = <[key := v]> object.
Proof. intros Hkey. unfold assign. by rewrite (proj2 (String.eqb_neq _ _) Hkey). Qed.

(** The types of a catalog are read with their numbers, and none of
    them is [__proto__]. *)
Lemma Basic_typeStats_own (t : string) (h : Z) (a : option Z) :
  Basic.pieceTypes t = Some (h, a) →
  Basic.typeStats t = Ret (Some (Int h), Int <$> a) ∧ t ≠ "__proto__".
Proof.
  intros Hty. split; [unfold Basic.typeStats; by rewrite Hty|].
  intros ->. by vm_compute in Hty.
Qed.

Lemma Empires_typeStats_own (t : string) (h : Z) (a : option Z) :
  Empires.pieceTypes t = Some (h, a) →
  Empires.typeStats t = Ret (Some (Int h), Int <$> a) ∧ t ≠ "__proto__".
Proof.
  intros Hty. split; [unfold Empires.typeStats; by rewrite Hty|].
  intros ->. by vm_compute in Hty.
Qed.

End Catalogs.

(** ** Line of sight and archer attacks (6x7 server) *)

Section ArcherAttack.
Import Basic.






Lemma readCell_ok (b : Board) r c :
  0 ≤ r < height → readCell height b r c = Ret (b !! (r, c)).
Proof. intros. unfold readCell, rowExists. by rewrite bool_decide_eq_true_2. Qed.





End ArcherAttack.

(** ** Moves and attacks through [handleSelectCell] (6x7 server) *)

Section BasicMoves.
Import Basic.

Lemma writeCell_ok (b : Board) r c v :
  0 ≤ r < height →
  writeCell height b r c v
  = Ret (match v with Some p => <[(r, c) := p]> b | None => delete (r, c) b end).
Proof. intros. unfold writeCell, rowExists. by rewrite bool_decide_eq_true_2. Qed.

Lemma isPlayerTurn_update (f : GameState → GameState) r sid :
  currentPlayer (f (gameState r)) = currentPlayer (gameState r) →
  isPlayerTurn (update f r) sid = isPlayerTurn r sid.
Proof.
  intros Hcur. unfold isPlayerTurn, getPlayerBySocketId, update. simpl.
  by rewrite Hcur.
Qed.

Lemma alter_moved (b : Board) (src dst : Z * Z) (p q : Piece) :
  src ≠ dst →
  alter (λ _, q) dst (delete src (<[dst := p]> b)) = <[dst := q]> (delete src b).
Proof.
  intros Hne. apply map_eq. intros k. destruct (decide (k = dst)) as [->|Hk].
  - by rewrite lookup_alter_eq, lookup_delete_ne, !lookup_insert_eq by done.
  - rewrite lookup_alter_ne, lookup_insert_ne by done.
    destruct (decide (k = src)) as [->|Hk'].
    + by rewrite !lookup_delete_eq.
    + by rewrite !lookup_delete_ne, lookup_insert_ne by done.
Qed.

Lemma movePiece_ok r piece fromRow fromCol toRow toCol :
  0 ≤ fromRow < height → 0 ≤ toRow < height →
  board (gameState r) !! (fromRow, fromCol) = Some piece →
  (fromRow, fromCol) ≠ (toRow, toCol) →
  movePiece r fromRow fromCol toRow toCol
  = Ret (update (set_board
                   (movedBoard (board (gameState r)) piece fromRow fromCol toRow toCol)) r,
         (checkForHealing r (charged piece fromRow fromCol toRow toCol) toRow).2).
Proof.
  intros Hf Ht Hpiece Hne. unfold movePiece.
  rewrite readCell_ok, Hpiece by done. simpl.
  rewrite writeCell_ok by done. simpl. rewrite writeCell_ok by done. simpl.
  unfold update, movedBoard. by rewrite alter_moved.
Qed.




Lemma handleSelectCell_attack r who attacker target selRow selCol row col :
  gamePhase (gameState r) = "battle" →
  isPlayerTurn r (socket_id who) = true →
  selectedCell (gameState r) = Some (selRow, selCol) →
  0 ≤ selRow < height → 0 ≤ row < height →
  board (gameState r) !! (selRow, selCol) = Some attacker →
  board (gameState r) !! (row, col) = Some target →
  player target ≠ player attacker →
  canAttack attacker selRow selCol row col (gameState r) = Ret true →
  hasMoved (gameState r) = true →
  hasAttacked (gameState r) = false →
  handleSelectCell r who row col
  = '(r1, evs) ← attackPiece r selRow selCol row col;
    Ret (update (set_selectedCell None) (update (set_hasAttacked true) r1),
         evs ++ [GameStateUpdate]).
Proof.
  intros Hphase Hturn Hsel Hsr Hr Hattacker Htarget Henemy Hcan Hmoved Hattacked.
  assert (Hne : ¬ (selRow = row ∧ selCol = col)).
  { intros [-> ->]. congruence. }
  unfold handleSelectCell. rewrite Hphase, Hturn, Hsel. simpl.
  rewrite !readCell_ok by done. rewrite Hattacker, Htarget. simpl.
  destruct (bool_decide (selRow = row) && bool_decide (selCol = col)) eqn:Hsame.
  { apply andb_true_iff in Hsame as [H1 H2].
    apply bool_decide_eq_true in H1, H2. tauto. }
  rewrite bool_decide_eq_true_2 by done. rewrite Hcan, Hmoved, Hattacked. simpl.
  by destruct (attackPiece r selRow selCol row col) as [[r1 evs]|].
Qed.



(** *** Clearing charge directions *)

Lemma clearCharge_idemp piece : clearCharge (clearCharge piece) = clearCharge piece.
Proof.
  unfold clearCharge. destruct (String.eqb (type piece) "Cavalry") eqn:Hcav; simpl.
  - by rewrite Hcav.
  - by rewrite Hcav.
Qed.

Lemma clearChargeAt_lookup (b : Board) (rc k : Z * Z) :
  clearChargeAt b rc !! k = if decide (k = rc) then clearCharge <$> b !! k else b !! k.
Proof.
  unfold clearChargeAt, clearCharge. destruct (decide (k = rc)) as [->|Hk].
  - destruct (b !! rc) as [p|] eqn:Hp; simpl; [|by rewrite Hp].
    destruct (String.eqb (type p) "Cavalry").
    + by rewrite lookup_insert_eq.
    + by rewrite Hp.
  - destruct (b !! rc) as [p|]; [|done].
    destruct (String.eqb (type p) "Cavalry"); [|done].
    by rewrite lookup_insert_ne.
Qed.

Lemma foldl_clearChargeAt_lookup (cells : list (Z * Z)) (b : Board) (k : Z * Z) :
  foldl clearChargeAt b cells !! k
  = if decide (k ∈ cells) then clearCharge <$> b !! k else b !! k.
Proof.
  revert b. induction cells as [|rc cells IH]; intros b; cbn [foldl].
  - rewrite decide_False; [done | apply not_elem_of_nil].
  - rewrite IH, clearChargeAt_lookup.
    destruct (decide (k = rc)) as [->|Hk].
    + rewrite (decide_True (P := rc ∈ rc :: cells)) by (apply elem_of_cons; auto).
      destruct (decide (rc ∈ cells)); [|done].
      destruct (b !! rc) as [p|]; simpl; [|done]. by rewrite clearCharge_idemp.
    + destruct (decide (k ∈ cells)) as [Hin|Hout].
      * rewrite decide_True; [done | apply elem_of_cons; auto].
      * rewrite decide_False; [done|]. rewrite elem_of_cons. tauto.
Qed.

Lemma elem_of_boardCells h w r c :
  (r, c) ∈ boardCells h w ↔ 0 ≤ r < h ∧ 0 ≤ c < w.
Proof.
  unfold boardCells. rewrite list_elem_of_bind. split.
  - intros (r' & Hc & Hr). apply list_elem_of_bind in Hc as (c' & Hrc & Hc).
    apply list_elem_of_singleton in Hrc as [= -> ->].
    apply elem_of_seqZ in Hr, Hc. lia.
  - intros [Hr Hc]. exists r. split; [|apply elem_of_seqZ; lia].
    apply list_elem_of_bind. exists c. split; [|apply elem_of_seqZ; lia].
    by apply list_elem_of_singleton.
Qed.

Lemma clearChargeDirections_lookup (b : Board) r c :
  clearChargeDirections b !! (r, c)
  = if decide (0 ≤ r < 7 ∧ 0 ≤ c < 6) then clearCharge <$> b !! (r, c) else b !! (r, c).
Proof.
  unfold clearChargeDirections. rewrite foldl_clearChargeAt_lookup.
  destruct (decide ((r, c) ∈ boardCells 7 6)) as [Hin|Hout].
  - rewrite decide_True; [done | by apply elem_of_boardCells].
  - rewrite decide_False; [done | by rewrite <- elem_of_boardCells].
Qed.

(** *** Ending a turn *)

(** An end of turn from the active seat is accepted unless the phase is
    [placement] and the seat has not placed exactly 4 pieces. *)
Lemma handleEndTurn_accepted r who :
  isPlayerTurn r (socket_id who) = true →
  (gamePhase (gameState r) = "placement" → piecesPlacedThisTurn (gameState r) = 4) →
  ∃ r' evs,
    handleEndTurn r who = Ret (r', evs)
    ∧ board (gameState r') = clearChargeDirections (board (gameState r))
    ∧ selectedCell (gameState r') = None
    ∧ hasMoved (gameState r') = false
    ∧ hasAttacked (gameState r') = false
    ∧ (gamePhase (gameState r) = "placement" → piecesPlacedThisTurn (gameState r') = 0)
    ∧ currentPlayer (gameState r')
      = (if bool_decide (currentPlayer (gameState r) = 1) then 2 else 1)
    ∧ Forall (λ e, isError e = false) evs.
Proof.
  intros Hturn Hquota. unfold handleEndTurn. rewrite Hturn. simpl.
  destruct (String.eqb (gamePhase (gameState r)) "placement") eqn:Hplace; simpl.
  - apply String.eqb_eq in Hplace. rewrite bool_decide_eq_true_2 by auto. simpl.
    repeat case_bool_decide; (do 2 eexists; split; [done|]); simpl;
      repeat split; try done; repeat constructor.
  - apply String.eqb_neq in Hplace. do 2 eexists; split; [done|]. simpl.
    repeat split; try done; repeat constructor.
Qed.

Lemma handleEndTurn_rejected r who :
  isPlayerTurn r (socket_id who) = true →
  gamePhase (gameState r) = "placement" →
  piecesPlacedThisTurn (gameState r) ≠ 4 →
  handleEndTurn r who
  = Ret (r, [GameMessage "You must place exactly 4 pieces before ending your turn!"
               "error"]).
Proof.
  intros Hturn Hplace Hquota. unfold handleEndTurn. rewrite Hturn, Hplace. simpl.
  by rewrite bool_decide_eq_false_2.
Qed.

(** *** The charge *)

Lemma healed_fields piece row :
  type (healed piece row) = type piece
  ∧ player (healed piece row) = player piece
  ∧ chargeDirection (healed piece row) = chargeDirection piece.
Proof.
  unfold healed. destruct (shouldHeal piece row); [|done].
  by destruct (String.eqb (type piece) "Archer").
Qed.

Lemma charged_fields piece fromRow fromCol toRow toCol :
  type (charged piece fromRow fromCol toRow toCol) = type piece
  ∧ player (charged piece fromRow fromCol toRow toCol) = player piece.
Proof.
  unfold charged. destruct (String.eqb (type piece) "Cavalry"); [|done].
  by case_bool_decide.
Qed.






End BasicMoves.

(** ** Destinations of moves *)

Section MoveBounds.

(** In the server with a configurable board, a destination that [canMove]
    accepts lies on the board of the room. *)
Lemma Sized_canMove_in_bounds piece fromRow fromCol toRow toCol size :
  Sized.canMove piece fromRow fromCol toRow toCol size = true →
  0 ≤ toRow < Sized.height size ∧ 0 ≤ toCol < Sized.width size.
Proof.
  unfold Sized.canMove. intros Hcan.
  destruct (_ || _) eqn:Hout in Hcan; [done|].
  rewrite !orb_false_iff in Hout. destruct Hout as [[[H1 H2] H3] H4].
  apply bool_decide_eq_false in H1, H2, H3, H4. lia.
Qed.

Lemma Sized_canMove_in_bounds_witness :
  0 ≤ 3 < Sized.height (Sized.mkBoardSize 6 7)
  ∧ 0 ≤ 4 < Sized.width (Sized.mkBoardSize 6 7).
Proof.
  apply (Sized_canMove_in_bounds
           (mkPiece "Light Infantry" 1 (Some (Int 2)) (Some (Int 2)) false
              None None None None)
           3 5 3 4 (Sized.mkBoardSize 6 7)).
  reflexivity.
Defined.

(** In the Ancient Empires server, a destination that [canMove] accepts
    lies on the 7x7 board. *)
Lemma Empires_canMove_in_bounds piece fromRow fromCol toRow toCol :
  Empires.canMove piece fromRow fromCol toRow toCol = true →
  0 ≤ toRow < 7 ∧ 0 ≤ toCol < 7.
Proof.
  unfold Empires.canMove, Empires.outOfBounds. intros Hcan.
  destruct (_ || _) eqn:Hout in Hcan; [done|].
  rewrite !orb_false_iff in Hout. destruct Hout as [[[H1 H2] H3] H4].
  apply bool_decide_eq_false in H1, H2, H3, H4. lia.
Qed.

Lemma Empires_canMove_in_bounds_witness : 0 ≤ 3 < 7 ∧ 0 ≤ 6 < 7.
Proof.
  apply (Empires_canMove_in_bounds
           (mkPiece "Light Infantry" 1 (Some (Int 2)) (Some (Int 2)) false
              None None None None)
           3 5 3 6).
  reflexivity.
Defined.

(** C9.  In the 6x7 server [canMove] has no bounds check: a Light
    Infantry on the last column, (3, 5), may step to column 6, which is
    not on the 6 columns wide board, and [handleSelectCell] stores the
    piece there.  The two other servers refuse such a destination. *)
Theorem Basic_canMove_leaves_board :
  Basic.canMove (mkPiece "Light Infantry" 1 (Some (Int 2)) (Some (Int 2)) false
                   None None None None) 3 5 3 6 = true
  ∧ ¬ (0 ≤ 6 < Basic.width)
  ∧ (∃ r' evs,
        Basic.gameAction edgeRoom "a" (Basic.SelectCell 3 6) = Ret (r', evs)
        ∧ Basic.board (Basic.gameState r') !! (3, 6)
          = Some (mkPiece "Light Infantry" 1 (Some (Int 2)) (Some (Int 2)) false
                    None None None None)
        ∧ Basic.board (Basic.gameState r') !! (3, 5) = None)
  ∧ Sized.canMove (mkPiece "Light Infantry" 1 (Some (Int 2)) (Some (Int 2)) false
                     None None None None) 3 5 3 6
      (Sized.mkBoardSize 6 7) = false
  ∧ Empires.canMove (mkPiece "Light Infantry" 1 (Some (Int 2)) (Some (Int 2)) false
                       None None None None) 3 6 3 7
    = false.
Proof.
  split; [reflexivity|]. split; [unfold Basic.width; lia|].
  split; [|split; reflexivity].
  do 2 eexists. split; [vm_compute; reflexivity|]. split; by vm_compute.
Qed.

End MoveBounds.

(** ** Ruleset toggles *)

Section Toggles.

Lemma toggle_gate phase :
  negb (String.eqb phase "placement") && negb (String.eqb phase "waiting") = false
  ↔ toggleable phase.
Proof.
  unfold toggleable.
  destruct (String.eqb_spec phase "placement") as [Hp|Hp];
    destruct (String.eqb_spec phase "waiting") as [Hw|Hw]; simpl; try tauto.
  split; [done|]. intros [?|?]; done.
Qed.

(** C10.  [toggleOption] never looks at whose turn it is.  In the 6x7
    server a socket without a seat (a spectator, for one) changes
    nothing.  A seated socket, in the phases [waiting] and [placement],
    flips [lineOfSightEnabled] with option [lineOfSight] and
    [limitedRangeEnabled] with option [limitedRange]: the flag has the
    opposite value afterwards, the other flag and everything else in the
    room are as before.  In every other phase the room is left as it
    was.  The handler of the server with board size options behaves
    alike. *)
Theorem toggleOption_gating :
  (∀ (r : Basic.GameRoom) sid option,
      Basic.getPlayerBySocketId r sid = None →
      Basic.gameAction r sid (Basic.ToggleOption option) = Ret (r, []))
  ∧ (∀ (r : Basic.GameRoom) sid who,
        Basic.getPlayerBySocketId r sid = Some who →
        toggleable (Basic.gamePhase (Basic.gameState r)) →
        (∃ r' evs,
            Basic.gameAction r sid (Basic.ToggleOption "lineOfSight") = Ret (r', evs)
            ∧ Basic.lineOfSightEnabled (Basic.gameState r')
              = negb (Basic.lineOfSightEnabled (Basic.gameState r))
            ∧ Basic.limitedRangeEnabled (Basic.gameState r')
              = Basic.limitedRangeEnabled (Basic.gameState r)
            ∧ besidesToggles r r')
        ∧ (∃ r' evs,
              Basic.gameAction r sid (Basic.ToggleOption "limitedRange") = Ret (r', evs)
              ∧ Basic.limitedRangeEnabled (Basic.gameState r')
                = negb (Basic.limitedRangeEnabled (Basic.gameState r))
              ∧ Basic.lineOfSightEnabled (Basic.gameState r')
                = Basic.lineOfSightEnabled (Basic.gameState r)
              ∧ besidesToggles r r'))
  ∧ (∀ (r : Basic.GameRoom) sid option,
        ¬ toggleable (Basic.gamePhase (Basic.gameState r)) →
        Basic.gameAction r sid (Basic.ToggleOption option) = Ret (r, []))
  ∧ (∀ (r : Sized.GameRoom) who,
        toggleable (Sized.gamePhase (Sized.gameState r)) →
        (∃ r' evs,
            Sized.handleToggleOption r who "lineOfSight" = Ret (r', evs)
            ∧ Sized.lineOfSightEnabled (Sized.gameState r')
              = negb (Sized.lineOfSightEnabled (Sized.gameState r))
            ∧ Sized.limitedRangeEnabled (Sized.gameState r')
              = Sized.limitedRangeEnabled (Sized.gameState r)
            ∧ besidesTogglesSized r r')
        ∧ (∃ r' evs,
              Sized.handleToggleOption r who "limitedRange" = Ret (r', evs)
              ∧ Sized.limitedRangeEnabled (Sized.gameState r')
                = negb (Sized.limitedRangeEnabled (Sized.gameState r))
              ∧ Sized.lineOfSightEnabled (Sized.gameState r')
                = Sized.lineOfSightEnabled (Sized.gameState r)
              ∧ besidesTogglesSized r r'))
  ∧ (∀ (r : Sized.GameRoom) who option,
        ¬ toggleable (Sized.gamePhase (Sized.gameState r)) →
        Sized.handleToggleOption r who option = Ret (r, [])).
Proof.
  split; [|split; [|split; [|split]]].
  - intros r sid option Hnone. unfold Basic.gameAction. by rewrite Hnone.
  - intros r sid who Hwho Hphase. unfold Basic.gameAction. rewrite Hwho.
    apply toggle_gate in Hphase. unfold Basic.handleToggleOption.
    rewrite Hphase. simpl.
    split; do 2 eexists; (split; [reflexivity|]); simpl;
      (split; [done|]); (split; [done|]); unfold besidesToggles; by simpl.
  - intros r sid option Hphase. unfold Basic.gameAction.
    destruct (Basic.getPlayerBySocketId r sid) as [who|]; [|done].
    unfold Basic.handleToggleOption.
    destruct (negb _ && negb _) eqn:Hgate; [done|].
    by apply toggle_gate in Hgate.
  - intros r who Hphase. apply toggle_gate in Hphase.
    unfold Sized.handleToggleOption. rewrite Hphase. simpl.
    split; do 2 eexists; (split; [reflexivity|]); simpl;
      (split; [done|]); (split; [done|]); unfold besidesTogglesSized; by simpl.
  - intros r who option Hphase. unfold Sized.handleToggleOption.
    destruct (negb _ && negb _) eqn:Hgate; [done|].
    by apply toggle_gate in Hgate.
Qed.

(** Bob toggles line of sight while it is Ann's turn; Sam, who watches,
    changes nothing. *)
Lemma toggleOption_gating_witness :
  Basic.isPlayerTurn placementRoom "b" = false
  ∧ Basic.lineOfSightEnabled (Basic.gameState placementRoom) = false
  ∧ (∃ r' evs,
        Basic.gameAction placementRoom "b" (Basic.ToggleOption "lineOfSight")
        = Ret (r', evs)
        ∧ Basic.lineOfSightEnabled (Basic.gameState r') = true
        ∧ Basic.limitedRangeEnabled (Basic.gameState r') = false
        ∧ besidesToggles placementRoom r')
  ∧ Basic.gameAction placementRoom "s" (Basic.ToggleOption "lineOfSight")
    = Ret (placementRoom, []).
Proof.
  split; [reflexivity|]. split; [reflexivity|]. split.
  - apply (proj1 (proj2 toggleOption_gating) placementRoom "b" (mkPlayer "b" 2 "Bob")).
    + reflexivity.
    + right. reflexivity.
  - apply (proj1 toggleOption_gating placementRoom "s" "lineOfSight"). reflexivity.
Defined.

End Toggles.

(** ** Removing rooms from the directory *)

Section Directory.
Import Basic.

Lemma removePlayer_true r sid : (removePlayer r sid).2 = true ↔ lastSeat r sid.
Proof.
  unfold removePlayer, lastSeat.
  destruct (mapGet sid (players r)) as [leaver|] eqn:Hget.
  - simpl. unfold mapSize.
    destruct (mapDelete sid (players r)) as [|[k p] rest] eqn:Hdel.
    + simpl. split; [by eauto | done].
    + rewrite bool_decide_eq_false_2 by (simpl; lia).
      destruct rest as [|kp rest']; simpl; (split; [done | by intros [_ ?]]).
  - split.
    + by case_bool_decide.
    + by intros [[? ?] _].
Qed.

Lemma disconnect_rooms gameRooms sid :
  (disconnect gameRooms sid).1.*1
  = (filter (λ kv, ¬ lastSeat kv.2 sid) gameRooms).*1.
Proof.
  induction gameRooms as [|[id room] rest IH]; [done|].
  cbn [disconnect].
  destruct (removePlayer room sid) as [[room' evs] del] eqn:Hrm.
  destruct (disconnect rest sid) as [rest' evs'] eqn:Hrest.
  simpl in IH. rewrite filter_cons. simpl.
  assert (Hdel : del = true ↔ lastSeat room sid).
  { rewrite <- removePlayer_true. by rewrite Hrm. }
  destruct del.
  - rewrite decide_False; [done|]. intros Hnot. apply Hnot. by apply Hdel.
  - rewrite decide_True; [by rewrite fmap_cons, IH|].
    intros Hlast. apply Hdel in Hlast. done.
Qed.

(** C8, as the code has it.  A departure removes a room from the
    directory exactly when the departing socket held a seat of that room
    and no seat is left after it: [removePlayer] answers [true] in that
    case and in no other, whatever the set of spectators, and
    [disconnect] keeps exactly the rooms for which it answered [false].
    A socket without a seat, a spectator included, never removes a
    room. *)
Theorem room_removed_with_last_seat :
  (∀ r sid, (removePlayer r sid).2 = true ↔ lastSeat r sid)
  ∧ (∀ r sid spectators',
        (removePlayer (set_spectators spectators' r) sid).2 = (removePlayer r sid).2)
  ∧ (∀ r sid, mapGet sid (players r) = None → (removePlayer r sid).2 = false)
  ∧ (∀ gameRooms sid,
        (disconnect gameRooms sid).1.*1
        = (filter (λ kv, ¬ lastSeat kv.2 sid) gameRooms).*1).
Proof.
  split; [|split; [|split]].
  - apply removePlayer_true.
  - intros r sid spectators'.
    destruct ((removePlayer r sid).2) eqn:Hrm.
    + apply removePlayer_true. by apply removePlayer_true in Hrm.
    + apply not_true_is_false. intros Htrue. apply removePlayer_true in Htrue.
      assert ((removePlayer r sid).2 = true) by by apply removePlayer_true.
      congruence.
  - intros r sid Hnone. apply not_true_is_false. intros Htrue.
    apply removePlayer_true in Htrue as [[p Hp] _]. congruence.
  - apply disconnect_rooms.
Qed.

(** C8 as stated fails: when Bob and then Ann leave, the room is deleted
    although Sam is still in its set of spectators. *)
Lemma room_dropped_under_spectator :
  let afterBob := (disconnect watchedRooms "b").1 in
  (∃ room, mapGet "room1" afterBob = Some room
           ∧ spectators room = {["s"]}
           ∧ (removePlayer room "a").2 = true
           ∧ spectators (removePlayer room "a").1.1 = {["s"]})
  ∧ (disconnect afterBob "a").1 = [].
Proof.
  split; [|by vm_compute].
  eexists. split; [vm_compute; reflexivity|]. split; [|split]; by vm_compute.
Qed.

End Directory.

(** ** Placement quotas *)

Section Quotas.

(** In the 6x7 server the end of a placement turn and the placement of a
    piece use the same quota, 4: an end of turn from the active seat is
    refused exactly when the seat has not placed 4 pieces, an accepted one
    resets the counter, and no piece is placed once 4 are down. *)
Lemma Basic_placement_quota (r : Basic.GameRoom) (who : Player) :
  Basic.isPlayerTurn r (socket_id who) = true →
  Basic.gamePhase (Basic.gameState r) = "placement" →
  (Basic.piecesPlacedThisTurn (Basic.gameState r) ≠ 4 →
   Basic.handleEndTurn r who
   = Ret (r, [GameMessage "You must place exactly 4 pieces before ending your turn!"
                "error"]))
  ∧ (Basic.piecesPlacedThisTurn (Basic.gameState r) = 4 →
     ∃ r' evs, Basic.handleEndTurn r who = Ret (r', evs)
               ∧ Forall (λ e, isError e = false) evs
               ∧ Basic.piecesPlacedThisTurn (Basic.gameState r') = 0)
  ∧ (4 ≤ Basic.piecesPlacedThisTurn (Basic.gameState r) →
     ∀ pieceType row col,
       Basic.handlePlacePiece r who pieceType row col
       = Ret (r, [GameMessage "You can only place 4 pieces per turn!" "error"])).
Proof.
  intros Hturn Hphase. split; [|split].
  - intros Hne. by apply handleEndTurn_rejected.
  - intros Hfour.
    destruct (handleEndTurn_accepted r who) as (r' & evs & Hend & _ & _ & _ & _ & H0 & _ & Hev);
      try done.
    exists r', evs. auto.
  - intros Hfull pieceType row col. unfold Basic.handlePlacePiece.
    rewrite Hturn, Hphase. simpl. by rewrite bool_decide_eq_true_2.
Qed.

Lemma Basic_placement_quota_witness :
  (Basic.piecesPlacedThisTurn (Basic.gameState placementRoom) ≠ 4 →
   Basic.handleEndTurn placementRoom (mkPlayer "a" 1 "Ann")
   = Ret (placementRoom,
          [GameMessage "You must place exactly 4 pieces before ending your turn!" "error"]))
  ∧ (Basic.piecesPlacedThisTurn (Basic.gameState placementRoom) = 4 →
     ∃ r' evs, Basic.handleEndTurn placementRoom (mkPlayer "a" 1 "Ann") = Ret (r', evs)
               ∧ Forall (λ e, isError e = false) evs
               ∧ Basic.piecesPlacedThisTurn (Basic.gameState r') = 0)
  ∧ (4 ≤ Basic.piecesPlacedThisTurn (Basic.gameState placementRoom) →
     ∀ pieceType row col,
       Basic.handlePlacePiece placementRoom (mkPlayer "a" 1 "Ann") pieceType row col
       = Ret (placementRoom, [GameMessage "You can only place 4 pieces per turn!" "error"])).
Proof.
  apply (Basic_placement_quota placementRoom (mkPlayer "a" 1 "Ann")); reflexivity.
Defined.

(** C3 in the Ancient Empires server.  In the second round the quota of
    [handlePlacePiece] is the number of pieces still in the roster, which
    drops with every placement, while [handleEndTurn] asks for the catalog
    total minus 4.  After two placements the seat has 2 pieces left: a
    third placement is refused for any cell ("only 2 this turn"), and the
    end of turn is refused as well ("exactly 4"). *)
Theorem Empires_round_two_quota_mismatch :
  Empires.gameActions roundTwoRoom "a"
    [Empires.SelectPieceType "Light Infantry"; Empires.PlacePiece 0 0;
     Empires.SelectPieceType "Light Infantry"; Empires.PlacePiece 0 1;
     Empires.SelectPieceType "Heavy Infantry"] = Ret twoPlaced
  ∧ Forall (λ e, isError e = false) twoPlaced.2
  ∧ Empires.piecesPlacedThisTurn (Empires.gameState twoPlaced.1) = 2
  ∧ Empires.rosterTotal (Empires.player1Pieces (Empires.gameState twoPlaced.1)) = Int 2
  ∧ Empires.endTurnQuota (Empires.gameState twoPlaced.1)
      (Empires.mkPlayer "a" 1 "Ann" (Some "english"))
    = Ret (Int 4)
  ∧ (∀ row col,
        Empires.gameAction twoPlaced.1 "a" (Empires.PlacePiece row col)
        = Ret (twoPlaced.1, [GameMessage "You can only place 2 pieces this turn!" "error"]))
  ∧ Empires.gameAction twoPlaced.1 "a" Empires.EndTurn
    = Ret (twoPlaced.1,
           [GameMessage "You must place exactly 4 pieces before ending your turn!" "error"]).
Proof.
  split; [vm_compute; reflexivity|].
  split; [vm_compute; repeat constructor|].
  split; [vm_compute; reflexivity|]. split; [vm_compute; reflexivity|].
  split; [vm_compute; reflexivity|].
  split; [|vm_compute; reflexivity].
  intros row col. vm_compute. reflexivity.
Qed.

End Quotas.

(** ** Cleave (Ancient Empires server) *)

Section Cleave.
Import Empires.

Variables (r : GameRoom) (attacker : Piece).
Variables (attackerRow attackerCol targetRow targetCol : Z).

Local Abbreviation neighbour := (neighbour attackerRow attackerCol).
Local Abbreviation cleaveVictim :=
  (cleaveVictim attacker attackerRow attackerCol targetRow targetCol).
Local Abbreviation fatal := (fatal attacker attackerRow attackerCol targetRow targetCol).
Local Abbreviation hitBoard :=
  (hitBoard attacker attackerRow attackerCol targetRow targetCol).
Local Abbreviation cleaved :=
  (cleaved attacker attackerRow attackerCol targetRow targetCol).

Lemma neighbour_inj d d' : neighbour d = neighbour d' → d = d'.
Proof.
  destruct d as [d1 d2], d' as [d1' d2']. unfold neighbour. simpl.
  intros [= H1 H2]. f_equal; lia.
Qed.

Lemma set_board_id gs : set_board (board gs) gs = gs.
Proof. by destruct gs. Qed.

Lemma cleaveLoop_fatal d rest gs count :
  fatal (board gs) d = true →
  cleaveLoop r attacker attackerRow attackerCol targetRow targetCol (d :: rest) gs count
  = (set_winner (Some (player attacker))
       (set_gameEnded true (set_board (delete (neighbour d) (board gs)) gs)),
     [GameMessage (getPlayerName r (player attacker)
                   +:+ " wins! Enemy General defeated by cleave attack!") "victory"]).
Proof.
  unfold fatal, cleaveVictim, neighbour. destruct d as [dr dc]. cbn [cleaveLoop fst snd].
  destruct (outOfBounds _ _); [done|].
  destruct (board gs !! _) as [p|]; [|done].
  destruct (bool_decide _ && negb _); [|done].
  intros [Hgen Hdead]%andb_true_iff. cbn [health set_health].
  by rewrite Hdead, Hgen.
Qed.

Lemma cleaveLoop_not_fatal d rest gs count :
  fatal (board gs) d = false →
  ∃ count',
    cleaveLoop r attacker attackerRow attackerCol targetRow targetCol (d :: rest) gs count
    = cleaveLoop r attacker attackerRow attackerCol targetRow targetCol rest
        (set_board (hitBoard (board gs) d) gs) count'.
Proof.
  unfold fatal, hitBoard, cleaveVictim, neighbour. destruct d as [dr dc].
  cbn [cleaveLoop fst snd].
  destruct (outOfBounds _ _); [exists count; by rewrite set_board_id|].
  destruct (board gs !! _) as [p|]; [|exists count; by rewrite set_board_id].
  destruct (bool_decide _ && negb _); [|exists count; by rewrite set_board_id].
  cbn [health set_health]. intros Hnot.
  destruct (atMost (Some (minus (health p) 1)) 0); [|by eexists].
  rewrite andb_true_r in Hnot. rewrite Hnot. by eexists.
Qed.

Lemma cleaveVictim_other (b : Board) d d' :
  d ≠ d' → cleaveVictim (hitBoard b d) d' = cleaveVictim b d'.
Proof.
  intros Hne. unfold cleaveVictim.
  destruct (outOfBounds _ _); [done|].
  assert (Hcell : neighbour d ≠ neighbour d') by (intros ?%neighbour_inj; done).
  replace (hitBoard b d !! neighbour d') with (b !! neighbour d'); [done|].
  unfold hitBoard. destruct (cleaveVictim b d) as [p|]; [|done].
  destruct (atMost _ 0); by rewrite ?lookup_delete_ne, ?lookup_insert_ne.
Qed.

Lemma fatal_other (b : Board) d d' : d ≠ d' → fatal (hitBoard b d) d' = fatal b d'.
Proof. intros Hne. unfold fatal. by rewrite cleaveVictim_other. Qed.

Lemma hitBoard_far (b : Board) d k : neighbour d ≠ k → hitBoard b d !! k = b !! k.
Proof.
  intros Hne. unfold hitBoard. destruct (cleaveVictim b d) as [p|]; [|done].
  destruct (atMost _ 0); by rewrite ?lookup_delete_ne, ?lookup_insert_ne.
Qed.

Lemma hitBoard_other (b : Board) d d' :
  d ≠ d' → hitBoard (hitBoard b d) d' !! neighbour d' = hitBoard b d' !! neighbour d'.
Proof.
  intros Hne. unfold hitBoard at 1 3. rewrite cleaveVictim_other by done.
  destruct (cleaveVictim b d') as [p|].
  - destruct (atMost _ 0); by rewrite ?lookup_delete_eq, ?lookup_insert_eq.
  - apply hitBoard_far. intros ?%neighbour_inj. done.
Qed.

Lemma cleaveLoop_cleaved dirs gs count :
  NoDup dirs →
  cleaved dirs gs
    (cleaveLoop r attacker attackerRow attackerCol targetRow targetCol dirs gs count).1.
Proof.
  revert gs count. induction dirs as [|d0 rest IH]; intros gs count Hnd.
  - split; simpl; try done;
      try (intros pre d post Heq; by destruct pre); by intros ?%Exists_nil.
  - apply NoDup_cons in Hnd as [Hfresh Hnd].
    assert (Hcells : ∀ d, d ∈ rest → neighbour d0 ≠ neighbour d).
    { intros d Hd ?%neighbour_inj. by subst. }
    destruct (fatal (board gs) d0) eqn:Hfatal.
    + rewrite cleaveLoop_fatal by done. split; simpl.
      * intros [|d1 pre] d post [= <- Hrest].
        -- intros _. unfold hitBoard. unfold fatal in Hfatal.
           destruct (cleaveVictim (board gs) d0) as [g|]; [|done].
           apply andb_true_iff in Hfatal as [_ Hdead]. rewrite Hdead.
           by rewrite !lookup_delete_eq.
        -- intros [Hno _]%Forall_cons. congruence.
      * intros [|d1 pre] d post [= <- Hrest]; [by intros ?%Exists_nil|].
        intros _. apply lookup_delete_ne, Hcells. rewrite Hrest.
        apply elem_of_app. right. by left.
      * intros k Hk. apply lookup_delete_ne, Hk. by left.
      * done.
      * intros [Hno _]%Forall_cons. congruence.
      * done.
    + destruct (cleaveLoop_not_fatal d0 rest gs count Hfatal) as [count' ->].
      specialize (IH (set_board (hitBoard (board gs) d0) gs) count' Hnd).
      destruct IH as [IH1 IH2 IH3 IH4 IH5 IH6]. simpl in *.
      assert (Hfat : ∀ d, d ∈ rest → fatal (hitBoard (board gs) d0) d = fatal (board gs) d).
      { intros d Hd. apply fatal_other. intros ->. done. }
      split.
      * intros [|d1 pre] d post [= <- Hrest] Hpre.
        -- rewrite IH3 by (intros d Hd; by apply not_eq_sym, Hcells). done.
        -- apply Forall_cons in Hpre as [_ Hpre].
           assert (Hd : d ∈ rest) by (rewrite Hrest; apply elem_of_app; right; by left).
           rewrite (IH1 pre d post Hrest).
           ++ apply hitBoard_other. intros ->. done.
           ++ apply Forall_forall. intros d' Hd'. rewrite Hfat.
              ** by apply (proj1 (Forall_forall _ _) Hpre).
              ** rewrite Hrest. apply elem_of_app. by left.
      * intros [|d1 pre] d post [= <- Hrest]; [by intros ?%Exists_nil|].
        intros Hex. apply Exists_cons in Hex as [Hbad|Hex]; [congruence|].
        assert (Hd : d ∈ rest) by (rewrite Hrest; apply elem_of_app; right; by left).
        rewrite (IH2 pre d post Hrest).
        -- apply hitBoard_far. by apply Hcells.
        -- apply Exists_exists in Hex as (d' & Hd' & Hf).
           apply Exists_exists. exists d'. split; [done|]. rewrite Hfat; [done|].
           rewrite Hrest. apply elem_of_app. by left.
      * intros k Hk. rewrite IH3.
        -- apply hitBoard_far, Hk. by left.
        -- intros d Hd. apply Hk. by right.
      * intros Hex. apply Exists_cons in Hex as [Hbad|Hex]; [congruence|].
        apply IH4. apply Exists_exists in Hex as (d' & Hd' & Hf).
        apply Exists_exists. exists d'. split; [done|]. by rewrite Hfat.
      * intros [_ Hall]%Forall_cons. apply IH5.
        apply Forall_forall. intros d' Hd'. rewrite Hfat by done.
        by apply (proj1 (Forall_forall _ _) Hall).
      * done.
Qed.

Lemma hitBoard_lookup (b : Board) d :
  hitBoard b d !! neighbour d
  = match cleaveVictim b d with
    | Some p => damaged 1 p
    | None => b !! neighbour d
    end.
Proof.
  unfold hitBoard, damaged. destruct (cleaveVictim b d) as [p|]; [|done].
  destruct (atMost _ 0); by rewrite ?lookup_delete_eq, ?lookup_insert_eq.
Qed.

Lemma reached_or_skipped (b : Board) (pre : list (Z * Z)) :
  Forall (λ d, fatal b d = false) pre ∨ Exists (λ d, fatal b d = true) pre.
Proof.
  induction pre as [|d pre [IH|IH]].
  - left. constructor.
  - destruct (fatal b d) eqn:Hd.
    + right. by left.
    + left. by constructor.
  - right. by right.
Qed.

(** A cell whose visit hits nobody is left as it was. *)
Lemma cleaved_untouched dirs gs gs' k :
  cleaved dirs gs gs' →
  (∀ d, d ∈ dirs → neighbour d = k → cleaveVictim (board gs) d = None) →
  board gs' !! k = board gs !! k.
Proof.
  intros Hc Hnone.
  destruct (decide (Exists (λ d, neighbour d = k) dirs)) as [Hex|Hno].
  - apply Exists_exists in Hex as (d & Hd & <-).
    destruct (list_elem_of_split _ _ Hd) as (pre & post & Heq).
    destruct (reached_or_skipped (board gs) pre) as [Hall|Hsome].
    + rewrite (cleaved_reached _ _ _ _ _ _ _ _ Hc pre d post Heq Hall), hitBoard_lookup.
      by rewrite (Hnone d Hd).
    + apply (cleaved_skipped _ _ _ _ _ _ _ _ Hc pre d post Heq Hsome).
  - apply (cleaved_far _ _ _ _ _ _ _ _ Hc). intros d Hd Hk. apply Hno.
    apply Exists_exists. eauto.
Qed.

End Cleave.

(** ** Attacks (Ancient Empires server) *)

Section EmpiresAttack.
Import Empires.

Lemma readCell_size (b : Board) r c :
  0 ≤ r < 7 → readCell size b r c = Ret (b !! (r, c)).
Proof. intros. unfold readCell, rowExists, size. by rewrite bool_decide_eq_true_2. Qed.

Lemma readCell_Ret (b : Board) h r c v :
  readCell h b r c = Ret v → v = b !! (r, c) ∧ 0 ≤ r < h.
Proof.
  unfold readCell, rowExists. case_bool_decide; [|done]. by intros [= <-].
Qed.

Lemma NoDup_directions : NoDup directions.
Proof. apply (bool_decide_unpack _). by vm_compute. Qed.

Lemma handleSpartanCleave_ok r attacker attackerRow attackerCol targetRow targetCol :
  0 ≤ attackerRow < 7 →
  board (gameState r) !! (attackerRow, attackerCol) = Some attacker →
  handleSpartanCleave r attackerRow attackerCol targetRow targetCol
  = Ret (set_gameState
           (cleaveLoop r attacker attackerRow attackerCol targetRow targetCol
              directions (gameState r) 0).1 r,
         (cleaveLoop r attacker attackerRow attackerCol targetRow targetCol
            directions (gameState r) 0).2).
Proof.
  intros Hrow Hattacker. unfold handleSpartanCleave.
  rewrite readCell_size, Hattacker by done. unfold mbind, Js_bind.
  by destruct (cleaveLoop _ _ _ _ _ _ _ _ _).
Qed.

Lemma spent_lookup (consume : bool) (cell : Z * Z) (b : Board) (k : Z * Z) :
  spent consume cell b !! k = None ↔ b !! k = None.
Proof.
  unfold spent. destruct consume; [|done].
  destruct (decide (cell = k)) as [->|Hne].
  - rewrite lookup_alter_eq. by destruct (b !! k).
  - by rewrite lookup_alter_ne.
Qed.

Lemma cleaveLoop_player r a1 a2 attackerRow attackerCol targetRow targetCol dirs gs count :
  player a1 = player a2 →
  cleaveLoop r a1 attackerRow attackerCol targetRow targetCol dirs gs count
  = cleaveLoop r a2 attackerRow attackerCol targetRow targetCol dirs gs count.
Proof.
  intros Hsame. revert gs count.
  induction dirs as [|[dr dc] rest IH]; intros gs count; cbn [cleaveLoop]; [done|].
  rewrite Hsame.
  destruct (outOfBounds _ _); [done|].
  destruct (board gs !! _) as [p|]; [|done].
  destruct (bool_decide _ && negb _); [|done].
  repeat case_bool_decide; rewrite ?IH; done.
Qed.

#[local] Arguments cleaveLoop : simpl never.

(** The steps of [attackPiece] on a live match with both pieces on the
    board, the cleave put aside. *)
Lemma attackPiece_live r attacker target attackerRow attackerCol targetRow targetCol :
  gameEnded (gameState r) = false →
  0 ≤ attackerRow < 7 → 0 ≤ targetRow < 7 →
  board (gameState r) !! (attackerRow, attackerCol) = Some attacker →
  board (gameState r) !! (targetRow, targetCol) = Some target →
  let gs := gameState r in
  let d := distance attackerRow attackerCol targetRow targetCol in
  let charge := isCharge attacker target attackerRow attackerCol targetRow targetCol in
  let damage := if charge then 2 else 1 in
  let target1 := set_health (Some (minus (health target) damage)) target in
  let b2 := <[(targetRow, targetCol) := target1]>
              (spent (shouldConsumeAmmo attacker target d) (attackerRow, attackerCol)
                 (board gs)) in
  let r2 := set_gameState (set_board b2 gs) r in
  let spartan := String.eqb (type attacker) "Heavy Infantry"
                 && bool_decide (nation attacker = Some "spartans") in
  let gs3 := if spartan
             then (cleaveLoop r2 attacker attackerRow attackerCol targetRow targetCol
                     directions (gameState r2) 0).1
             else gameState r2 in
  ∃ evs,
    attackPiece r attackerRow attackerCol targetRow targetCol
    = Ret (set_gameState
             (if atMost (health target1) 0 then
                let gs4 := set_board (delete (targetRow, targetCol) (board gs3)) gs3 in
                if String.eqb (type target) "General"
                then set_winner (Some (player attacker)) (set_gameEnded true gs4)
                else gs4
              else gs3) r,
           evs).
Proof.
  intros Hlive Ha Ht Hattacker Htarget gs d charge damage target1 b2 r2 spartan gs3.
  unfold attackPiece. rewrite Hlive, !readCell_size by done.
  rewrite Hattacker, Htarget. simpl.
  fold d charge damage target1.
  change (if shouldConsumeAmmo attacker target d
          then alter (λ a, set_ammo (Some (decrement (ammo a))) a)
                 (attackerRow, attackerCol) (board (gameState r))
          else board (gameState r))
    with (spent (shouldConsumeAmmo attacker target d) (attackerRow, attackerCol) (board gs)).
  fold b2. fold r2. fold spartan. unfold gs3.
  destruct spartan eqn:Hspartan.
  - assert (Hat2 : ∃ attacker2,
               board (gameState r2) !! (attackerRow, attackerCol) = Some attacker2
               ∧ player attacker2 = player attacker).
    { simpl. unfold b2, gs.
      destruct (decide ((targetRow, targetCol) = (attackerRow, attackerCol))) as [Heq|Hne].
      - rewrite Heq, lookup_insert_eq. eexists. split; [done|].
        rewrite Heq in Htarget. simpl. congruence.
      - rewrite lookup_insert_ne by done. unfold spent.
        destruct (shouldConsumeAmmo attacker target d).
        + rewrite lookup_alter_eq, Hattacker. simpl. by eexists.
        + by eexists. }
    destruct Hat2 as (attacker2 & Hat2 & Hplayer).
    rewrite (handleSpartanCleave_ok r2 attacker2) by done.
    rewrite (cleaveLoop_player r2 attacker2 attacker) by done. simpl.
    destruct (atMost _ 0); [destruct (String.eqb (type target) "General")|];
      eexists; reflexivity.
  - simpl.
    destruct (atMost _ 0); [destruct (String.eqb (type target) "General")|];
      eexists; reflexivity.
Qed.

Lemma attackPiece_ended r a b c d :
  gameEnded (gameState r) = true → attackPiece r a b c d = Ret (r, []).
Proof. intros Hended. unfold attackPiece. by rewrite Hended. Qed.

Lemma cleaveVictim_insert_target (attacker : Piece)
    (attackerRow attackerCol targetRow targetCol : Z)
    (b : Board) (x : Piece) (d : Z * Z) :
  is_Some (b !! (targetRow, targetCol)) →
  cleaveVictim attacker attackerRow attackerCol targetRow targetCol
    (<[(targetRow, targetCol) := x]> b) d
  = cleaveVictim attacker attackerRow attackerCol targetRow targetCol b d.
Proof.
  intros [t Ht]. unfold cleaveVictim, neighbour.
  destruct (outOfBounds _ _); [done|].
  destruct (decide ((targetRow, targetCol) = (attackerRow + d.1, attackerCol + d.2)))
    as [Heq|Hne].
  - rewrite <- Heq, lookup_insert_eq, Ht. injection Heq as Hr Hc.
    rewrite !(bool_decide_eq_true_2 (_ = _)) by done. simpl.
    by rewrite !andb_false_r.
  - by rewrite lookup_insert_ne.
Qed.

Lemma directions_step d : d ∈ directions → d ≠ (0, 0).
Proof.
  unfold directions. rewrite !elem_of_cons, elem_of_nil.
  intros [->|[->|[->|[->|[]]]]]; done.
Qed.

(** The ammo bookkeeping changes the attacker's cell only, and no piece
    that the cleave could hit stands there. *)
Lemma cleaveVictim_spent (attacker : Piece)
    (attackerRow attackerCol targetRow targetCol : Z)
    (consume : bool) (b : Board) (d : Z * Z) :
  d ≠ (0, 0) →
  cleaveVictim attacker attackerRow attackerCol targetRow targetCol
    (spent consume (attackerRow, attackerCol) b) d
  = cleaveVictim attacker attackerRow attackerCol targetRow targetCol b d.
Proof.
  intros Hd. unfold cleaveVictim, neighbour, spent.
  destruct (outOfBounds _ _); [done|]. destruct consume; [|done].
  rewrite lookup_alter_ne; [done|].
  destruct d as [d1 d2]. simpl. intros [= H1 H2]. apply Hd. f_equal; lia.
Qed.

(** The board on which the cleave starts shows the same victims as the
    board before the attack. *)
Lemma cleaveVictim_struck (attacker x : Piece)
    (attackerRow attackerCol targetRow targetCol : Z)
    (consume : bool) (b : Board) (d : Z * Z) :
  is_Some (b !! (targetRow, targetCol)) →
  d ∈ directions →
  cleaveVictim attacker attackerRow attackerCol targetRow targetCol
    (<[(targetRow, targetCol) := x]> (spent consume (attackerRow, attackerCol) b)) d
  = cleaveVictim attacker attackerRow attackerCol targetRow targetCol b d.
Proof.
  intros Htarget Hd. rewrite cleaveVictim_insert_target.
  - by apply cleaveVictim_spent, directions_step.
  - destruct (spent consume (attackerRow, attackerCol) b !! (targetRow, targetCol))
      eqn:Hcell; [by eexists|].
    apply spent_lookup in Hcell. destruct Htarget as [t Ht]. congruence.
Qed.

Lemma cleaveVictim_Some (attacker : Piece)
    (attackerRow attackerCol targetRow targetCol : Z) (b : Board) (d : Z * Z) (g : Piece) :
  cleaveVictim attacker attackerRow attackerCol targetRow targetCol b d = Some g →
  b !! neighbour attackerRow attackerCol d = Some g
  ∧ neighbour attackerRow attackerCol d ≠ (targetRow, targetCol).
Proof.
  unfold cleaveVictim, neighbour. destruct (outOfBounds _ _); [done|].
  destruct (b !! _) as [p|]; [|done].
  destruct (bool_decide (player p ≠ player attacker)); [|done]. simpl.
  destruct (bool_decide (_ = targetRow) && bool_decide (_ = targetCol)) eqn:Hsame;
    [done|].
  intros [= ->]. split; [done|].
  intros [= H1 H2]. by rewrite !bool_decide_eq_true_2 in Hsame.
Qed.

(** The cleave leaves the cell of the primary target alone. *)
Lemma cleaved_target (attacker : Piece)
    (attackerRow attackerCol targetRow targetCol : Z) dirs gs gs' :
  cleaved attacker attackerRow attackerCol targetRow targetCol dirs gs gs' →
  board gs' !! (targetRow, targetCol) = board gs !! (targetRow, targetCol).
Proof.
  intros Hc. apply (cleaved_untouched _ _ _ _ _ _ _ _ _ Hc).
  intros d _ Hcell. unfold cleaveVictim, neighbour in *.
  destruct (outOfBounds _ _); [done|]. injection Hcell as Hr Hc'.
  rewrite !(bool_decide_eq_true_2 (_ = _)) by done. simpl.
  destruct (board gs !! _); [|done]. by rewrite andb_false_r.
Qed.

(** Damage that two points less would have sufficed for. *)
Lemma atMost_more (x : option Num) :
  atMost (Some (minus x 1)) 0 = true → atMost (Some (minus x 2)) 0 = true.
Proof.
  destruct x as [[z|]|]; unfold atMost, minus; try done.
  rewrite !bool_decide_eq_true. lia.
Qed.

Lemma charging_isCharge (attacker target : Piece)
    (attackerRow attackerCol targetRow targetCol : Z) :
  charging attacker attackerRow attackerCol targetRow targetCol →
  type target = "General" →
  isCharge attacker target attackerRow attackerCol targetRow targetCol = true.
Proof.
  intros (Hty & Hdir & Hd) Hgen. unfold isCharge, charges.
  rewrite Hdir, Hgen.
  rewrite (bool_decide_eq_true_2 (distance _ _ _ _ = 1)) by done.
  rewrite !(bool_decide_eq_true_2 (_ - _ = _)) by done.
  destruct Hty as [->|[-> ->]]; [done|].
  by rewrite bool_decide_eq_true_2.
Qed.

(** C1, as the code has it.  An attack on a live match that brings the
    health of a General to 0 or below (by the attacker's plain or charge
    damage on the primary target, or by the cleave of a Spartan Heavy
    Infantry on a neighbour) takes that General off the board, sets
    [gameEnded] and makes the owner of the attacking piece the [winner],
    all in the same call.  The phase is not changed.  Afterwards
    [attackPiece] returns at once: no further attack changes the room. *)
Theorem general_falls_match_ends r attacker target
    attackerRow attackerCol targetRow targetCol (k : Z * Z) :
  gameEnded (gameState r) = false →
  0 ≤ attackerRow < 7 → 0 ≤ targetRow < 7 →
  board (gameState r) !! (attackerRow, attackerCol) = Some attacker →
  board (gameState r) !! (targetRow, targetCol) = Some target →
  fells (board (gameState r)) attacker target
    attackerRow attackerCol targetRow targetCol k →
  ∃ r' evs,
    attackPiece r attackerRow attackerCol targetRow targetCol = Ret (r', evs)
    ∧ (∃ g, board (gameState r) !! k = Some g ∧ type g = "General")
    ∧ board (gameState r') !! k = None
    ∧ gameEnded (gameState r') = true
    ∧ winner (gameState r') = Some (player attacker)
    ∧ gamePhase (gameState r') = gamePhase (gameState r)
    ∧ ∀ a b c d, attackPiece r' a b c d = Ret (r', []).
Proof.
  intros Hlive Har Htr Hattacker Htarget Hfells.
  destruct (attackPiece_live r attacker target attackerRow attackerCol targetRow targetCol)
    as (evs & Hatk); try done.
  cbv zeta in Hatk.
  set (damage := if isCharge attacker target attackerRow attackerCol targetRow targetCol
                 then 2 else 1) in *.
  set (target1 := set_health (Some (minus (health target) damage)) target) in *.
  set (consume := shouldConsumeAmmo attacker target _) in *.
  set (b2 := <[(targetRow, targetCol) := target1]>
               (spent consume (attackerRow, attackerCol) (board (gameState r)))) in *.
  set (r2 := set_gameState (set_board b2 (gameState r)) r) in *.
  set (gs3 := if _ && _ then _ else _) in *.
  set (gs' := if atMost (health target1) 0 then _ else gs3) in *.
  exists (set_gameState gs' r), evs. split; [exact Hatk|].
  cbn [gameState set_gameState]. clear Hatk.
  pose proof (cleaveLoop_cleaved r2 attacker attackerRow attackerCol targetRow targetCol
                directions (gameState r2) 0 NoDup_directions) as Hc.
  assert (Hphase : gamePhase gs3 = gamePhase (gameState r)).
  { unfold gs3. destruct (_ && _); [|done]. exact (cleaved_phase _ _ _ _ _ _ _ _ Hc). }
  assert (Hcell : board gs3 !! (targetRow, targetCol) = Some target1).
  { unfold gs3. destruct (_ && _).
    - rewrite (cleaved_target _ _ _ _ _ _ _ _ Hc). simpl. apply lookup_insert_eq.
    - simpl. apply lookup_insert_eq. }
  assert (Hgoal : (∃ g, board (gameState r) !! k = Some g ∧ type g = "General")
                  ∧ board gs' !! k = None
                  ∧ gameEnded gs' = true
                  ∧ winner gs' = Some (player attacker)
                  ∧ gamePhase gs' = gamePhase (gameState r)).
  2:{ destruct Hgoal as (? & ? & ? & ? & ?). repeat split; try done.
      intros. by apply attackPiece_ended. }
  unfold gs'.
  destruct Hfells as [(-> & Hgen & Hdead)|(Hty & Hnat & pre & d & post & Hsplit & Hpre & Hd & ->)].
  - (* the primary target *)
    split; [by exists target|].
    assert (Hdead' : atMost (health target1) 0 = true).
    { change (health target1) with (Some (minus (health target) damage)).
      unfold damage. destruct Hdead as [Hone|[Hcharge Htwo]].
      - destruct (isCharge _ _ _ _ _ _); [|done]. by apply atMost_more.
      - by rewrite (charging_isCharge attacker target). }
    rewrite Hdead', Hgen. simpl. rewrite lookup_delete_eq. by rewrite Hphase.
  - (* a neighbour hit by the cleave *)
    assert (Hvictim : ∀ d', d' ∈ directions →
               cleaveVictim attacker attackerRow attackerCol targetRow targetCol
                 (board (gameState r2)) d'
               = cleaveVictim attacker attackerRow attackerCol targetRow targetCol
                   (board (gameState r)) d').
    { intros d' Hd'. simpl. apply cleaveVictim_struck; [by eexists | done]. }
    assert (Hkills : ∀ d', d' ∈ directions →
               fatal attacker attackerRow attackerCol targetRow targetCol
                 (board (gameState r2)) d'
               = fatal attacker attackerRow attackerCol targetRow targetCol
                   (board (gameState r)) d').
    { intros d' Hd'. unfold fatal. by rewrite Hvictim. }
    assert (Hin : d ∈ directions).
    { rewrite Hsplit. apply elem_of_app. right. by left. }
    assert (Hgs3 : gs3 = (cleaveLoop r2 attacker attackerRow attackerCol targetRow targetCol
                            directions (gameState r2) 0).1).
    { unfold gs3. rewrite Hty, Hnat.
      by rewrite (bool_decide_eq_true_2 (Some "spartans" = Some "spartans")). }
    rewrite <- Hgs3 in Hc.
    destruct (cleaved_won _ _ _ _ _ _ _ _ Hc) as [Hended Hwinner].
    { apply Exists_exists. exists d. split; [done|]. by rewrite Hkills. }
    assert (Hgone : board gs3 !! neighbour attackerRow attackerCol d = None
                    ∧ ∃ g, board (gameState r) !! neighbour attackerRow attackerCol d = Some g
                           ∧ type g = "General"
                           ∧ neighbour attackerRow attackerCol d ≠ (targetRow, targetCol)).
    { rewrite (cleaved_reached _ _ _ _ _ _ _ _ Hc pre d post Hsplit).
      2:{ apply Forall_forall. intros d' Hd'. rewrite Hkills.
          - by apply (proj1 (Forall_forall _ _) Hpre).
          - rewrite Hsplit. apply elem_of_app. by left. }
      rewrite hitBoard_lookup, Hvictim by done. unfold fatal in Hd.
      destruct (cleaveVictim _ _ _ _ _ _ d) as [g|] eqn:Hg; [|done].
      apply andb_true_iff in Hd as [Hgen Hdead].
      split; [unfold damaged; by rewrite Hdead|].
      apply cleaveVictim_Some in Hg as [Hg Hne].
      exists g. split; [done|]. split; [by apply String.eqb_eq | done]. }
    destruct Hgone as (Hgone & g & Hg & Hgen & Hne).
    split; [by exists g|].
    destruct (atMost (health target1) 0);
      [destruct (String.eqb (type target) "General")|]; simpl;
      rewrite ?lookup_delete_ne by done; by rewrite Hphase.
Qed.

(** C6, as the code has it.  A Spartan Heavy Infantry that attacks an
    adjacent piece on a live match deals 1 damage to it and then visits
    its four neighbour cells in the order up, down, left, right.  As long
    as no visited cell held a General killed by the cleave, each cell that
    holds an enemy piece other than the primary target loses exactly 1
    health there, and the piece leaves the board when its health is used
    up.  The cleave that kills a General ends the match for the attacker's
    seat and stops the loop: the directions after it are not visited and
    their cells are left as they were. *)
Theorem spartan_cleave_order r attacker target attackerRow attackerCol targetRow targetCol :
  gameEnded (gameState r) = false →
  0 ≤ attackerRow < 7 → 0 ≤ targetRow < 7 →
  board (gameState r) !! (attackerRow, attackerCol) = Some attacker →
  type attacker = "Heavy Infantry" →
  nation attacker = Some "spartans" →
  board (gameState r) !! (targetRow, targetCol) = Some target →
  distance attackerRow attackerCol targetRow targetCol = 1 →
  let b := board (gameState r) in
  let cell := neighbour attackerRow attackerCol in
  let victim := cleaveVictim attacker attackerRow attackerCol targetRow targetCol b in
  let kills := fatal attacker attackerRow attackerCol targetRow targetCol b in
  ∃ r' evs,
    attackPiece r attackerRow attackerCol targetRow targetCol = Ret (r', evs)
    ∧ directions = [(-1, 0); (1, 0); (0, -1); (0, 1)]
    ∧ board (gameState r') !! (targetRow, targetCol) = damaged 1 target
    ∧ (∀ pre d post,
          directions = pre ++ d :: post →
          cell d ≠ (targetRow, targetCol) →
          (Forall (λ d', kills d' = false) pre →
           board (gameState r') !! cell d
           = match victim d with
             | Some p => damaged 1 p
             | None => b !! cell d
             end)
          ∧ (Exists (λ d', kills d' = true) pre →
             board (gameState r') !! cell d = b !! cell d))
    ∧ (Exists (λ d, kills d = true) directions →
       gameEnded (gameState r') = true
       ∧ winner (gameState r') = Some (player attacker)).
Proof.
  intros Hlive Har Htr Hattacker Hty Hnat Htarget Hd b cell victim kills.
  destruct (attackPiece_live r attacker target attackerRow attackerCol targetRow targetCol)
    as (evs & Hatk); try done.
  rewrite Hatk. clear Hatk. do 2 eexists. split; [done|]. split; [done|].
  assert (Hcharge : isCharge attacker target attackerRow attackerCol targetRow targetCol
                    = false).
  { unfold isCharge, charges. by rewrite Hty. }
  assert (Hammo : shouldConsumeAmmo attacker target
                    (distance attackerRow attackerCol targetRow targetCol) = false).
  { unfold shouldConsumeAmmo. rewrite Hty, Hd. by simpl. }
  rewrite Hcharge, Hammo, Hty, Hnat. unfold spent.
  rewrite (bool_decide_eq_true_2 (Some "spartans" = Some "spartans")) by done.
  cbn [String.eqb Ascii.eqb Bool.eqb andb].
  set (target1 := set_health (Some (minus (health target) 1)) target).
  set (r2 := set_gameState (set_board (<[(targetRow, targetCol) := target1]> _) _) r).
  pose proof (cleaveLoop_cleaved r2 attacker attackerRow attackerCol targetRow targetCol
                directions (gameState r2) 0 NoDup_directions) as Hc.
  set (gs3 := (cleaveLoop r2 attacker attackerRow attackerCol targetRow targetCol
                 directions (gameState r2) 0).1) in *.
  assert (Hvictim : ∀ d,
             cleaveVictim attacker attackerRow attackerCol targetRow targetCol
               (board (gameState r2)) d = victim d).
  { intros d. simpl. apply cleaveVictim_insert_target. by eexists. }
  assert (Hkills : ∀ d,
             fatal attacker attackerRow attackerCol targetRow targetCol
               (board (gameState r2)) d = kills d).
  { intros d. unfold kills, fatal. by rewrite Hvictim. }
  assert (Hkeep : board gs3 !! (targetRow, targetCol) = Some target1).
  { etrans; [apply (cleaved_untouched _ _ _ _ _ _ _ _ _ Hc)|].
    2:{ simpl. by rewrite lookup_insert_eq. }
    intros d _ Hcell. rewrite Hvictim. unfold victim, cleaveVictim, neighbour in *.
    destruct (outOfBounds _ _); [done|]. injection Hcell as Hr Hc'.
    rewrite !(bool_decide_eq_true_2 (_ = _)) by done. simpl.
    destruct (b !! _); [|done]. by rewrite andb_false_r. }
  assert (Hfinal : ∀ k, k ≠ (targetRow, targetCol) →
             board (if atMost (health target1) 0
                    then
                      let gs4 := set_board (delete (targetRow, targetCol) (board gs3)) gs3 in
                      if String.eqb (type target) "General"
                      then set_winner (Some (player attacker)) (set_gameEnded true gs4)
                      else gs4
                    else gs3) !! k = board gs3 !! k).
  { intros k Hk. destruct (atMost _ 0); [|done].
    destruct (String.eqb (type target) "General"); simpl; by rewrite lookup_delete_ne. }
  split; [|split].
  - simpl. unfold damaged. fold target1.
    change (Some (minus (health target) 1)) with (health target1).
    destruct (atMost _ 0).
    + destruct (String.eqb (type target) "General"); simpl; apply lookup_delete_eq.
    + done.
  - intros pre d post Hsplit Hcell. unfold cell in *. simpl.
    rewrite Hfinal by done. split.
    + intros Hpre.
      rewrite (cleaved_reached _ _ _ _ _ _ _ _ Hc pre d post Hsplit).
      * rewrite hitBoard_lookup, Hvictim. destruct (victim d); [done|].
        simpl. by rewrite lookup_insert_ne.
      * apply Forall_forall. intros d' Hd'. rewrite Hkills.
        by apply (proj1 (Forall_forall _ _) Hpre).
    + intros Hpre.
      rewrite (cleaved_skipped _ _ _ _ _ _ _ _ Hc pre d post Hsplit).
      * simpl. by rewrite lookup_insert_ne.
      * apply Exists_exists in Hpre as (d' & Hd' & Hk). apply Exists_exists.
        exists d'. by rewrite Hkills.
  - intros Hex.
    destruct (cleaved_won _ _ _ _ _ _ _ _ Hc) as [Hended Hwinner].
    { apply Exists_exists in Hex as (d' & Hd' & Hk). apply Exists_exists.
      exists d'. by rewrite Hkills. }
    unfold set_gameState. cbn [gameState]. destruct (atMost _ 0); [|done].
    by destruct (String.eqb (type target) "General").
Qed.

End EmpiresAttack.

(** ** Scenarios around a falling General *)

Section Scenarios.

Lemma general_falls_match_ends_witness :
  ∃ r' evs,
    Empires.attackPiece cleaveRoom 3 3 3 4 = Ret (r', evs)
    ∧ Empires.board (Empires.gameState cleaveRoom) !! (2, 3) = Some enemyGeneral
    ∧ Empires.board (Empires.gameState r') !! (2, 3) = None
    ∧ Empires.gameEnded (Empires.gameState r') = true
    ∧ Empires.winner (Empires.gameState r') = Some 1
    ∧ Empires.gamePhase (Empires.gameState r') = "battle"
    ∧ Empires.attackPiece r' 3 3 4 3 = Ret (r', []).
Proof.
  destruct (general_falls_match_ends cleaveRoom spartan enemyInfantry 3 3 3 4 (2, 3))
    as (r' & evs & Hatk & _ & Hgone & Hended & Hwinner & Hphase & Hlater);
    [reflexivity | lia | lia | reflexivity | reflexivity | |].
  - right. split; [reflexivity|]. split; [reflexivity|].
    exists [], (-1, 0), [(1, 0); (0, -1); (0, 1)].
    split; [reflexivity|]. split; [constructor|]. split; reflexivity.
  - exists r', evs. split; [exact Hatk|]. split; [reflexivity|].
    split; [exact Hgone|]. split; [exact Hended|]. split; [exact Hwinner|].
    split; [exact Hphase | apply Hlater].
Defined.

(** C6 as stated fails: the attack on the Light Infantry to the right kills
    the General above by cleave, and the enemy Light Infantry below, next to
    the attacker and not the primary target, keeps its 2 health. *)
Lemma cleave_stops_at_general :
  ∃ r' evs,
    Empires.gameActions cleaveRoom "a" [Empires.SelectCell 3 3; Empires.SelectCell 3 4]
    = Ret (r', evs)
    ∧ Empires.board (Empires.gameState cleaveRoom) !! (4, 3) = Some enemyInfantry
    ∧ player enemyInfantry ≠ player spartan
    ∧ distance 3 3 4 3 = 1
    ∧ Empires.board (Empires.gameState r') !! (2, 3) = None
    ∧ Empires.board (Empires.gameState r') !! (4, 3) = Some enemyInfantry
    ∧ Empires.gameEnded (Empires.gameState r') = true.
Proof.
  do 2 eexists. split; [vm_compute; reflexivity|]. repeat split; by vm_compute.
Qed.

Lemma spartan_cleave_order_witness :
  ∃ r' evs,
    Empires.attackPiece cleaveRoom 3 3 3 4 = Ret (r', evs)
    ∧ Empires.board (Empires.gameState r') !! (3, 4) = damaged 1 enemyInfantry
    ∧ Empires.gameEnded (Empires.gameState r') = true
    ∧ Empires.winner (Empires.gameState r') = Some (player spartan).
Proof.
  destruct (spartan_cleave_order cleaveRoom spartan enemyInfantry 3 3 3 4)
    as (r' & evs & Hatk & _ & Htarget & _ & Hwon);
    [reflexivity | lia | lia | reflexivity | reflexivity | reflexivity | reflexivity
    | reflexivity |].
  exists r', evs. split; [exact Hatk|]. split; [exact Htarget|].
  apply Hwon. apply Exists_cons_hd. reflexivity.
Defined.

(** C1 as stated fails.  Seat 1 kills the General of seat 2: the match is
    marked ended with the winner, but the phase stays [battle]; the end of
    turn of seat 1 is then accepted, and seat 2 goes on to select and move
    a piece. *)
Lemma match_goes_on_after_general_falls :
  Basic.gameActions killRoom "a" [Basic.SelectCell 3 3; Basic.SelectCell 3 4]
  = Ret afterKill
  ∧ Basic.board (Basic.gameState afterKill.1) !! (3, 4) = None
  ∧ Basic.gameEnded (Basic.gameState afterKill.1) = true
  ∧ Basic.winner (Basic.gameState afterKill.1) = Some 1
  ∧ Basic.gamePhase (Basic.gameState afterKill.1) = "battle"
  ∧ Basic.gamePhase (Basic.gameState afterKill.1) ≠ "ended"
  ∧ Basic.gameAction afterKill.1 "a" Basic.EndTurn = Ret afterEndTurn
  ∧ Forall (λ e, isError e = false) afterEndTurn.2
  ∧ Basic.currentPlayer (Basic.gameState afterKill.1) = 1
  ∧ Basic.currentPlayer (Basic.gameState afterEndTurn.1) = 2
  ∧ Basic.gameActions afterEndTurn.1 "b" [Basic.SelectCell 6 0; Basic.SelectCell 5 0]
    = Ret afterMove
  ∧ Forall (λ e, isError e = false) afterMove.2
  ∧ Basic.board (Basic.gameState afterMove.1) !! (6, 0) = None
  ∧ Basic.board (Basic.gameState afterMove.1) !! (5, 0)
    = Some (mkPiece "Light Infantry" 2 (Some (Int 2)) (Some (Int 2)) false
              None None None None).
Proof.
  split; [vm_compute; reflexivity|].
  split; [vm_compute; reflexivity|]. split; [vm_compute; reflexivity|].
  split; [vm_compute; reflexivity|].
  split; [vm_compute; reflexivity|]. split; [by vm_compute|].
  split; [vm_compute; reflexivity|].
  split; [vm_compute; repeat constructor|].
  split; [vm_compute; reflexivity|]. split; [vm_compute; reflexivity|].
  split; [vm_compute; reflexivity|].
  split; [vm_compute; repeat constructor|]. split; vm_compute; reflexivity.
Qed.

End Scenarios.

(** ** Rejected intents (6x7 server) *)

Section Rejections.
Import Basic.

Lemma rejected_clean evs :
  evs ≠ [] → Forall (λ e, isError e = false) evs → ¬ rejected evs.
Proof.
  intros Hne Hclean [->|Hex]; [done|].
  apply Exists_exists in Hex as (e & He & Herr).
  apply (proj1 (Forall_forall _ _) Hclean) in He. congruence.
Qed.

Lemma checkForHealing_clean r piece row :
  Forall (λ e, isError e = false) (checkForHealing r piece row).2.
Proof. unfold checkForHealing. simpl. destruct (shouldHeal piece row); repeat constructor. Qed.

Lemma movePiece_clean r fromRow fromCol toRow toCol r' evs :
  movePiece r fromRow fromCol toRow toCol = Ret (r', evs) →
  Forall (λ e, isError e = false) evs.
Proof.
  unfold movePiece.
  destruct (readCell _ _ _ _) as [[piece|]|]; simpl; try done.
  destruct (writeCell _ _ _ _ _) as [b1|]; simpl; [|done].
  destruct (writeCell _ _ _ _ _) as [b2|]; simpl; [|done].
  intros [= _ <-]. destruct (shouldHeal _ _); repeat constructor.
Qed.

Lemma attackPiece_clean r attackerRow attackerCol targetRow targetCol r' evs :
  attackPiece r attackerRow attackerCol targetRow targetCol = Ret (r', evs) →
  Forall (λ e, isError e = false) evs.
Proof.
  unfold attackPiece. destruct (gameEnded _); [by intros [= _ <-]|].
  destruct (readCell _ _ attackerRow attackerCol) as [attacker|]; simpl; [|done].
  destruct (readCell _ _ targetRow targetCol) as [target|]; simpl; [|done].
  destruct target as [target|]; [|by intros [= _ <-]].
  destruct attacker as [attacker|]; [|done].
  destruct (isCharge _ _ _ _ _ _); destruct (atMost _ 0);
    try destruct (String.eqb (type target) "General");
    intros [= _ <-]; repeat constructor.
Qed.

Lemma handlePlacePiece_rejected r who pieceType row col r' evs :
  handlePlacePiece r who pieceType row col = Ret (r', evs) →
  rejected evs → r' = r.
Proof.
  unfold handlePlacePiece.
  destruct (negb _ || negb _); [by intros [= <- _]|].
  case_bool_decide; [by intros [= <- _]|].
  destruct (readCell _ _ _ _) as [cell|]; simpl; [|done].
  case_bool_decide; [by intros [= <- _]|].
  destruct (negb _); [by intros [= <- _]|].
  case_bool_decide; [by intros [= <- _]|].
  destruct (typeStats pieceType) as [[h a]|]; simpl; [|done].
  destruct (writeCell _ _ _ _ _) as [b|]; simpl; [|done].
  intros [= _ <-] Hrej. exfalso. revert Hrej. apply rejected_clean; [done|].
  repeat constructor.
Qed.

Lemma handleEndTurn_rejected_same r who r' evs :
  handleEndTurn r who = Ret (r', evs) → rejected evs → r' = r.
Proof.
  unfold handleEndTurn.
  destruct (negb _); [by intros [= <- _]|].
  destruct (_ && _); [by intros [= <- _]|].
  intros Hret Hrej. exfalso. revert Hrej.
  repeat case_match; simplify_eq; apply rejected_clean; try done; repeat constructor.
Qed.

Lemma handleToggleOption_rejected r who option r' evs :
  handleToggleOption r who option = Ret (r', evs) → rejected evs → r' = r.
Proof.
  unfold handleToggleOption.
  destruct (negb _ && negb _); [by intros [= <- _]|].
  intros Hret Hrej. exfalso. revert Hrej.
  repeat case_match; simplify_eq; apply rejected_clean; try done; repeat constructor.
Qed.

Lemma handleSelectCell_rejected r who row col r' evs :
  handleSelectCell r who row col = Ret (r', evs) →
  rejected evs →
  r' = r
  ∨ (is_Some (selectedCell (gameState r)) ∧ r' = update (set_selectedCell None) r).
Proof.
  unfold handleSelectCell.
  destruct (negb _ || negb _); [intros [= <- _]; by left|].
  destruct (selectedCell (gameState r)) as [[selRow selCol]|] eqn:Hsel.
  2:{ destruct (readCell _ _ _ _) as [[piece|]|]; simpl; try done.
      - case_bool_decide; [|intros [= <- _]; by left].
        intros [= _ <-] Hrej. exfalso. revert Hrej.
        apply rejected_clean; [done | repeat constructor].
      - intros [= <- _]; by left. }
  destruct (readCell _ _ selRow selCol) as [selectedPiece|]; simpl; [|done].
  destruct (readCell _ _ row col) as [targetPiece|]; simpl; [|done].
  destruct (_ && _).
  { intros [= _ <-] Hrej. exfalso. revert Hrej.
    apply rejected_clean; [done | repeat constructor]. }
  destruct targetPiece as [targetPiece|], selectedPiece as [selectedPiece|]; try done.
  - case_bool_decide; [|intros [= <- _]; right; by eauto].
    destruct (canAttack _ _ _ _ _ _) as [[|]|]; simpl; try done.
    + destruct (negb (hasMoved _)); [intros [= <- _]; right; by eauto|].
      destruct (negb (hasAttacked _)); [|intros [= <- _]; right; by eauto].
      destruct (attackPiece _ _ _ _ _) as [[r1 evs1]|] eqn:Hatk; simpl; [|done].
      intros [= _ <-] Hrej. exfalso. revert Hrej.
      apply rejected_clean; [by destruct evs1|].
      apply Forall_app. split; [by eapply attackPiece_clean | repeat constructor].
    + intros [= <- _]; right; by eauto.
  - destruct (canMove _ _ _ _ _); [|intros [= <- _]; right; by eauto].
    destruct (negb (hasMoved _)); [|intros [= <- _]; right; by eauto].
    destruct (movePiece _ _ _ _ _) as [[r1 evs1]|] eqn:Hmv; simpl; [|done].
    intros [= _ <-] Hrej. exfalso. revert Hrej.
    apply rejected_clean; [by destruct evs1|].
    apply Forall_app. split; [|repeat constructor].
    apply Forall_app. split; [by eapply movePiece_clean | repeat constructor].
Qed.

(** C7, as the code has it.  An intent that is dropped in silence or
    answered with an error advisory leaves the room exactly as it was,
    with one exception: a refused second click of [selectCell] (illegal
    move or attack geometry, a second move, an attack before the move, a
    second attack) clears the selection cursor, and nothing else. *)
Theorem rejected_intent_keeps_state (r : GameRoom) (sid : SocketId) (data : Action)
    (r' : GameRoom) (evs : list Event) :
  gameAction r sid data = Ret (r', evs) →
  rejected evs →
  r' = r
  ∨ (∃ row col, data = SelectCell row col)
    ∧ is_Some (selectedCell (gameState r))
    ∧ r' = update (set_selectedCell None) r.
Proof.
  unfold gameAction. destruct (getPlayerBySocketId r sid) as [who|];
    [|intros [= <- _]; by left].
  destruct data as [pieceType row col|row col| |option|other].
  - intros Hret Hrej. left. by eapply handlePlacePiece_rejected.
  - intros Hret Hrej.
    destruct (handleSelectCell_rejected _ _ _ _ _ _ Hret Hrej) as [->|[Hsel ->]];
      [by left|right]. split; [by eauto|]. done.
  - intros Hret Hrej. left. by eapply handleEndTurn_rejected_same.
  - intros Hret Hrej. left. by eapply handleToggleOption_rejected.
  - intros [= <- _]. by left.
Qed.

(** C7 as stated fails: with the piece at (3, 3) selected, a click on the
    far cell (0, 0) is answered with an error advisory, and the selection
    cursor of the state is gone. *)
Lemma rejected_click_clears_cursor :
  gameAction selRoom "a" (SelectCell 0 0)
  = Ret (update (set_selectedCell None) selRoom,
         [GameMessage "Invalid move or attack!" "error"; GameStateUpdate])
  ∧ isError (GameMessage "Invalid move or attack!" "error") = true
  ∧ selectedCell (gameState selRoom) = Some (3, 3)
  ∧ selectedCell (gameState (update (set_selectedCell None) selRoom)) = None
  ∧ gameState (update (set_selectedCell None) selRoom) ≠ gameState selRoom.
Proof.
  split; [vm_compute; reflexivity|]. split; [reflexivity|]. split; [reflexivity|].
  split; [reflexivity|]. intros Heq. apply (f_equal selectedCell) in Heq. discriminate.
Qed.

Lemma rejected_intent_keeps_state_witness :
  update (set_selectedCell None) selRoom = selRoom
  ∨ (∃ row col, SelectCell 0 0 = SelectCell row col)
    ∧ is_Some (selectedCell (gameState selRoom))
    ∧ update (set_selectedCell None) selRoom = update (set_selectedCell None) selRoom.
Proof.
  apply (rejected_intent_keeps_state selRoom "a" (SelectCell 0 0)
           (update (set_selectedCell None) selRoom)
           [GameMessage "Invalid move or attack!" "error"; GameStateUpdate]).
  - vm_compute. reflexivity.
  - right. apply Exists_cons_hd. reflexivity.
Defined.

End Rejections.

(** ** One piece per cell (6x7 server) *)

Section Occupancy.
Import Basic.

Lemma sameOccupant_refl p : sameOccupant p p.
Proof. by repeat split. Qed.

Lemma keepsOccupants_refl (b : Board) : keepsOccupants b b.
Proof. intros k p Hp. right. exists p. split; [done | apply sameOccupant_refl]. Qed.

Lemma attackPiece_board r attackerRow attackerCol targetRow targetCol r' evs :
  attackPiece r attackerRow attackerCol targetRow targetCol = Ret (r', evs) →
  r' = r
  ∨ ∃ attacker target,
      board (gameState r) !! (attackerRow, attackerCol) = Some attacker
      ∧ board (gameState r) !! (targetRow, targetCol) = Some target
      ∧ board (gameState r')
        = attackedBoard (board (gameState r)) attacker target
            attackerRow attackerCol targetRow targetCol
      ∧ players r' = players r.
Proof.
  unfold attackPiece. destruct (gameEnded _); [intros [= <- _]; by left|].
  destruct (readCell _ _ attackerRow attackerCol) as [attacker|] eqn:Ha; simpl; [|done].
  destruct (readCell _ _ targetRow targetCol) as [target|] eqn:Ht; simpl; [|done].
  apply readCell_Ret in Ha as [-> _], Ht as [-> _].
  destruct (board (gameState r) !! (targetRow, targetCol)) as [target|] eqn:Htarget;
    [|intros [= <- _]; by left].
  destruct (board (gameState r) !! (attackerRow, attackerCol)) as [attacker|] eqn:Hattacker;
    [|done].
  intros Hret. right. exists attacker, target. split; [done|]. split; [done|].
  unfold attackedBoard. simpl in Hret.
  destruct (atMost _ 0); [destruct (String.eqb (type target) "General")|];
    injection Hret as <- _; done.
Qed.

Lemma attackedBoard_keeps (b : Board) (attacker target : Piece)
    (attackerRow attackerCol targetRow targetCol : Z) :
  b !! (targetRow, targetCol) = Some target →
  keepsOccupants b (attackedBoard b attacker target attackerRow attackerCol targetRow targetCol).
Proof.
  intros Htarget k p'. unfold attackedBoard.
  set (b1 := if _ && _ then _ else b).
  assert (Hb1 : ∀ q, b1 !! k = Some q → ∃ p, b !! k = Some p ∧ sameOccupant p q).
  { intros q. unfold b1. destruct (_ && _); [|intros Hq; exists q; by split].
    destruct (decide (k = (attackerRow, attackerCol))) as [->|Hne].
    - rewrite lookup_alter_eq. destruct (b !! (attackerRow, attackerCol)) as [a|]; [|done].
      simpl. intros [= Hq]. subst q. exists a. by split.
    - rewrite lookup_alter_ne by done. intros Hq. exists q. by split. }
  destruct (atMost _ 0).
  - destruct (decide (k = (targetRow, targetCol))) as [->|Hne].
    + by rewrite lookup_delete_eq.
    + rewrite lookup_delete_ne by done. intros Hq. right. by apply Hb1.
  - destruct (decide (k = (targetRow, targetCol))) as [->|Hne].
    + rewrite lookup_insert_eq. intros [= Hq]. subst p'. right. exists target.
      split; [done|]. by repeat split.
    + rewrite lookup_insert_ne by done. intros Hq. right. by apply Hb1.
Qed.

Lemma attackedBoard_alive (b : Board) (attacker target : Piece)
    (attackerRow attackerCol targetRow targetCol : Z) :
  b !! (targetRow, targetCol) = Some target →
  alive b →
  alive (attackedBoard b attacker target attackerRow attackerCol targetRow targetCol).
Proof.
  intros Htarget Halive k p'. unfold attackedBoard.
  set (b1 := if _ && _ then _ else b).
  assert (Hb1 : ∀ q, b1 !! k = Some q →
                     atMost (health q) 0 = false ∧ atMost (maxHealth q) 0 = false).
  { intros q. unfold b1. destruct (_ && _); [|by apply Halive].
    destruct (decide (k = (attackerRow, attackerCol))) as [->|Hne].
    - rewrite lookup_alter_eq. destruct (b !! (attackerRow, attackerCol)) as [a|] eqn:Hk; [|done].
      simpl. intros [= Hq]. subst q. by apply (Halive _ _ Hk).
    - rewrite lookup_alter_ne by done. by apply Halive. }
  destruct (atMost _ 0) eqn:Hdead.
  - destruct (decide (k = (targetRow, targetCol))) as [->|Hne].
    + by rewrite lookup_delete_eq.
    + rewrite lookup_delete_ne by done. by apply Hb1.
  - destruct (decide (k = (targetRow, targetCol))) as [->|Hne].
    + rewrite lookup_insert_eq. intros [= Hq]. subst p'. simpl.
      split; [exact Hdead | by apply (Halive _ _ Htarget)].
    + rewrite lookup_insert_ne by done. by apply Hb1.
Qed.

Lemma movedBoard_keeps (b : Board) (piece : Piece) (fromRow fromCol toRow toCol : Z) :
  b !! (toRow, toCol) = None →
  keepsOccupants b (movedBoard b piece fromRow fromCol toRow toCol).
Proof.
  intros Hempty k p'. unfold movedBoard.
  destruct (decide (k = (toRow, toCol))) as [->|Hne]; [by left|].
  rewrite lookup_insert_ne by done.
  destruct (decide (k = (fromRow, fromCol))) as [->|Hne'].
  - by rewrite lookup_delete_eq.
  - rewrite lookup_delete_ne by done. intros Hq. right. exists p'. by split.
Qed.

Lemma healed_alive piece row :
  atMost (health piece) 0 = false ∧ atMost (maxHealth piece) 0 = false →
  atMost (health (healed piece row)) 0 = false
  ∧ atMost (maxHealth (healed piece row)) 0 = false.
Proof.
  intros [Hh Hm]. unfold healed. destruct (shouldHeal piece row); [|done].
  by destruct (String.eqb (type piece) "Archer").
Qed.

Lemma charged_alive piece fromRow fromCol toRow toCol :
  health (charged piece fromRow fromCol toRow toCol) = health piece
  ∧ maxHealth (charged piece fromRow fromCol toRow toCol) = maxHealth piece.
Proof.
  unfold charged. destruct (String.eqb (type piece) "Cavalry"); [|done].
  by case_bool_decide.
Qed.

Lemma movedBoard_alive (b : Board) (piece : Piece) (fromRow fromCol toRow toCol : Z) :
  b !! (fromRow, fromCol) = Some piece →
  alive b → alive (movedBoard b piece fromRow fromCol toRow toCol).
Proof.
  intros Hpiece Halive k p'. unfold movedBoard.
  destruct (decide (k = (toRow, toCol))) as [->|Hne].
  - rewrite lookup_insert_eq. intros [= Hq]. subst p'. apply healed_alive.
    destruct (charged_alive piece fromRow fromCol toRow toCol) as [-> ->].
    by apply (Halive _ _ Hpiece).
  - rewrite lookup_insert_ne by done.
    destruct (decide (k = (fromRow, fromCol))) as [->|Hne'].
    + by rewrite lookup_delete_eq.
    + rewrite lookup_delete_ne by done. by apply Halive.
Qed.

Lemma movePiece_board r fromRow fromCol toRow toCol r' evs :
  movePiece r fromRow fromCol toRow toCol = Ret (r', evs) →
  (fromRow, fromCol) ≠ (toRow, toCol) →
  ∃ piece,
    board (gameState r) !! (fromRow, fromCol) = Some piece
    ∧ r' = update (set_board
                     (movedBoard (board (gameState r)) piece fromRow fromCol toRow toCol)) r.
Proof.
  intros Hret Hne.
  assert (Hrows : 0 ≤ fromRow < height ∧ 0 ≤ toRow < height
                  ∧ ∃ piece, board (gameState r) !! (fromRow, fromCol) = Some piece).
  { unfold movePiece in Hret.
    destruct (readCell _ _ _ _) as [cell|] eqn:Hread; simpl in Hret; [|done].
    apply readCell_Ret in Hread as [-> Hfrom].
    destruct (board (gameState r) !! (fromRow, fromCol)) as [piece|]; [|done].
    destruct (writeCell _ _ toRow toCol _) as [b1|] eqn:Hwrite; [|done].
    unfold writeCell, rowExists in Hwrite. case_bool_decide; [|done].
    split; [done|]. split; [done|]. by eexists. }
  destruct Hrows as (Hfrom & Hto & piece & Hpiece).
  rewrite (movePiece_ok r piece) in Hret by done.
  injection Hret as <- _. by exists piece.
Qed.

Lemma pieceTypes_positive t h a : pieceTypes t = Some (h, a) → 0 < h.
Proof. unfold pieceTypes. repeat case_match; intros [= <- _]; lia. Qed.

(** The health that a placement reads is a positive number or
    [undefined]. *)
Lemma typeStats_alive t h a : typeStats t = Ret (h, a) → atMost h 0 = false.
Proof.
  unfold typeStats. destruct (pieceTypes t) as [[h0 a0]|] eqn:Hty.
  - intros [= <- _]. apply pieceTypes_positive in Hty.
    unfold atMost. apply bool_decide_eq_false_2. lia.
  - destruct (inherited t); [|done]. by intros [= <- _].
Qed.

Lemma handlePlacePiece_board r who pieceType row col r' evs :
  handlePlacePiece r who pieceType row col = Ret (r', evs) →
  r' = r
  ∨ (board (gameState r) !! (row, col) = None
     ∧ ∃ h a, typeStats pieceType = Ret (h, a)
              ∧ board (gameState r')
                = <[(row, col) := pieceObject pieceType (playerNumber who) h a]>
                    (board (gameState r))).
Proof.
  unfold handlePlacePiece.
  destruct (negb _ || negb _); [intros [= <- _]; by left|].
  case_bool_decide; [intros [= <- _]; by left|].
  destruct (readCell _ _ _ _) as [cell|] eqn:Hread; simpl; [|done].
  apply readCell_Ret in Hread as [-> Hrow].
  case_bool_decide as Hocc; [intros [= <- _]; by left|].
  destruct (negb _); [intros [= <- _]; by left|].
  case_bool_decide; [intros [= <- _]; by left|].
  destruct (typeStats pieceType) as [[h a]|] eqn:Hty; simpl; [|done].
  rewrite writeCell_ok by done. simpl. intros [= <- _]. right. split.
  - destruct (board (gameState r) !! (row, col)); [|done]. exfalso. apply Hocc. by eexists.
  - exists h, a. split; [done|]. by destruct (bool_decide (playerNumber who = 1)).
Qed.

Lemma handleSelectCell_board r who row col r' evs :
  handleSelectCell r who row col = Ret (r', evs) →
  board (gameState r') = board (gameState r)
  ∨ (∃ selRow selCol piece,
        selectedCell (gameState r) = Some (selRow, selCol)
        ∧ board (gameState r) !! (selRow, selCol) = Some piece
        ∧ board (gameState r) !! (row, col) = None
        ∧ board (gameState r')
          = movedBoard (board (gameState r)) piece selRow selCol row col)
  ∨ (∃ selRow selCol attacker target,
        selectedCell (gameState r) = Some (selRow, selCol)
        ∧ board (gameState r) !! (selRow, selCol) = Some attacker
        ∧ board (gameState r) !! (row, col) = Some target
        ∧ board (gameState r')
          = attackedBoard (board (gameState r)) attacker target selRow selCol row col).
Proof.
  unfold handleSelectCell.
  destruct (negb _ || negb _); [intros [= <- _]; by left|].
  destruct (selectedCell (gameState r)) as [[selRow selCol]|] eqn:Hsel.
  2:{ destruct (readCell _ _ _ _) as [[piece|]|]; simpl; try done.
      - case_bool_decide; intros [= <- _]; by left.
      - intros [= <- _]; by left. }
  destruct (readCell _ _ selRow selCol) as [selectedPiece|] eqn:Hs; simpl; [|done].
  destruct (readCell _ _ row col) as [targetPiece|] eqn:Ht; simpl; [|done].
  apply readCell_Ret in Hs as [-> Hsr], Ht as [-> Hr].
  destruct (bool_decide (selRow = row) && bool_decide (selCol = col)) eqn:Hsame.
  { intros [= <- _]; by left. }
  assert (Hne : (selRow, selCol) ≠ (row, col)).
  { intros [= -> ->]. by rewrite !bool_decide_eq_true_2 in Hsame. }
  destruct (board (gameState r) !! (row, col)) as [targetPiece|] eqn:Htarget,
    (board (gameState r) !! (selRow, selCol)) as [selectedPiece|] eqn:Hselected; try done.
  - destruct (bool_decide (player targetPiece ≠ player selectedPiece));
      [|intros [= <- _]; by left].
    destruct (canAttack _ _ _ _ _ _) as [[|]|]; simpl; try done.
    + destruct (negb (hasMoved _)); [intros [= <- _]; by left|].
      destruct (negb (hasAttacked _)); [|intros [= <- _]; by left].
      destruct (attackPiece _ _ _ _ _) as [[r1 evs1]|] eqn:Hatk; simpl; [|done].
      intros [= <- _]. simpl.
      apply attackPiece_board in Hatk as [->|(attacker & target & Ha & Htg & Hb & _)];
        [by left|].
      right. right. exists selRow, selCol, attacker, target.
      rewrite Hselected in Ha. rewrite Htarget in Htg. by simplify_eq.
    + intros [= <- _]; by left.
  - destruct (canMove _ _ _ _ _); [|intros [= <- _]; by left].
    destruct (negb (hasMoved _)); [|intros [= <- _]; by left].
    destruct (movePiece _ _ _ _ _) as [[r1 evs1]|] eqn:Hmv; simpl; [|done].
    intros [= <- _]. simpl.
    destruct (movePiece_board _ _ _ _ _ _ _ Hmv Hne) as (piece & Hpiece & ->).
    right. left. exists selRow, selCol, piece. by simplify_eq.
Qed.

Lemma handleEndTurn_board r who r' evs :
  handleEndTurn r who = Ret (r', evs) →
  r' = r ∨ board (gameState r') = clearChargeDirections (board (gameState r)).
Proof.
  unfold handleEndTurn.
  destruct (negb _); [intros [= <- _]; by left|].
  destruct (_ && _); [intros [= <- _]; by left|].
  intros Hret. right. repeat case_match; by simplify_eq.
Qed.

Lemma handleToggleOption_board r who option r' evs :
  handleToggleOption r who option = Ret (r', evs) →
  board (gameState r') = board (gameState r).
Proof.
  unfold handleToggleOption.
  destruct (negb _ && negb _); [by intros [= <- _]|].
  intros Hret. repeat case_match; by simplify_eq.
Qed.

Lemma cleared_keeps (b : Board) : keepsOccupants b (clearChargeDirections b).
Proof.
  intros [row col] p'. rewrite clearChargeDirections_lookup.
  case_decide; [|intros Hp; right; exists p'; by split].
  destruct (b !! (row, col)) as [p|]; [|done]. simpl. intros [= Hp]. subst p'.
  right. exists p. split; [done|]. unfold clearCharge.
  by destruct (String.eqb (type p) "Cavalry").
Qed.

Lemma cleared_alive (b : Board) : alive b → alive (clearChargeDirections b).
Proof.
  intros Halive [row col] p'. rewrite clearChargeDirections_lookup.
  case_decide; [|by apply Halive].
  destruct (b !! (row, col)) as [p|] eqn:Hk; [|done]. simpl. intros [= Hp]. subst p'.
  unfold clearCharge. destruct (String.eqb (type p) "Cavalry"); by apply (Halive _ _ Hk).
Qed.

Lemma placed_keeps (b : Board) (k : Z * Z) (p : Piece) :
  b !! k = None → keepsOccupants b (<[k := p]> b).
Proof.
  intros Hempty k' p'. destruct (decide (k' = k)) as [->|Hne]; [by left|].
  rewrite lookup_insert_ne by done. intros Hp. right. exists p'. by split.
Qed.

(** What one [gameAction] does to the board. *)
Lemma gameAction_keeps r sid data r' evs :
  gameAction r sid data = Ret (r', evs) →
  keepsOccupants (board (gameState r)) (board (gameState r')).
Proof.
  unfold gameAction. destruct (getPlayerBySocketId r sid) as [who|];
    [|intros [= <- _]; apply keepsOccupants_refl].
  destruct data as [pieceType row col|row col| |option|other].
  - intros [->|(Hempty & h & a & _ & ->)]%handlePlacePiece_board.
    + apply keepsOccupants_refl.
    + by apply placed_keeps.
  - intros [->|[(sr & sc & p & _ & _ & Hempty & ->)|(sr & sc & a & t & _ & _ & Ht & ->)]]
      %handleSelectCell_board.
    + apply keepsOccupants_refl.
    + by apply movedBoard_keeps.
    + by apply attackedBoard_keeps.
  - intros [->| ->]%handleEndTurn_board.
    + apply keepsOccupants_refl.
    + apply cleared_keeps.
  - intros ->%handleToggleOption_board. apply keepsOccupants_refl.
  - intros [= <- _]. apply keepsOccupants_refl.
Qed.

Lemma gameAction_alive r sid data r' evs :
  gameAction r sid data = Ret (r', evs) →
  alive (board (gameState r)) → alive (board (gameState r')).
Proof.
  unfold gameAction. destruct (getPlayerBySocketId r sid) as [who|];
    [|by intros [= <- _]].
  destruct data as [pieceType row col|row col| |option|other].
  - intros [->|(Hempty & h & a & Hty & ->)]%handlePlacePiece_board Halive; [done|].
    intros k p. destruct (decide (k = (row, col))) as [->|Hne].
    + rewrite lookup_insert_eq. intros [= Hp]. subst p. simpl.
      apply typeStats_alive in Hty. by split.
    + rewrite lookup_insert_ne by done. apply Halive.
  - intros [->|[(sr & sc & p & _ & Hp & _ & ->)|(sr & sc & a & t & _ & _ & Ht & ->)]]
      %handleSelectCell_board Halive.
    + done.
    + by apply movedBoard_alive.
    + by apply attackedBoard_alive.
  - intros [->| ->]%handleEndTurn_board Halive; [done|]. by apply cleared_alive.
  - by intros ->%handleToggleOption_board.
  - by intros [= <- _].
Qed.

Lemma alive_empty : alive ∅.
Proof. intros k p. by rewrite lookup_empty. Qed.

Lemma reachable_alive r : reachable r → alive (board (gameState r)).
Proof.
  induction 1 as [id|r sid playerName _ IH|r sid _ IH|r sid data r' evs _ IH Hstep].
  - apply alive_empty.
  - unfold addPlayer. case_bool_decide; [done|]. by case_bool_decide.
  - unfold removePlayer. destruct (mapGet sid (players r)) as [leaver|].
    + case_bool_decide; [done|].
      destruct (mapValues _) as [|p [|q rest]]; simpl; try done.
    + by case_bool_decide.
  - by eapply gameAction_alive.
Qed.

Lemma moved_sameOccupant piece fromRow fromCol toRow toCol :
  sameOccupant piece (healed (charged piece fromRow fromCol toRow toCol) toRow).
Proof.
  destruct (healed_fields (charged piece fromRow fromCol toRow toCol) toRow)
    as (Hty & Hpl & _).
  destruct (charged_fields piece fromRow fromCol toRow toCol) as (Hty0 & Hpl0).
  destruct (charged_alive piece fromRow fromCol toRow toCol) as (_ & Hmax).
  unfold sameOccupant. rewrite Hty, Hpl, Hty0, Hpl0. repeat split.
  rewrite <- Hmax. unfold healed. destruct (shouldHeal _ _); [|done].
  by destruct (String.eqb _ "Archer").
Qed.

(** C2.  In every room that joins, departures and game actions can reach,
    no piece whose health is a number at or below 0 stands on the board,
    and no game action puts a piece on a cell that holds another one:
    every cell occupied after the action was empty before it or holds the
    piece it held.  A placement that changes the board writes one piece
    to a cell that was empty.  A move that changes the board puts the
    selected piece on the empty destination and leaves its source cell
    empty.  An attack that changes the board deals 1 or 2 damage to the
    target and leaves its cell empty when that uses up the target's
    health, and holding the target with that much health less
    otherwise. *)
Theorem one_piece_per_cell (r : GameRoom) :
  reachable r →
  (∀ k p, board (gameState r) !! k = Some p → atMost (health p) 0 = false)
  ∧ ∀ sid data r' evs,
      gameAction r sid data = Ret (r', evs) →
      let b := board (gameState r) in
      let b' := board (gameState r') in
      keepsOccupants b b'
      ∧ (∀ pieceType row col,
            data = PlacePiece pieceType row col → b' ≠ b →
            b !! (row, col) = None ∧ ∃ p, b' = <[(row, col) := p]> b)
      ∧ (∀ row col,
            data = SelectCell row col → b !! (row, col) = None → b' ≠ b →
            ∃ src p p',
              selectedCell (gameState r) = Some src
              ∧ b !! src = Some p ∧ sameOccupant p p'
              ∧ b' = <[(row, col) := p']> (delete src b)
              ∧ b' !! src = None)
      ∧ (∀ row col target,
            data = SelectCell row col → b !! (row, col) = Some target → b' ≠ b →
            ∃ dmg, (dmg = 1 ∨ dmg = 2) ∧ b' !! (row, col) = damaged dmg target).
Proof.
  intros Hreach. split.
  { intros k p Hp. by apply (reachable_alive r Hreach k p). }
  intros sid data r' evs Hstep b b'.
  split; [by eapply gameAction_keeps|].
  unfold gameAction in Hstep.
  destruct (getPlayerBySocketId r sid) as [who|].
  2:{ injection Hstep as <- _. repeat split; intros; by subst b'. }
  split; [|split].
  - intros pieceType row col -> Hchanged.
    apply handlePlacePiece_board in Hstep as [->|(Hempty & h & a & _ & Hb)]; [done|].
    split; [done|]. by eexists.
  - intros row col -> Hempty Hchanged.
    apply handleSelectCell_board in Hstep
      as [Hsame|[(sr & sc & p & Hsel & Hp & _ & Hb)|(sr & sc & a & t & _ & _ & Ht & _)]].
    + done.
    + exists (sr, sc), p, (healed (charged p sr sc row col) row).
      split; [done|]. split; [done|]. split; [apply moved_sameOccupant|].
      split; [done|]. subst b'. rewrite Hb. unfold movedBoard.
      destruct (decide ((sr, sc) = (row, col))) as [Heq|Hne].
      * rewrite Heq in Hp. subst b. congruence.
      * rewrite lookup_insert_ne by done. apply lookup_delete_eq.
    + subst b. congruence.
  - intros row col target -> Htarget Hchanged.
    apply handleSelectCell_board in Hstep
      as [Hsame|[(sr & sc & p & _ & _ & Hempty & _)|(sr & sc & a & t & _ & _ & Ht & Hb)]].
    + done.
    + subst b. congruence.
    + assert (t = target) as -> by (subst b; congruence).
      exists (if isCharge a target sr sc row col then 2 else 1).
      split; [destruct (isCharge _ _ _ _ _ _); auto|].
      subst b'. rewrite Hb. unfold attackedBoard, damaged.
      destruct (atMost _ 0).
      * apply lookup_delete_eq.
      * apply lookup_insert_eq.
Qed.

Lemma openingRoom_reachable : reachable openingRoom.
Proof.
  apply (reach_action
           (addPlayer (addPlayer (newGameRoom "room1") "a" "Ann").1.1 "b" "Bob").1.1
           "a" (PlacePiece "General" 0 0) openingRoom [GameStateUpdate]).
  - apply (reach_join _ "b" "Bob"), (reach_join _ "a" "Ann"), (reach_new "room1").
  - vm_compute. reflexivity.
Defined.

(** The rooms that can be reached include those with a piece whose type
    name the catalog only inherits: the piece is placed without health,
    the roster of the seat gets an entry that is not a number, and the
    placement counts for the turn. *)
Lemma inherited_type_is_placed :
  reachable strayRoom
  ∧ board (gameState strayRoom) !! (0, 0) = Some (pieceObject "constructor" 1 None None)
  ∧ player1Pieces (gameState strayRoom) !! "constructor" = Some NaN
  ∧ piecesPlacedThisTurn (gameState strayRoom) = 1.
Proof.
  split; [|by vm_compute].
  apply (reach_action
           (addPlayer (addPlayer (newGameRoom "room1") "a" "Ann").1.1 "b" "Bob").1.1
           "a" (PlacePiece "constructor" 0 0) strayRoom [GameStateUpdate]).
  - apply (reach_join _ "b" "Bob"), (reach_join _ "a" "Ann"), (reach_new "room1").
  - vm_compute. reflexivity.
Qed.

Lemma one_piece_per_cell_witness :
  (∀ k p, board (gameState openingRoom) !! k = Some p → atMost (health p) 0 = false)
  ∧ ∀ sid data r' evs,
      gameAction openingRoom sid data = Ret (r', evs) →
      keepsOccupants (board (gameState openingRoom)) (board (gameState r'))
      ∧ (∀ pieceType row col,
            data = PlacePiece pieceType row col →
            board (gameState r') ≠ board (gameState openingRoom) →
            board (gameState openingRoom) !! (row, col) = None
            ∧ ∃ p, board (gameState r') = <[(row, col) := p]> (board (gameState openingRoom)))
      ∧ (∀ row col,
            data = SelectCell row col →
            board (gameState openingRoom) !! (row, col) = None →
            board (gameState r') ≠ board (gameState openingRoom) →
            ∃ src p p',
              selectedCell (gameState openingRoom) = Some src
              ∧ board (gameState openingRoom) !! src = Some p ∧ sameOccupant p p'
              ∧ board (gameState r')
                = <[(row, col) := p']> (delete src (board (gameState openingRoom)))
              ∧ board (gameState r') !! src = None)
      ∧ (∀ row col target,
            data = SelectCell row col →
            board (gameState openingRoom) !! (row, col) = Some target →
            board (gameState r') ≠ board (gameState openingRoom) →
            ∃ dmg, (dmg = 1 ∨ dmg = 2)
                   ∧ board (gameState r') !! (row, col) = damaged dmg target).
Proof. exact (one_piece_per_cell openingRoom openingRoom_reachable). Defined.

End Occupancy.

(** ** The [Map] of seats *)

Section JsMapFacts.
Context {K V : Type} `{EqDecision K}.
Implicit Types (m : list (K * V)) (k : K) (v : V).

Lemma mapGet_None k m : mapGet k m = None ↔ k ∉ m.*1.
Proof.
  induction m as [|[k' v'] m IH]; simpl.
  - split; [intros _; apply not_elem_of_nil|done].
  - rewrite not_elem_of_cons. destruct (decide (k' = k)) as [->|Hne].
    + split; [done|]. by intros [? _].
    + rewrite IH. split; [by intros ?; split|by intros [_ ?]].
Qed.

Lemma mapGet_Some_elem k v m : mapGet k m = Some v → (k, v) ∈ m.
Proof.
  induction m as [|[k' v'] m IH]; simpl; [done|].
  destruct (decide (k' = k)) as [->|Hne].
  - intros [= ->]. apply elem_of_cons. by left.
  - intros H. apply elem_of_cons. right. by apply IH.
Qed.

Lemma mapGet_mapSet_eq k v m : mapGet k (mapSet k v m) = Some v.
Proof.
  induction m as [|[k' v'] m IH]; simpl.
  - by rewrite decide_True.
  - destruct (decide (k' = k)) as [->|Hne]; simpl.
    + by rewrite decide_True.
    + by rewrite decide_False.
Qed.

Lemma mapGet_mapSet_ne k k' v m : k ≠ k' → mapGet k' (mapSet k v m) = mapGet k' m.
Proof.
  intros Hne. induction m as [|[k0 v0] m IH]; simpl.
  - by rewrite decide_False.
  - destruct (decide (k0 = k)) as [->|Hne0]; simpl.
    + by rewrite !decide_False.
    + destruct (decide (k0 = k')); [done|apply IH].
Qed.

(** [set] on a new key appends; on a present key it keeps the keys. *)
Lemma mapSet_fresh k v m : mapGet k m = None → mapSet k v m = m ++ [(k, v)].
Proof.
  induction m as [|[k' v'] m IH]; simpl; [done|].
  destruct (decide (k' = k)); [done|]. intros H. by rewrite IH.
Qed.

Lemma mapSet_keys k v m : is_Some (mapGet k m) → (mapSet k v m).*1 = m.*1.
Proof.
  induction m as [|[k' v'] m IH]; simpl; [by intros [? ?]|].
  destruct (decide (k' = k)) as [->|Hne]; simpl; [done|].
  intros H. f_equal. by apply IH.
Qed.

Lemma mapSet_length k v m :
  length (mapSet k v m) = if mapGet k m is Some _ then length m else S (length m).
Proof.
  induction m as [|[k' v'] m IH]; simpl; [done|].
  destruct (decide (k' = k)) as [->|Hne]; simpl; [done|].
  rewrite IH. by destruct (mapGet k m).
Qed.

Lemma mapSet_Forall (P : K * V → Prop) k v m :
  Forall P m → P (k, v) → Forall P (mapSet k v m).
Proof.
  intros Hm Hkv. induction Hm as [|[k' v'] m Hx Hm IH]; simpl.
  - by constructor.
  - destruct (decide (k' = k)); by constructor.
Qed.

Lemma mapSet_NoDup k v m : NoDup m.*1 → NoDup (mapSet k v m).*1.
Proof.
  intros Hnd. destruct (mapGet k m) as [v0|] eqn:Hget.
  - by rewrite mapSet_keys.
  - rewrite mapSet_fresh by done. rewrite fmap_app. simpl.
    apply NoDup_app. split; [done|]. split; [|apply NoDup_singleton].
    intros x Hx ->%list_elem_of_singleton. by apply mapGet_None in Hget.
Qed.

Lemma mapDelete_keys k m : (mapDelete k m).*1 = filter (fun k' => k' ≠ k) m.*1.
Proof.
  unfold mapDelete. induction m as [|[k' v'] m IH]; simpl; [done|].
  rewrite !filter_cons. simpl.
  destruct (decide (k' ≠ k)); simpl; [f_equal|]; apply IH.
Qed.

Lemma mapGet_mapDelete_eq k m : mapGet k (mapDelete k m) = None.
Proof.
  apply mapGet_None. rewrite mapDelete_keys. intros [Hk _]%list_elem_of_filter.
  by apply Hk.
Qed.

Lemma mapGet_mapDelete_ne k k' m : k ≠ k' → mapGet k' (mapDelete k m) = mapGet k' m.
Proof.
  intros Hne. unfold mapDelete. induction m as [|[k0 v0] m IH]; simpl; [done|].
  rewrite filter_cons. simpl. destruct (decide (k0 ≠ k)) as [Hk|Hk]; simpl.
  - destruct (decide (k0 = k')); [done|apply IH].
  - apply dec_stable in Hk. subst k0. by rewrite decide_False.
Qed.

Lemma mapDelete_length k m : (length (mapDelete k m) ≤ length m)%nat.
Proof. apply length_filter. Qed.

End JsMapFacts.

(** ** Seats of the 6x7 server *)

Section Seats.
Import Basic.

Lemma gameAction_room r sid data r' evs :
  gameAction r sid data = Ret (r', evs) →
  players r' = players r ∧ spectators r' = spectators r ∧ roomId r' = roomId r.
Proof.
  unfold gameAction, handlePlacePiece, handleSelectCell, handleEndTurn,
    handleToggleOption, movePiece, attackPiece, update, checkForHealing.
  intros H.
  repeat first
    [ progress simplify_eq/=
    | match goal with
      | H : context [match ?x with _ => _ end] |- _ => destruct x eqn:?
      | H : context [mbind _ ?x] |- _ => destruct x eqn:?
      end ];
    done.
Qed.

Lemma seated_nil : seated [].
Proof. split; [done|]. split; [constructor|constructor]. Qed.

Lemma mapSize_mapSet (sid : SocketId) (p : Player) (m : list (SocketId * Player)) :
  mapSize (mapSet sid p m)
  = if mapGet sid m is Some _ then mapSize m else mapSize m + 1.
Proof.
  unfold mapSize. rewrite mapSet_length. destruct (mapGet sid m); lia.
Qed.

Lemma addPlayer_seated r sid playerName :
  seated (players r) → seated (players (addPlayer r sid playerName).1.1).
Proof.
  intros (Hsize & Hnd & Hall). unfold addPlayer.
  case_bool_decide as Hfull; [done|].
  set (p := mkPlayer sid (mapSize (players r) + 1) playerName).
  assert (Hp : players (let '(r2, started) :=
                  if bool_decide (mapSize (players (set_players
                                    (mapSet sid p (players r)) r)) = 2)
                  then (set_gameState (set_gamePhase "placement"
                          (gameState (set_players (mapSet sid p (players r)) r)))
                          (set_players (mapSet sid p (players r)) r),
                        [GameMessage ("Game started! "
                           +:+ getPlayerName (set_players (mapSet sid p (players r)) r) 1
                           +:+ " goes first.") "info"])
                  else (set_players (mapSet sid p (players r)) r, []) in
                (r2, PlayerAssigned sid (mapSize (players r) + 1) playerName
                     :: started ++ [GameStateUpdate; PlayerListUpdate], true)).1.1
             = mapSet sid p (players r)).
  { by case_bool_decide. }
  rewrite Hp. split; [|split].
  - rewrite mapSize_mapSet. destruct (mapGet sid (players r)); lia.
  - by apply mapSet_NoDup.
  - apply mapSet_Forall; [done|]. simpl. split; [done|].
    unfold mapSize in *. lia.
Qed.

Lemma seated_mapDelete sid m : seated m → seated (mapDelete sid m).
Proof.
  intros (Hsize & Hnd & Hall). split; [|split].
  - pose proof (mapDelete_length sid m). unfold mapSize in *. lia.
  - rewrite mapDelete_keys. by apply NoDup_filter.
  - unfold mapDelete. apply Forall_forall. intros x [_ Hx]%list_elem_of_filter.
    rewrite Forall_forall in Hall. by apply Hall.
Qed.

Lemma removePlayer_seated r sid :
  seated (players r) → seated (players (removePlayer r sid).1.1).
Proof.
  intros Hr. unfold removePlayer.
  destruct (mapGet sid (players r)) as [leaver|]; [|by case_bool_decide].
  pose proof (seated_mapDelete sid _ Hr) as Hd.
  case_bool_decide; [done|].
  destruct (mapDelete sid (players r)) as [|[k p] [|]] eqn:Hdel; [done| |done].
  simpl. destruct Hd as (Hsize & Hnd & Hall).
  apply Forall_inv in Hall as [Hk _]. simpl in Hk. rewrite Hk, decide_True by done.
  split; [done|]. split; [done|]. constructor; [|constructor]. simpl. auto.
Qed.

(** Every room that joins, leaves and game actions can produce has at
    most two seats, each stored under the id of its own socket and
    numbered 1 or 2, and no socket holds two seats. *)
Theorem reachable_rooms_seated (r : GameRoom) :
  reachable r → seated (players r).
Proof.
  induction 1 as [id|r sid playerName _ IH|r sid _ IH|r sid data r' evs _ IH Hact].
  - apply seated_nil.
  - by apply addPlayer_seated.
  - by apply removePlayer_seated.
  - apply gameAction_room in Hact as (-> & _). done.
Qed.

Lemma reachable_rooms_seated_witness : seated (players twoRoom).
Proof.
  apply (reachable_rooms_seated twoRoom).
  apply (reach_join loneRoom "b" "Bob"), (reach_join _ "a" "Ann"), (reach_new "room1").
Defined.

End Seats.

(** ** Joining and leaving the 6x7 server *)

Section Joins.
Import Basic.

(** A socket that holds the only seat of a room and joins again is
    stored as player 2, and the next socket to join is player 2 as well:
    the game starts in the placement phase with no player 1.  When seat 1
    is to move, no socket has the turn and every intent other than a
    ruleset toggle is dropped without an answer. *)
Theorem rejoin_leaves_no_first_player (r : GameRoom) (sid sid' : SocketId)
    (p : Player) (name1 name2 : string) :
  players r = [(sid, p)] →
  sid' ≠ sid →
  let r2 := (addPlayer (addPlayer r sid name1).1.1 sid' name2).1.1 in
  players r2 = [(sid, mkPlayer sid 2 name1); (sid', mkPlayer sid' 2 name2)]
  ∧ gamePhase (gameState r2) = "placement"
  ∧ (currentPlayer (gameState r) = 1 →
     (∀ s, isPlayerTurn r2 s = false)
     ∧ ∀ s data, turnBound data → gameAction r2 s data = Ret (r2, [])).
Proof.
  intros Hp Hne r2.
  assert (Hr2 : r2 = mkGameRoom (roomId r)
                       [(sid, mkPlayer sid 2 name1); (sid', mkPlayer sid' 2 name2)]
                       (set_gamePhase "placement" (gameState r)) (spectators r)).
  { unfold r2, addPlayer. rewrite Hp. simpl. rewrite decide_True by done. simpl.
    rewrite decide_False by done. done. }
  rewrite Hr2. clear r2 Hr2. split; [done|]. split; [done|]. intros Hcur.
  assert (Hturn : ∀ s, isPlayerTurn
            (mkGameRoom (roomId r)
               [(sid, mkPlayer sid 2 name1); (sid', mkPlayer sid' 2 name2)]
               (set_gamePhase "placement" (gameState r)) (spectators r)) s = false).
  { intros s. unfold isPlayerTurn, getPlayerBySocketId. simpl. rewrite Hcur.
    repeat case_decide; done. }
  split; [done|]. intros s data Hdata. unfold gameAction.
  destruct (getPlayerBySocketId _ s) as [who|]; [|done].
  destruct data as [pieceType row col|row col| |option|other]; try done.
  - unfold handlePlacePiece. by rewrite Hturn.
  - unfold handleEndTurn. by rewrite Hturn.
Qed.

Lemma rejoin_leaves_no_first_player_witness :
  let r2 := (addPlayer (addPlayer loneRoom "a" "Ann").1.1 "b" "Bob").1.1 in
  players r2 = [("a", mkPlayer "a" 2 "Ann"); ("b", mkPlayer "b" 2 "Bob")]
  ∧ gamePhase (gameState r2) = "placement"
  ∧ (currentPlayer (gameState loneRoom) = 1 →
     (∀ s, isPlayerTurn r2 s = false)
     ∧ ∀ s data, turnBound data → gameAction r2 s data = Ret (r2, [])).
Proof.
  apply (rejoin_leaves_no_first_player loneRoom "a" "b" (mkPlayer "a" 1 "Ann") "Ann" "Bob").
  - reflexivity.
  - done.
Defined.

(** When one of two seated sockets leaves and a new socket joins, the
    game starts from scratch: the socket that stayed is player 1, the new
    one is player 2, and the game state is the initial one (empty board,
    full rosters, both ruleset options off) in the placement phase. *)
Theorem leave_then_join_restarts (r : GameRoom) (sid stay new : SocketId)
    (leaver p : Player) (newName : string) :
  mapGet sid (players r) = Some leaver →
  mapDelete sid (players r) = [(stay, p)] →
  socket_id p = stay →
  new ≠ stay →
  let r1 := (removePlayer r sid).1.1 in
  let r2 := (addPlayer r1 new newName).1.1 in
  (removePlayer r sid).2 = false
  ∧ players r2 = [(stay, mkPlayer stay 1 (name p)); (new, mkPlayer new 2 newName)]
  ∧ gameState r2 = set_gamePhase "placement" initializeGameState
  ∧ spectators r2 = spectators r.
Proof.
  intros Hget Hdel Hp Hne. unfold removePlayer. rewrite Hget, Hdel. simpl.
  rewrite Hp, decide_True by done. unfold addPlayer. simpl.
  rewrite decide_False by done. done.
Qed.

Lemma leave_then_join_restarts_witness :
  let r1 := (removePlayer twoRoom "a").1.1 in
  let r2 := (addPlayer r1 "c" "Cid").1.1 in
  (removePlayer twoRoom "a").2 = false
  ∧ players r2 = [("b", mkPlayer "b" 1 "Bob"); ("c", mkPlayer "c" 2 "Cid")]
  ∧ gameState r2 = set_gamePhase "placement" initializeGameState
  ∧ spectators r2 = spectators twoRoom.
Proof.
  apply (leave_then_join_restarts twoRoom "a" "b" "c"
           (mkPlayer "a" 1 "Ann") (mkPlayer "b" 2 "Bob") "Cid");
    first [reflexivity | done].
Defined.

(** After a [joinRoom] request with a room id and a player name, the
    directory holds the room and the socket is in it, seated or as a
    spectator; every other room of the directory is left as it was, also
    a room in which the socket holds a seat. *)
Theorem joinRoom_enters (gameRooms : list (string * GameRoom))
    (sid : SocketId) (roomId playerName : string) :
  roomId ≠ "" → playerName ≠ "" →
  let rooms' := (joinRoom gameRooms sid roomId playerName).1 in
  (∃ room', mapGet roomId rooms' = Some room'
            ∧ (is_Some (mapGet sid (players room')) ∨ sid ∈ spectators room'))
  ∧ ∀ id, id ≠ roomId → mapGet id rooms' = mapGet id gameRooms.
Proof.
  intros Hid Hname. unfold joinRoom.
  rewrite !bool_decide_eq_false_2 by done. simpl.
  set (rooms1 := if mapHas roomId gameRooms then gameRooms
                 else mapSet roomId (newGameRoom roomId) gameRooms).
  assert (Hsome : is_Some (mapGet roomId rooms1)).
  { unfold rooms1, mapHas. case_bool_decide; [done|].
    rewrite mapGet_mapSet_eq. by eexists. }
  assert (Hother : ∀ id, id ≠ roomId → mapGet id rooms1 = mapGet id gameRooms).
  { intros id Hne. unfold rooms1. destruct (mapHas roomId gameRooms); [done|].
    by apply mapGet_mapSet_ne. }
  destruct Hsome as [room Hroom]. rewrite Hroom.
  destruct (addPlayer room sid playerName) as [[room' evs] ok] eqn:Hadd. simpl.
  split.
  - exists room'. rewrite mapGet_mapSet_eq. split; [done|].
    unfold addPlayer in Hadd. case_bool_decide.
    + injection Hadd as <- _ _. right. simpl. set_solver.
    + left. case_bool_decide; injection Hadd as <- _ _; simpl;
        rewrite mapGet_mapSet_eq; by eexists.
  - intros id Hne. rewrite mapGet_mapSet_ne by done. by apply Hother.
Qed.

Lemma joinRoom_enters_witness :
  let rooms' := (joinRoom [("room1", twoRoom)] "a" "room2" "Ann").1 in
  (∃ room', mapGet "room2" rooms' = Some room'
            ∧ (is_Some (mapGet "a" (players room')) ∨ "a" ∈ spectators room'))
  ∧ ∀ id, id ≠ "room2" → mapGet id rooms' = mapGet id [("room1", twoRoom)].
Proof.
  apply (joinRoom_enters [("room1", twoRoom)] "a" "room2" "Ann"); done.
Defined.

End Joins.

(** ** Placement in the 6x7 server *)

Section Placement.
Import Basic.

(** The active seat places a piece of a catalog type on every empty cell
    of a row of its zone, whatever the column: the column is not compared
    with the width of the board, so a piece can be put on column 6 and
    beyond or on a negative column.  The piece starts with the full
    health of its type, the roster entry goes down by one and the counter
    of the turn up by one. *)
Theorem placePiece_ignores_columns (r : GameRoom) (who : Player)
    (pieceType : string) (row col h : Z) (a : option Z) :
  isPlayerTurn r (socket_id who) = true →
  gamePhase (gameState r) = "placement" →
  piecesPlacedThisTurn (gameState r) < 4 →
  0 ≤ row < 7 →
  inZone (playerNumber who) row →
  board (gameState r) !! (row, col) = None →
  pieceTypes pieceType = Some (h, a) →
  rosterOf (gameState r) (playerNumber who) !! pieceType ≠ Some (Int 0) →
  handlePlacePiece r who pieceType row col
  = Ret (set_gameState
           (placed (gameState r) (playerNumber who) pieceType row col h a) r,
         [GameStateUpdate]).
Proof.
  intros Hturn Hphase Hquota Hrow Hzone Hempty Hty Hroster.
  unfold handlePlacePiece, placed, rosterOf, inZone in *.
  rewrite Hturn, Hphase. simpl.
  rewrite bool_decide_eq_false_2 by lia.
  rewrite readCell_ok by done. simpl. rewrite Hempty.
  rewrite bool_decide_eq_false_2 by (by intros [? ?]).
  destruct (Basic_typeStats_own _ _ _ Hty) as [Hstats Hown].
  destruct (bool_decide (playerNumber who = 1)); simpl.
  - rewrite bool_decide_eq_true_2 by done. simpl.
    rewrite bool_decide_eq_false_2 by done.
    rewrite Hstats. simpl. rewrite writeCell_ok by done. simpl.
    by rewrite assign_own.
  - rewrite bool_decide_eq_true_2 by done. simpl.
    rewrite bool_decide_eq_false_2 by done.
    rewrite Hstats. simpl. rewrite writeCell_ok by done. simpl.
    by rewrite assign_own.
Qed.

Lemma placePiece_ignores_columns_witness :
  handlePlacePiece placementRoom (mkPlayer "a" 1 "Ann") "Archer" 2 9
  = Ret (set_gameState (placed (gameState placementRoom) 1 "Archer" 2 9 2 (Some 3))
           placementRoom,
         [GameStateUpdate]).
Proof.
  apply (placePiece_ignores_columns placementRoom (mkPlayer "a" 1 "Ann")
           "Archer" 2 9 2 (Some 3));
    first [reflexivity | done].
Defined.

(** An intent of the active seat that names a row which the board does
    not have is not answered with an error message: reading the cell
    raises a [TypeError].  This holds for [placePiece] in the placement
    phase while the quota of the turn is not used up, before the zone of
    the seat is looked at, and for [selectCell] in the battle phase. *)
Theorem row_off_board_raises (r : GameRoom) (who : Player) (row col : Z) :
  isPlayerTurn r (socket_id who) = true →
  ¬ (0 ≤ row < 7) →
  (gamePhase (gameState r) = "placement" →
   piecesPlacedThisTurn (gameState r) < 4 →
   ∀ pieceType, handlePlacePiece r who pieceType row col = Throw)
  ∧ (gamePhase (gameState r) = "battle" → handleSelectCell r who row col = Throw).
Proof.
  intros Hturn Hrow.
  assert (Hread : ∀ b, readCell height b row col = Throw).
  { intros b. unfold readCell, rowExists, height.
    by rewrite bool_decide_eq_false_2. }
  split.
  - intros Hphase Hquota pieceType. unfold handlePlacePiece.
    rewrite Hturn, Hphase. simpl. rewrite bool_decide_eq_false_2 by lia.
    by rewrite Hread.
  - intros Hphase. unfold handleSelectCell. rewrite Hturn, Hphase. simpl.
    destruct (selectedCell (gameState r)) as [[selRow selCol]|].
    + rewrite Hread. by destruct (readCell height _ selRow selCol).
    + by rewrite Hread.
Qed.

Lemma row_off_board_raises_witness :
  (∀ pieceType, handlePlacePiece placementRoom (mkPlayer "a" 1 "Ann") pieceType 7 0 = Throw)
  ∧ handleSelectCell battleRoom (mkPlayer "b" 2 "Bob") (-1) 0 = Throw.
Proof.
  split.
  - apply (row_off_board_raises placementRoom (mkPlayer "a" 1 "Ann") 7 0);
      first [reflexivity | done | lia].
  - apply (row_off_board_raises battleRoom (mkPlayer "b" 2 "Bob") (-1) 0);
      first [reflexivity | lia].
Defined.

End Placement.

(** ** The order of turns in the 6x7 server *)

Section Turns.
Import Basic.

(** An end of turn from the active seat is accepted in every phase but a
    placement turn with a number of placed pieces other than 4.  In the
    placement phase seat 1 hands over to seat 2 within the round, seat 2
    hands back to seat 1 and closes the round, and the battle phase
    starts when the round closed was the second.  In every other phase,
    the waiting phase before the second player has joined included, the
    turn passes to the other seat and nothing else of the schedule
    changes.  Rosters, options and the outcome of the game are never
    touched. *)
Theorem endTurn_schedule (r : GameRoom) (who : Player) :
  isPlayerTurn r (socket_id who) = true →
  (gamePhase (gameState r) = "placement" → piecesPlacedThisTurn (gameState r) = 4) →
  ∃ r' evs,
    handleEndTurn r who = Ret (r', evs)
    ∧ let gs := gameState r in
      let gs' := gameState r' in
      currentPlayer gs' = nextSeat (currentPlayer gs)
      ∧ sameMatch gs gs'
      ∧ (gamePhase gs = "placement" →
         piecesPlacedThisTurn gs' = 0
         ∧ if bool_decide (currentPlayer gs = 1)
           then placementTurn gs' = placementTurn gs ∧ gamePhase gs' = "placement"
           else placementTurn gs' = placementTurn gs + 1
                ∧ gamePhase gs'
                  = if bool_decide (2 < placementTurn gs + 1)
                    then "battle" else "placement")
      ∧ (gamePhase gs ≠ "placement" →
         gamePhase gs' = gamePhase gs
         ∧ placementTurn gs' = placementTurn gs
         ∧ piecesPlacedThisTurn gs' = piecesPlacedThisTurn gs).
Proof.
  intros Hturn Hquota. unfold handleEndTurn. rewrite Hturn. simpl.
  destruct (String.eqb_spec (gamePhase (gameState r)) "placement") as [Hp|Hp]; simpl.
  - rewrite Hquota by done. simpl. unfold nextSeat.
    destruct (bool_decide (currentPlayer (gameState r) = 1)) eqn:Hcur; simpl.
    + do 2 eexists. split; [done|]. simpl.
      split; [done|]. split; [done|]. split; [done|]. done.
    + destruct (bool_decide (2 < placementTurn (gameState r) + 1)) eqn:Hlast.
      * do 2 eexists. split; [done|]. simpl.
        split; [done|]. split; [done|]. split; [done|]. done.
      * do 2 eexists. split; [done|]. simpl.
        split; [done|]. split; [done|]. split; [done|]. done.
  - do 2 eexists. split; [done|]. simpl.
    split; [done|]. split; [done|]. split; [done|]. done.
Qed.

Lemma endTurn_schedule_witness :
  ∃ r' evs,
    handleEndTurn lastPlacementRoom (mkPlayer "b" 2 "Bob") = Ret (r', evs)
    ∧ currentPlayer (gameState r') = 1
    ∧ placementTurn (gameState r') = 3
    ∧ gamePhase (gameState r') = "battle".
Proof.
  destruct (endTurn_schedule lastPlacementRoom (mkPlayer "b" 2 "Bob"))
    as (r' & evs & Hend & Hcur & _ & Hplace & _); [reflexivity|reflexivity|].
  exists r', evs. split; [exact Hend|]. split; [exact Hcur|].
  destruct Hplace as (_ & Hturn & Hphase); [reflexivity|].
  split; [exact Hturn|exact Hphase].
Defined.

(** A socket that waits alone in a new room can end its turn: when the
    second socket joins, the placement phase starts with seat 2 to move,
    and the seat that opened the room cannot place a piece. *)
Theorem endTurn_while_waiting (id : string) (sid sid' : SocketId)
    (name1 name2 pieceType : string) (row col : Z) :
  sid' ≠ sid →
  let r1 := (addPlayer (newGameRoom id) sid name1).1.1 in
  ∃ r2 evs,
    gameAction r1 sid EndTurn = Ret (r2, evs)
    ∧ let r3 := (addPlayer r2 sid' name2).1.1 in
      gamePhase (gameState r3) = "placement"
      ∧ currentPlayer (gameState r3) = 2
      ∧ isPlayerTurn r3 sid = false
      ∧ isPlayerTurn r3 sid' = true
      ∧ gameAction r3 sid (PlacePiece pieceType row col) = Ret (r3, []).
Proof.
  intros Hne. simpl. unfold gameAction, getPlayerBySocketId. simpl.
  rewrite decide_True by done. unfold handleEndTurn, isPlayerTurn, getPlayerBySocketId.
  simpl. rewrite decide_True by done. simpl. do 2 eexists. split; [done|].
  unfold addPlayer. simpl. rewrite decide_False by done. simpl.
  rewrite decide_True by done. rewrite decide_False by done. simpl.
  rewrite !decide_True by done. simpl.
  split; [done|]. split; [done|]. split; [done|]. split; [done|].
  unfold handlePlacePiece, isPlayerTurn, getPlayerBySocketId. simpl.
  by rewrite decide_True by done.
Qed.

Lemma endTurn_while_waiting_witness :
  let r1 := (addPlayer (newGameRoom "room1") "a" "Ann").1.1 in
  ∃ r2 evs,
    gameAction r1 "a" EndTurn = Ret (r2, evs)
    ∧ let r3 := (addPlayer r2 "b" "Bob").1.1 in
      gamePhase (gameState r3) = "placement"
      ∧ currentPlayer (gameState r3) = 2
      ∧ isPlayerTurn r3 "a" = false
      ∧ isPlayerTurn r3 "b" = true
      ∧ gameAction r3 "a" (PlacePiece "General" 0 0) = Ret (r3, []).
Proof.
  apply (endTurn_while_waiting "room1" "a" "b" "Ann" "Bob" "General" 0 0). done.
Defined.

End Turns.

(** ** Rules of the 6x7 server *)

Section BasicRules.
Import Basic.

(** Line of sight does not depend on the direction: whatever
    [hasLineOfSight] answers from one cell to another, a raised error
    included, it answers from the second to the first. *)
Theorem hasLineOfSight_symmetric (fromRow fromCol toRow toCol : Z) (b : Board) :
  hasLineOfSight fromRow fromCol toRow toCol b
  = hasLineOfSight toRow toCol fromRow fromCol b.
Proof.
  unfold hasLineOfSight.
  destruct (decide (fromRow = toRow)) as [->|Hrow].
  - rewrite !bool_decide_eq_true_2 by done. by rewrite Z.min_comm, Z.max_comm.
  - rewrite !(bool_decide_eq_false_2 (_ = _ :> Z)) by done.
    rewrite (bool_decide_eq_false_2 (toRow = fromRow)) by done.
    destruct (decide (fromCol = toCol)) as [->|Hcol].
    + rewrite !bool_decide_eq_true_2 by done. by rewrite Z.min_comm, Z.max_comm.
    + rewrite bool_decide_eq_false_2 by done.
      by rewrite (bool_decide_eq_false_2 (toCol = fromCol)) by done.
Qed.

Lemma canAttack_ranged (gs : GameState) (archer target : Piece)
    (fromRow fromCol toRow toCol a : Z) :
  0 ≤ toRow < 7 →
  board gs !! (toRow, toCol) = Some target →
  type archer = "Archer" →
  ammo archer = Some (Int a) →
  canAttack archer fromRow fromCol toRow toCol gs = Ret true →
  distance fromRow fromCol toRow toCol ≠ 1 →
  0 < a.
Proof.
  intros Hrow Htarget Hty Hammo. unfold canAttack.
  rewrite readCell_ok by done. simpl. rewrite Htarget, Hty. simpl.
  case_bool_decide; [done|]. unfold hasAmmo. rewrite Hammo.
  intros Hcan Hd. rewrite bool_decide_eq_false_2 in Hcan by done.
  case_bool_decide; [done|]. done.
Qed.

(** An attack that [handleSelectCell] accepts from an archer costs one
    arrow when the target is more than one step away and none when it is
    adjacent; the count of arrows never drops below zero, and the archer
    stays on its cell. *)
Theorem archer_attack_spends_ammo (r : GameRoom) (who : Player)
    (archer target : Piece) (selRow selCol row col a : Z) :
  let gs := gameState r in
  let d := distance selRow selCol row col in
  gamePhase gs = "battle" →
  isPlayerTurn r (socket_id who) = true →
  gameEnded gs = false →
  hasMoved gs = true →
  hasAttacked gs = false →
  selectedCell gs = Some (selRow, selCol) →
  0 ≤ selRow < 7 →
  0 ≤ row < 7 →
  board gs !! (selRow, selCol) = Some archer →
  type archer = "Archer" →
  ammo archer = Some (Int a) →
  board gs !! (row, col) = Some target →
  player target ≠ player archer →
  canAttack archer selRow selCol row col gs = Ret true →
  ∃ r' evs a',
    handleSelectCell r who row col = Ret (r', evs)
    ∧ hasAttacked (gameState r') = true
    ∧ board (gameState r') !! (selRow, selCol) = Some (set_ammo (Some (Int a')) archer)
    ∧ a' = (if bool_decide (1 < d) then a - 1 else a)
    ∧ (0 ≤ a → 0 ≤ a').
Proof.
  intros gs d Hphase Hturn Hlive Hmoved Hatt Hsel Hsr Hr Harcher Hty Hammo Htarget
    Hfoe Hcan.
  assert (Hne : (selRow, selCol) ≠ (row, col)).
  { intros [= -> ->]. rewrite Harcher in Htarget. by injection Htarget as ->. }
  rewrite (handleSelectCell_attack r who archer target selRow selCol row col) by done.
  unfold attackPiece. fold gs. rewrite Hlive, !readCell_ok by done. simpl.
  rewrite Harcher, Htarget, Hty. simpl. fold d.
  set (b1 := if bool_decide (1 < d) then _ else _).
  assert (Hb1 : b1 !! (selRow, selCol)
                = Some (set_ammo (Some (Int (if bool_decide (1 < d) then a - 1 else a)))
                          archer)).
  { unfold b1. case_bool_decide.
    - rewrite lookup_alter_eq, Harcher. simpl. by rewrite Hammo.
    - rewrite Harcher. f_equal. destruct archer. simpl in *. by subst. }
  assert (Hlow : 0 ≤ a → 0 ≤ (if bool_decide (1 < d) then a - 1 else a)).
  { intros Ha. case_bool_decide as Hd; [|done].
    pose proof (canAttack_ranged gs archer target selRow selCol row col a
                  Hr Htarget Hty Hammo Hcan) as Hpos. lia. }
  destruct (atMost _ 0);
    [destruct (String.eqb (type target) "General")|];
    simpl; do 3 eexists; (split; [done|]); simpl; (split; [done|]);
    (split; [|split; [reflexivity|exact Hlow]]).
  - by rewrite lookup_delete_ne.
  - by rewrite lookup_delete_ne.
  - by rewrite lookup_insert_ne.
Qed.

Lemma archer_attack_spends_ammo_witness :
  ∃ r' evs a',
    handleSelectCell quiverRoom (mkPlayer "a" 1 "Ann") 0 3 = Ret (r', evs)
    ∧ hasAttacked (gameState r') = true
    ∧ board (gameState r') !! (0, 0)
      = Some (set_ammo (Some (Int a'))
                (mkPiece "Archer" 1 (Some (Int 2)) (Some (Int 2)) false (Some (Int 2))
                   None None None))
    ∧ a' = 1
    ∧ (0 ≤ 2 → 0 ≤ a').
Proof.
  apply (archer_attack_spends_ammo quiverRoom (mkPlayer "a" 1 "Ann")
           (mkPiece "Archer" 1 (Some (Int 2)) (Some (Int 2)) false
              (Some (Int 2)) None None None)
           (mkPiece "General" 2 (Some (Int 3)) (Some (Int 3)) false
              None None None None) 0 0 0 3 2);
    first [reflexivity | done | lia].
Defined.

(** A piece is replenished at most once and only on the far row of its
    seat: [checkForHealing] changes a piece only when it has not been
    replenished and stands on row 6 (seat 1) or row 0 (seat 2); it then
    restores the full health (and the three arrows of an archer), and no
    later call changes the piece again, on whatever row. *)
Theorem healing_happens_once (r r' : GameRoom) (piece : Piece) (row row' : Z) :
  let piece1 := (checkForHealing r piece row).1 in
  (piece1 ≠ piece →
   hasBeenReplenished piece = false
   ∧ ((player piece = 1 ∧ row = 6) ∨ (player piece = 2 ∧ row = 0)))
  ∧ (shouldHeal piece row = true →
     health piece1 = maxHealth piece
     ∧ (type piece = "Archer" → ammo piece1 = Some (Int 3))
     ∧ checkForHealing r' piece1 row' = (piece1, []))
  ∧ (hasBeenReplenished piece = true → checkForHealing r piece row = (piece, [])).
Proof.
  simpl. unfold checkForHealing, healed. split; [|split].
  - destruct (shouldHeal piece row) eqn:Hheal; [|done]. intros _.
    unfold shouldHeal in Hheal. apply andb_true_iff in Hheal as [Hrow Hfresh].
    apply negb_true_iff in Hfresh. split; [done|].
    apply orb_true_iff in Hrow as [H|H]; apply andb_true_iff in H as [H1 H2];
      apply bool_decide_eq_true in H1, H2; auto.
  - intros Hheal. rewrite Hheal. simpl.
    assert (Hdone : ∀ p, hasBeenReplenished p = true → shouldHeal p row' = false).
    { intros p Hp. unfold shouldHeal. rewrite Hp. apply andb_false_r. }
    destruct (String.eqb_spec (type piece) "Archer") as [Hty|Hty]; simpl.
    + split; [done|]. split; [done|]. by rewrite Hdone.
    + split; [done|]. split; [done|]. by rewrite Hdone.
  - intros Hflag. unfold shouldHeal. rewrite Hflag, andb_false_r. done.
Qed.

End BasicRules.

(** ** Boards of any size *)

Section SizedRooms.
Import Sized.

Lemma readCell_rows (h : Z) (b : Board) (r c : Z) :
  0 ≤ r < h → readCell h b r c = Ret (b !! (r, c)).
Proof. intros Hr. unfold readCell, rowExists. by rewrite bool_decide_eq_true_2. Qed.

Lemma readCell_outside (h : Z) (b : Board) (r c : Z) :
  ¬ (0 ≤ r < h) → readCell h b r c = Throw.
Proof. intros Hr. unfold readCell, rowExists. by rewrite bool_decide_eq_false_2. Qed.

Lemma writeCell_rows (h : Z) (b : Board) (r c : Z) (v : option Piece) :
  0 ≤ r < h →
  writeCell h b r c v
  = Ret (match v with Some p => <[(r, c) := p]> b | None => delete (r, c) b end).
Proof. intros Hr. unfold writeCell, rowExists. by rewrite bool_decide_eq_true_2. Qed.

Lemma mapSet_mapSet {V : Type} (k : string) (v v' : V) (m : list (string * V)) :
  mapSet k v (mapSet k v' m) = mapSet k v m.
Proof.
  induction m as [|[k0 v0] m IH]; simpl.
  - by rewrite decide_True.
  - destruct (decide (k0 = k)) as [->|Hne]; simpl.
    + by rewrite decide_True.
    + rewrite decide_False by done. by rewrite IH.
Qed.

Lemma initializeGameState_buildable (size : BoardSize) :
  buildable size → initializeGameState size = Ret (openedState size).
Proof.
  intros [Hh Hw]. unfold initializeGameState, arrayLength.
  rewrite (bool_decide_eq_true_2 (0 ≤ height size < _)) by done. simpl.
  case_bool_decide as Hpos; simpl; [|done].
  by rewrite bool_decide_eq_true_2 by auto.
Qed.

Lemma initializeGameState_not_buildable (size : BoardSize) :
  ¬ buildable size → initializeGameState size = Throw.
Proof.
  intros Hno. unfold initializeGameState, arrayLength.
  case_bool_decide as Hh; simpl; [|done].
  case_bool_decide as Hpos; simpl.
  - case_bool_decide as Hw; simpl; [|done]. destruct Hno. by split.
  - destruct Hno. split; [done|]. intros ?. done.
Qed.

(** The first socket that asks for a room opens it with the board size of
    its request, 6 columns by 7 rows when the request names none, and
    takes seat 1 in the waiting phase.  A size whose height is not an
    array length (negative, or 2^32 and more), or whose width is not one
    on a board with rows, makes the request raise a [RangeError]; a width
    of any kind is accepted for a board without rows. *)
Theorem joinRoom_opens_room (gameRooms : list (string * GameRoom))
    (sid : SocketId) (roomId playerName : string) (boardSize : option BoardSize) :
  roomId ≠ "" → playerName ≠ "" →
  mapGet roomId gameRooms = None →
  let size := default defaultBoardSize boardSize in
  (buildable size →
   joinRoom gameRooms sid roomId playerName boardSize
   = Ret (gameRooms ++ [(roomId, openedRoom roomId size sid playerName)],
          [PlayerAssigned sid 1 playerName; GameStateUpdate; PlayerListUpdate]))
  ∧ (¬ buildable size →
     joinRoom gameRooms sid roomId playerName boardSize = Throw).
Proof.
  intros Hid Hname Hnew size. unfold joinRoom.
  rewrite !bool_decide_eq_false_2 by done. simpl.
  unfold mapHas. rewrite Hnew.
  rewrite bool_decide_eq_false_2 by (by intros [? ?]).
  fold size. unfold newGameRoom. split.
  - intros Hsize. rewrite initializeGameState_buildable by done. simpl.
    rewrite mapGet_mapSet_eq. unfold addPlayer. simpl.
    by rewrite mapSet_mapSet, mapSet_fresh.
  - intros Hsize. by rewrite initializeGameState_not_buildable.
Qed.

Lemma joinRoom_opens_room_witness :
  joinRoom [] "a" "room1" "Ann" (Some (mkBoardSize 4 5))
  = Ret ([("room1", smallRoom)],
         [PlayerAssigned "a" 1 "Ann"; GameStateUpdate; PlayerListUpdate])
  ∧ joinRoom [] "a" "room1" "Ann" (Some (mkBoardSize 6 (-1))) = Throw.
Proof.
  split.
  - apply (joinRoom_opens_room [] "a" "room1" "Ann" (Some (mkBoardSize 4 5)));
      [done|done|reflexivity|].
    split; [by vm_compute|intros _; by vm_compute].
  - apply (joinRoom_opens_room [] "a" "room1" "Ann" (Some (mkBoardSize 6 (-1))));
      [done|done|reflexivity|].
    intros [[Hh _] _]. simpl in Hh. lia.
Defined.




End SizedRooms.

(** ** Placement zones on a board of any size *)

Section SizedPlacement.
Import Sized.

Lemma ceilDiv_three (h : Z) : h ≤ 3 * ceilDiv h 3 < h + 3.
Proof.
  unfold ceilDiv. pose proof (Z.div_mod (- h) 3). pose proof (Z.mod_pos_bound (- h) 3).
  lia.
Qed.

(** On a board with two rows or more the two placement zones are
    disjoint bands of the same number of rows, a third of the height
    rounded up: seat 1 has the rows from row 0 on, every other seat
    number the rows up to the last one, and seat 1's band ends before the
    other begins. *)
Theorem placement_zones_apart (r : GameRoom) (seat : Z) :
  2 ≤ height (roomBoardSize r) →
  seat ≠ 1 →
  let h := height (roomBoardSize r) in
  let top := getPlacementRows r 1 in
  let bottom := getPlacementRows r seat in
  top.1 = 0
  ∧ bottom.2 = h - 1
  ∧ top.1 ≤ top.2 < bottom.1
  ∧ bottom.1 ≤ bottom.2
  ∧ top.2 - top.1 = bottom.2 - bottom.1
  ∧ h ≤ 3 * (top.2 - top.1 + 1) < h + 3.
Proof.
  intros Hh Hseat. unfold getPlacementRows.
  rewrite bool_decide_eq_true_2 by done. rewrite bool_decide_eq_false_2 by done.
  simpl. pose proof (ceilDiv_three (height (roomBoardSize r))). lia.
Qed.

Lemma placement_zones_apart_witness :
  let top := getPlacementRows smallRoom 1 in
  let bottom := getPlacementRows smallRoom 2 in
  top.1 = 0
  ∧ bottom.2 = 5 - 1
  ∧ top.1 ≤ top.2 < bottom.1
  ∧ bottom.1 ≤ bottom.2
  ∧ top.2 - top.1 = bottom.2 - bottom.1
  ∧ 5 ≤ 3 * (top.2 - top.1 + 1) < 5 + 3.
Proof.
  apply (placement_zones_apart smallRoom 2); [by vm_compute|done].
Defined.

(** [handlePlacePiece] changes a room only by a placement that obeys
    every rule: it is the turn of the seat in the placement phase, fewer
    than four pieces are placed in the turn, the row is a row of the
    board inside the zone of the seat, and the cell is empty.  The piece
    then stands on the cell with the type and the seat of the intent and
    with the health of its type; a type name that is no entry of the
    catalog is one that the catalog inherits, and its piece has no
    health.  The counter of the turn goes up by one. *)
Theorem placePiece_obeys_zone (r : GameRoom) (who : Player) (pieceType : string)
    (row col : Z) (r' : GameRoom) (evs : list Event) :
  handlePlacePiece r who pieceType row col = Ret (r', evs) →
  r' ≠ r →
  let gs := gameState r in
  let zone := getPlacementRows r (playerNumber who) in
  isPlayerTurn r (socket_id who) = true
  ∧ gamePhase gs = "placement"
  ∧ piecesPlacedThisTurn gs < 4
  ∧ 0 ≤ row < rows gs
  ∧ zone.1 ≤ row ≤ zone.2
  ∧ board gs !! (row, col) = None
  ∧ board (gameState r')
    = <[(row, col) := match Basic.pieceTypes pieceType with
                      | Some (h, a) => pieceData pieceType (playerNumber who) h a
                      | None => pieceObject pieceType (playerNumber who) None None
                      end]> (board gs)
  ∧ (Basic.pieceTypes pieceType = None → inherited pieceType = true)
  ∧ piecesPlacedThisTurn (gameState r') = piecesPlacedThisTurn gs + 1
  ∧ evs = [GameStateUpdate].
Proof.
  unfold handlePlacePiece. intros Hplace Hchanged. simpl.
  destruct (isPlayerTurn r (socket_id who)); simpl in Hplace; [|by simplify_eq].
  destruct (String.eqb_spec (gamePhase (gameState r)) "placement") as [Hphase|Hphase];
    simpl in Hplace; [|by simplify_eq].
  case_bool_decide as Hquota; [by simplify_eq|].
  destruct (readCell _ _ row col) as [cell|] eqn:Hread; [|done].
  apply readCell_Ret in Hread as [-> Hrow]. simpl in Hplace.
  case_bool_decide as Hcell; [by simplify_eq|].
  case_bool_decide as Hlo; simpl in Hplace; [by simplify_eq|].
  case_bool_decide as Hhi; simpl in Hplace; [by simplify_eq|].
  case_bool_decide as Hroster; [by simplify_eq|].
  destruct (Basic.typeStats pieceType) as [[h a]|] eqn:Hty; simpl in Hplace; [|done].
  rewrite writeCell_rows in Hplace by done. simpl in Hplace.
  injection Hplace as <- <-.
  split; [done|]. split; [done|]. split; [lia|]. split; [done|]. split; [lia|].
  split. { destruct (board _ !! _) eqn:H; [|done]. destruct Hcell. by eexists. }
  unfold Basic.typeStats in Hty.
  destruct (Basic.pieceTypes pieceType) as [[h0 a0]|].
  - injection Hty as <- <-.
    split; [by destruct (bool_decide (playerNumber who = 1))|]. split; [done|].
    by destruct (bool_decide (playerNumber who = 1)).
  - destruct (inherited pieceType); [|done]. injection Hty as <- <-.
    split; [by destruct (bool_decide (playerNumber who = 1))|]. split; [done|].
    by destruct (bool_decide (playerNumber who = 1)).
Qed.

Lemma placePiece_obeys_zone_witness :
  let gs := gameState fieldRoom in
  let zone := getPlacementRows fieldRoom 1 in
  isPlayerTurn fieldRoom "a" = true
  ∧ gamePhase gs = "placement"
  ∧ piecesPlacedThisTurn gs < 4
  ∧ 0 ≤ 1 < rows gs
  ∧ zone.1 ≤ 1 ≤ zone.2
  ∧ board gs !! (1, 0) = None
  ∧ board (gameState fieldPlaced.1)
    = <[(1, 0) := pieceData "Archer" 1 2 (Some 3)]> (board gs)
  ∧ (Basic.pieceTypes "Archer" = None → inherited "Archer" = true)
  ∧ piecesPlacedThisTurn (gameState fieldPlaced.1) = piecesPlacedThisTurn gs + 1
  ∧ fieldPlaced.2 = [GameStateUpdate].
Proof.
  apply (placePiece_obeys_zone fieldRoom (mkPlayer "a" 1 "Ann") "Archer" 1 0
           fieldPlaced.1 fieldPlaced.2).
  - by vm_compute.
  - intros Hsame.
    apply (f_equal (fun r => piecesPlacedThisTurn (gameState r))) in Hsame.
    by vm_compute in Hsame.
Defined.

End SizedPlacement.

(** ** Battle on a board of any size *)

Section SizedBattle.
Import Sized.






Lemma Sized_isPlayerTurn_update (f : GameState → GameState) (r : GameRoom)
    (sid : SocketId) :
  currentPlayer (f (gameState r)) = currentPlayer (gameState r) →
  isPlayerTurn (update f r) sid = isPlayerTurn r sid.
Proof.
  intros Hf. unfold isPlayerTurn, getPlayerBySocketId, update. simpl.
  by rewrite Hf.
Qed.

(** In the battle phase of this server an attack needs no move before
    it: the active seat attacks with the selected piece whether it has
    moved or not, once per turn.  A move is accepted only before any
    move and any attack of the turn: after either, a legal move click is
    refused with an error and only the selection is cleared. *)
Theorem attack_first_then_no_move (r : GameRoom) (who : Player) (piece : Piece)
    (selRow selCol row col : Z) :
  let gs := gameState r in
  gamePhase gs = "battle" →
  isPlayerTurn r (socket_id who) = true →
  selectedCell gs = Some (selRow, selCol) →
  0 ≤ selRow < rows gs →
  0 ≤ row < rows gs →
  (selRow, selCol) ≠ (row, col) →
  board gs !! (selRow, selCol) = Some piece →
  (∀ target,
     board gs !! (row, col) = Some target →
     player target ≠ player piece →
     canAttack piece selRow selCol row col gs (roomBoardSize r) = Ret true →
     hasAttacked gs = false →
     handleSelectCell r who row col
     = attackPiece r selRow selCol row col
       ≫= λ '(r1, evs),
            Ret (update (set_selectedCell None) (update (set_hasAttacked true) r1),
                 (evs ++ [GameMessage "Attack completed! Turn is over." "success"])
                 ++ [GameStateUpdate]))
  ∧ (board gs !! (row, col) = None →
     canMove piece selRow selCol row col (roomBoardSize r) = true →
     hasAttacked gs = true ∨ hasMoved gs = true →
     handleSelectCell r who row col
     = Ret (update (set_selectedCell None) r,
            [GameMessage (if hasMoved gs then "You can only move once per turn!"
                          else "You cannot move after attacking!") "error";
             GameStateUpdate])).
Proof.
  intros gs Hphase Hturn Hsel Hsr Hr Hne Hpiece.
  assert (Hdiff : bool_decide (selRow = row) && bool_decide (selCol = col) = false).
  { apply andb_false_iff. destruct (decide (selRow = row)) as [->|?].
    - right. apply bool_decide_eq_false. intros ->. done.
    - left. by apply bool_decide_eq_false. }
  split.
  - intros target Htarget Hfoe Hcan Hatt. unfold handleSelectCell. fold gs.
    rewrite Hphase, Hturn, Hsel. simpl. rewrite !readCell_rows by done. simpl.
    rewrite Hdiff, Hpiece, Htarget. rewrite bool_decide_eq_true_2 by done.
    rewrite Hcan. simpl. rewrite Hatt. simpl.
    by destruct (attackPiece r selRow selCol row col) as [[r1 evs]|].
  - intros Hempty Hcan Hdone. unfold handleSelectCell. fold gs.
    rewrite Hphase, Hturn, Hsel. simpl. rewrite !readCell_rows by done. simpl.
    rewrite Hdiff, Hpiece, Hempty, Hcan.
    destruct (hasMoved gs), (hasAttacked gs); simpl; try done.
    by destruct Hdone.
Qed.

Lemma attack_first_then_no_move_witness :
  (∀ target,
     board (gameState skirmishRoom) !! (3, 2) = Some target →
     player target ≠ 1 →
     canAttack (mkPiece "Cavalry" 1 (Some (Int 2)) (Some (Int 2)) false
                  None (Some (1, 0)) None None) 3 1 3 2
       (gameState skirmishRoom) (roomBoardSize skirmishRoom) = Ret true →
     hasAttacked (gameState skirmishRoom) = false →
     handleSelectCell skirmishRoom (mkPlayer "a" 1 "Ann") 3 2
     = attackPiece skirmishRoom 3 1 3 2
       ≫= λ '(r1, evs),
            Ret (update (set_selectedCell None) (update (set_hasAttacked true) r1),
                 (evs ++ [GameMessage "Attack completed! Turn is over." "success"])
                 ++ [GameStateUpdate]))
  ∧ (board (gameState skirmishRoom) !! (3, 2) = None →
     canMove (mkPiece "Cavalry" 1 (Some (Int 2)) (Some (Int 2)) false
                None (Some (1, 0)) None None) 3 1 3 2
       (roomBoardSize skirmishRoom) = true →
     hasAttacked (gameState skirmishRoom) = true
     ∨ hasMoved (gameState skirmishRoom) = true →
     handleSelectCell skirmishRoom (mkPlayer "a" 1 "Ann") 3 2
     = Ret (update (set_selectedCell None) skirmishRoom,
            [GameMessage (if hasMoved (gameState skirmishRoom)
                          then "You can only move once per turn!"
                          else "You cannot move after attacking!") "error";
             GameStateUpdate])).
Proof.
  apply (attack_first_then_no_move skirmishRoom (mkPlayer "a" 1 "Ann")
           (mkPiece "Cavalry" 1 (Some (Int 2)) (Some (Int 2)) false
              None (Some (1, 0)) None None) 3 1 3 2);
    first [reflexivity | done | by vm_compute].
Defined.

Lemma Sized_movePiece_ok (r : GameRoom) (piece : Piece) (fromRow fromCol toRow toCol : Z) :
  0 ≤ fromRow < rows (gameState r) →
  0 ≤ toRow < rows (gameState r) →
  board (gameState r) !! (fromRow, fromCol) = Some piece →
  (fromRow, fromCol) ≠ (toRow, toCol) →
  movePiece r fromRow fromCol toRow toCol
  = Ret (update (set_board (sizedMoved r piece fromRow fromCol toRow toCol)) r,
         (checkForHealing r (Basic.charged piece fromRow fromCol toRow toCol) toRow).2).
Proof.
  intros Hfrom Hto Hpiece Hne. unfold movePiece.
  rewrite readCell_rows, Hpiece by done. simpl.
  rewrite writeCell_rows by done. simpl. rewrite writeCell_rows by done. simpl.
  unfold update, sizedMoved. by rewrite alter_moved.
Qed.

Lemma charged_rest (piece : Piece) (fromRow fromCol toRow toCol : Z) :
  maxHealth (Basic.charged piece fromRow fromCol toRow toCol) = maxHealth piece
  ∧ hasBeenReplenished (Basic.charged piece fromRow fromCol toRow toCol)
    = hasBeenReplenished piece.
Proof. unfold Basic.charged. by repeat case_match. Qed.

Lemma healed_far (r : GameRoom) (piece : Piece) (row : Z) :
  hasBeenReplenished piece = false →
  farRow r (player piece) row →
  shouldHeal r piece row = true
  ∧ health (healed r piece row) = maxHealth piece
  ∧ hasBeenReplenished (healed r piece row) = true
  ∧ type (healed r piece row) = type piece
  ∧ player (healed r piece row) = player piece
  ∧ (type piece = "Archer" → ammo (healed r piece row) = Some (Int 3)).
Proof.
  intros Hfresh Hfar.
  assert (Hheal : shouldHeal r piece row = true).
  { unfold shouldHeal, getHealingRows. simpl. rewrite Hfresh, andb_true_r.
    apply orb_true_iff.
    destruct Hfar as [[-> ->]|[-> ->]]; [left|right];
      by rewrite !bool_decide_eq_true_2. }
  split; [done|]. unfold healed. rewrite Hheal.
  destruct (String.eqb_spec (type piece) "Archer") as [Harcher|Harcher]; simpl;
    repeat (split; [done|]); done.
Qed.

(** A move to the far row of the seat replenishes a piece that has not
    been replenished before: the piece arrives with its full health (an
    archer with three arrows), keeps its type and seat, and the cell it
    came from is empty.  The far row is the last row of the board of the
    room for seat 1 and row 0 for seat 2. *)
Theorem move_to_far_row_heals (r : GameRoom) (piece : Piece)
    (fromRow fromCol toRow toCol : Z) :
  0 ≤ fromRow < rows (gameState r) →
  0 ≤ toRow < rows (gameState r) →
  board (gameState r) !! (fromRow, fromCol) = Some piece →
  (fromRow, fromCol) ≠ (toRow, toCol) →
  hasBeenReplenished piece = false →
  farRow r (player piece) toRow →
  ∃ r' evs piece',
    movePiece r fromRow fromCol toRow toCol = Ret (r', evs)
    ∧ board (gameState r') !! (toRow, toCol) = Some piece'
    ∧ board (gameState r') !! (fromRow, fromCol) = None
    ∧ health piece' = maxHealth piece
    ∧ hasBeenReplenished piece' = true
    ∧ type piece' = type piece
    ∧ player piece' = player piece
    ∧ (type piece = "Archer" → ammo piece' = Some (Int 3))
    ∧ evs = [GameMessage (getPlayerName r (player piece) +:+ "'s " +:+ type piece
                          +:+ " has been replenished!") "success"].
Proof.
  intros Hfrom Hto Hpiece Hne Hfresh Hfar.
  rewrite (Sized_movePiece_ok r piece) by done.
  destruct (charged_fields piece fromRow fromCol toRow toCol) as [Hty Hpl].
  destruct (charged_rest piece fromRow fromCol toRow toCol) as [Hmax Hflag].
  destruct (healed_far r (Basic.charged piece fromRow fromCol toRow toCol) toRow)
    as (Hheal & H1 & H2 & H3 & H4 & H5).
  { by rewrite Hflag. }
  { by rewrite Hpl. }
  do 3 eexists. split; [done|]. unfold update, sizedMoved. simpl.
  rewrite lookup_insert_eq. split; [done|].
  rewrite lookup_insert_ne, lookup_delete_eq by done. split; [done|].
  rewrite H1, H2, H3, H4, Hmax, Hty, Hpl. repeat (split; [done|]).
  split; [intros Harcher; apply H5; by rewrite Hty|]. by rewrite Hheal.
Qed.

Lemma move_to_far_row_heals_witness :
  ∃ r' evs piece',
    movePiece skirmishRoom 3 1 4 1 = Ret (r', evs)
    ∧ board (gameState r') !! (4, 1) = Some piece'
    ∧ board (gameState r') !! (3, 1) = None
    ∧ health piece' = Some (Int 2)
    ∧ hasBeenReplenished piece' = true
    ∧ type piece' = "Cavalry"
    ∧ player piece' = 1
    ∧ ("Cavalry" = "Archer" → ammo piece' = Some (Int 3))
    ∧ evs = [GameMessage (getPlayerName skirmishRoom 1 +:+ "'s " +:+ "Cavalry"
                          +:+ " has been replenished!") "success"].
Proof.
  apply (move_to_far_row_heals skirmishRoom
           (mkPiece "Cavalry" 1 (Some (Int 2)) (Some (Int 2)) false
              None (Some (1, 0)) None None) 3 1 4 1);
    first [reflexivity | done | by vm_compute | by left].
Defined.

(** An accepted end of turn clears the charge direction of every cavalry
    piece that stands on a cell of the board of the room, whatever the
    size of the board, and changes no other piece and no cell outside
    the board. *)
Theorem endTurn_clears_charges (r : GameRoom) (who : Player) :
  wellSized r →
  isPlayerTurn r (socket_id who) = true →
  (gamePhase (gameState r) = "placement" → piecesPlacedThisTurn (gameState r) = 4) →
  ∃ r' evs,
    handleEndTurn r who = Ret (r', evs)
    ∧ ∀ row col,
        board (gameState r') !! (row, col)
        = if decide (0 ≤ row < height (roomBoardSize r)
                     ∧ 0 ≤ col < width (roomBoardSize r))
          then clearCharge <$> board (gameState r) !! (row, col)
          else board (gameState r) !! (row, col).
Proof.
  intros Hsize Hturn Hquota. unfold handleEndTurn. rewrite Hturn. simpl.
  assert (Hgo : String.eqb (gamePhase (gameState r)) "placement"
                && negb (bool_decide (piecesPlacedThisTurn (gameState r) = 4)) = false).
  { destruct (String.eqb_spec (gamePhase (gameState r)) "placement") as [Hp|Hp];
      [|done]. simpl. by rewrite bool_decide_eq_true_2 by auto. }
  rewrite Hgo. unfold clearChargeDirections, rows. rewrite Hsize.
  rewrite (bool_decide_eq_false_2 (height _ < height _)) by lia.
  rewrite andb_false_r. simpl.
  set (b' := foldl Basic.clearChargeAt _ _).
  assert (Hb' : ∀ row col,
            b' !! (row, col)
            = if decide (0 ≤ row < height (roomBoardSize r)
                         ∧ 0 ≤ col < width (roomBoardSize r))
              then clearCharge <$> board (gameState r) !! (row, col)
              else board (gameState r) !! (row, col)).
  { intros row col. unfold b'. rewrite foldl_clearChargeAt_lookup.
    destruct (decide ((row, col) ∈ _)) as [Hin|Hout];
      destruct (decide (_ ∧ _)) as [Hbox|Hbox]; try done.
    - apply elem_of_boardCells in Hin. done.
    - apply elem_of_boardCells in Hbox. done. }
  destruct (String.eqb (gamePhase (gameState r)) "placement");
    [destruct (bool_decide (currentPlayer _ = 1));
       [|destruct (bool_decide (2 < _))]|];
    do 2 eexists; (split; [done|]); simpl; exact Hb'.
Qed.

Lemma endTurn_clears_charges_witness :
  ∃ r' evs,
    handleEndTurn skirmishRoom (mkPlayer "a" 1 "Ann") = Ret (r', evs)
    ∧ ∀ row col,
        board (gameState r') !! (row, col)
        = if decide (0 ≤ row < 5 ∧ 0 ≤ col < 4)
          then clearCharge <$> board (gameState skirmishRoom) !! (row, col)
          else board (gameState skirmishRoom) !! (row, col).
Proof.
  apply (endTurn_clears_charges skirmishRoom (mkPlayer "a" 1 "Ann"));
    first [reflexivity | done].
Defined.

End SizedBattle.

(** ** Nations of the Ancient Empires server *)

Section Nations.
Import Empires.

Lemma elem_of_mapSet {V : Type} (k : string) (v : V) (m : list (string * V))
    (x : string * V) :
  NoDup m.*1 → is_Some (mapGet k m) →
  x ∈ mapSet k v m ↔ x = (k, v) ∨ (x ∈ m ∧ x.1 ≠ k).
Proof.
  intros Hnd Hin. induction m as [|[k0 v0] m IH]; simpl in *.
  - by destruct Hin.
  - apply NoDup_cons in Hnd as [Hk0 Hnd].
    destruct (decide (k0 = k)) as [->|Hne].
    + rewrite !elem_of_cons. split.
      * intros [->|Hx]; [by left|]. right. split; [by right|].
        intros Hk. apply Hk0. rewrite <- Hk. apply list_elem_of_fmap. by exists x.
      * intros [->|[[->|Hx] Hk]]; [by left|done|by right].
    + rewrite !elem_of_cons, IH by done. split.
      * intros [->|[->|[Hx Hk]]]; [right; split; [by left|done]|by left|].
        right. split; [by right|done].
      * intros [->|[[->|Hx] Hk]]; [right; by left|by left|]. right. right. done.
Qed.

(** [selectNation] does not look at the phase of the game.  A seated
    socket that names a nation of the catalog which no other seat holds
    is given the nation and the full roster of the catalog; when every
    other seat has a nation, which is so for a socket alone in its room,
    the phase becomes [placement], whatever it was: in the battle phase
    the game goes back to placement with the board, the turn counters
    and the outcome as they are. *)
Theorem selectNation_has_no_phase (r : GameRoom) (sid : SocketId) (p : Player)
    (key : string) (nation : Nation) :
  NoDup (players r).*1 →
  mapGet sid (players r) = Some p →
  socket_id p = sid →
  nations key = Some nation →
  otherSeats r sid (fun q => playerNation q ≠ Some key ∧ playerNation q ≠ None) →
  ∃ r' evs,
    selectNation r sid key = Ret (r', evs, true)
    ∧ mapGet sid (players r') = Some (set_playerNation (Some key) p)
    ∧ (∀ sid', sid' ≠ sid → mapGet sid' (players r') = mapGet sid' (players r))
    ∧ gameState r'
      = set_gamePhase "placement" (chosen (gameState r) (playerNumber p) key nation).
Proof.
  intros Hnd Hget Hsid Hnation Hothers. unfold selectNation. rewrite Hget.
  rewrite bool_decide_eq_false_2.
  2:{ intros Hheld. apply Exists_exists in Hheld as (q & Hq & Hkey & Hdiff).
      apply list_elem_of_fmap in Hq as ([k q'] & -> & Hin). simpl in *.
      destruct (decide (k = sid)) as [->|Hk].
      - assert (q' = p) as ->; [|done].
        clear -Hnd Hget Hin. induction (players r) as [|[k0 v0] m IH]; simpl in *.
        + by apply not_elem_of_nil in Hin.
        + apply NoDup_cons in Hnd as [Hk0 Hnd].
          destruct (decide (k0 = sid)) as [->|Hne].
          * apply elem_of_cons in Hin as [[= ->]|Hin]; [congruence|].
            destruct Hk0. apply list_elem_of_fmap. by exists (sid, q').
          * apply elem_of_cons in Hin as [[= -> ->]|Hin]; [done|]. by apply IH.
      - by destruct (Hothers k q' Hin Hk). }
  unfold nationRoster. rewrite Hnation. simpl.
  rewrite bool_decide_eq_true_2.
  2:{ apply Forall_fmap, Forall_forall. intros [k q] Hin. simpl.
      apply elem_of_mapSet in Hin; [|done|by eexists].
      destruct Hin as [[= -> ->]|[Hin Hk]]; [done|].
      simpl in Hk. by destruct (Hothers k q Hin Hk). }
  do 2 eexists. split; [done|]. simpl. split; [apply mapGet_mapSet_eq|].
  split; [intros sid' Hne; by apply mapGet_mapSet_ne|].
  unfold chosen, update. simpl. by destruct (bool_decide (playerNumber p = 1)).
Qed.

Lemma selectNation_has_no_phase_witness :
  ∃ r' evs,
    selectNation warRoom "a" "english" = Ret (r', evs, true)
    ∧ gamePhase (gameState warRoom) = "battle"
    ∧ gamePhase (gameState r') = "placement"
    ∧ placementTurn (gameState r') = 3
    ∧ player1Pieces (gameState r') !! "Cavalry" = Some (Int 2).
Proof.
  destruct (selectNation_has_no_phase warRoom "a"
              (mkPlayer "a" 1 "Ann" (Some "english")) "english"
              (mkNation "English"
                 (list_to_map [("General", Int 1); ("Cavalry", Int 2);
                               ("Heavy Infantry", Int 2); ("Light Infantry", Int 2);
                               ("Archer", Int 1)])
                 (mkAbilities (Some 1) true false None false false false)))
    as (r' & evs & Hsel & _ & _ & Hstate).
  - simpl. apply NoDup_cons.
    split; [by intros [=]%list_elem_of_singleton|apply NoDup_singleton].
  - reflexivity.
  - reflexivity.
  - reflexivity.
  - intros k q Hin Hk. simpl in Hin.
    apply elem_of_cons in Hin as [[= -> ->]|Hin]; [done|].
    apply list_elem_of_singleton in Hin as [= -> ->]. done.
  - exists r', evs. split; [exact Hsel|]. rewrite Hstate. by vm_compute.
Defined.

End Nations.

(** ** Seats and placement of the Ancient Empires server *)

Section EmpiresPlacement.
Import Empires.

(** When one of two seated sockets leaves, the game is reset and the
    socket that stays becomes player 1 without a nation: board and
    rosters are empty and the phase is [waiting].  The next socket to
    join is player 2 and the phase becomes [nation-selection]. *)
Theorem empires_leave_then_join (r : GameRoom) (sid stay new : SocketId)
    (leaver p : Player) (newName : string) :
  mapGet sid (players r) = Some leaver →
  mapDelete sid (players r) = [(stay, p)] →
  socket_id p = stay →
  new ≠ stay →
  let r1 := (removePlayer r sid).1.1 in
  let r2 := (addPlayer r1 new newName).1.1 in
  (removePlayer r sid).2 = false
  ∧ players r1 = [(stay, mkPlayer stay 1 (name p) None)]
  ∧ gameState r1 = initializeGameState
  ∧ players r2 = [(stay, mkPlayer stay 1 (name p) None);
                  (new, mkPlayer new 2 newName None)]
  ∧ gameState r2 = set_gamePhase "nation-selection" initializeGameState.
Proof.
  intros Hget Hdel Hp Hne. unfold removePlayer. rewrite Hget, Hdel. simpl.
  unfold addPlayer. simpl.
  rewrite !(decide_False (P := stay = new)) by congruence.
  unfold set_playerNation, set_playerNumber. simpl. rewrite Hp. done.
Qed.

Lemma empires_leave_then_join_witness :
  let r1 := (removePlayer warRoom "a").1.1 in
  let r2 := (addPlayer r1 "c" "Cid").1.1 in
  (removePlayer warRoom "a").2 = false
  ∧ players r1 = [("b", mkPlayer "b" 1 "Bob" None)]
  ∧ gameState r1 = initializeGameState
  ∧ players r2 = [("b", mkPlayer "b" 1 "Bob" None); ("c", mkPlayer "c" 2 "Cid" None)]
  ∧ gameState r2 = set_gamePhase "nation-selection" initializeGameState.
Proof.
  apply (empires_leave_then_join warRoom "a" "b" "c"
           (mkPlayer "a" 1 "Ann" (Some "english"))
           (mkPlayer "b" 2 "Bob" (Some "spartans")) "Cid");
    first [reflexivity | done].
Defined.

(** In the first placement round both handlers use the quota 4: an end
    of turn from the active seat is refused exactly when the seat has
    not placed 4 pieces, an accepted one resets the counter, and no piece
    is placed once 4 are down, whatever the selected type. *)
Theorem empires_round_one_quota (r : GameRoom) (who : Player) :
  isPlayerTurn r (socket_id who) = true →
  gamePhase (gameState r) = "placement" →
  placementTurn (gameState r) = 1 →
  (piecesPlacedThisTurn (gameState r) ≠ 4 →
   handleEndTurn r who
   = Ret (r, [GameMessage "You must place exactly 4 pieces before ending your turn!"
                "error"]))
  ∧ (piecesPlacedThisTurn (gameState r) = 4 →
     ∃ r' evs, handleEndTurn r who = Ret (r', evs)
               ∧ Forall (fun e => isError e = false) evs
               ∧ piecesPlacedThisTurn (gameState r') = 0
               ∧ currentPlayer (gameState r')
                 = if bool_decide (currentPlayer (gameState r) = 1) then 2 else 1)
  ∧ (4 ≤ piecesPlacedThisTurn (gameState r) →
     ∀ pieceType row col,
       selectedPieceType (gameState r) = Some pieceType → pieceType ≠ "" →
       handlePlacePiece r who row col
       = Ret (r, [GameMessage "You can only place 4 pieces this turn!" "error"])).
Proof.
  intros Hturn Hphase Hround. split; [|split].
  - intros Hne. unfold handleEndTurn, endTurnQuota.
    rewrite Hturn, Hphase, Hround. simpl.
    rewrite (bool_decide_eq_false_2 (piecesPlacedThisTurn _ = 4)) by done.
    simpl. do 4 f_equal.
  - intros Hfour. unfold handleEndTurn, endTurnQuota.
    rewrite Hturn, Hphase, Hround, Hfour. simpl. rewrite !Hphase, ?Hround. simpl.
    destruct (bool_decide (currentPlayer (gameState r) = 1)); simpl.
    + do 2 eexists. split; [done|]. split; [by repeat constructor|]. done.
    + do 2 eexists. split; [done|]. split; [by repeat constructor|]. done.
  - intros Hfull pieceType row col Hsel Hty. unfold handlePlacePiece.
    rewrite Hturn, Hphase, Hsel, Hround. simpl.
    destruct pieceType as [|c s]; [done|].
    rewrite bool_decide_eq_true_2 by done. simpl. do 4 f_equal.
Qed.

Lemma empires_round_one_quota_witness :
  handleEndTurn recruitRoom (mkPlayer "a" 1 "Ann" (Some "english"))
  = Ret (recruitRoom,
         [GameMessage "You must place exactly 4 pieces before ending your turn!" "error"]).
Proof.
  apply (empires_round_one_quota recruitRoom (mkPlayer "a" 1 "Ann" (Some "english")));
    first [reflexivity | done].
Defined.

Lemma numAdd_swap (y z1 z2 : Num) :
  numAdd (numAdd y z2) z1 = numAdd (numAdd y z1) z2.
Proof. destruct y, z1, z2; simpl; try done. f_equal. lia. Qed.

Lemma rosterTotal_NaN (roster : gmap string Num) (t : string) :
  roster !! t = Some NaN → rosterTotal roster = NaN.
Proof.
  intros Ht. rewrite <- (insert_id roster t NaN Ht), <- insert_delete_eq.
  unfold rosterTotal. rewrite map_fold_insert_L.
  - by destruct (map_fold _ _ _).
  - intros. apply numAdd_swap.
  - apply lookup_delete_eq.
Qed.

Lemma deployment_rows (seat row : Z) :
  deployment seat row
  ↔ row ∈ (if bool_decide (seat = 1) then [0; 1; 2] else [4; 5; 6]).
Proof.
  unfold deployment. destruct (bool_decide (seat = 1));
    rewrite !elem_of_cons, elem_of_nil; lia.
Qed.

(** [handlePlacePiece] once the turn, the phase and the selected type
    have been checked. *)
Lemma handlePlacePiece_selected (r : GameRoom) (who : Player) (pieceType : string)
    (row col : Z) :
  isPlayerTurn r (socket_id who) = true →
  gamePhase (gameState r) = "placement" →
  selectedPieceType (gameState r) = Some pieceType →
  pieceType ≠ "" →
  handlePlacePiece r who row col
  = let gs := gameState r in
    let first := bool_decide (playerNumber who = 1) in
    let pieces := if first then player1Pieces gs else player2Pieces gs in
    let requiredPieces :=
      if bool_decide (placementTurn gs = 1) then Int 4 else rosterTotal pieces in
    if geNum (piecesPlacedThisTurn gs) requiredPieces
    then Ret (r, [GameMessage ("You can only place " +:+ showNum requiredPieces
                               +:+ " pieces this turn!") "error"])
    else
      cell ← readCell size (board gs) row col;
      if bool_decide (is_Some cell)
      then Ret (r, [GameMessage "Cell is already occupied!" "error"])
      else
        let validRows := if first then [0; 1; 2] else [4; 5; 6] in
        if negb (bool_decide (row ∈ validRows))
        then Ret (r, [GameMessage
                        ("Player " +:+ pretty (playerNumber who)
                         +:+ " can only place pieces in their deployment zone!")
                        "error"])
        else if bool_decide (pieces !! pieceType = Some (Int 0))
        then Ret (r, [GameMessage "No more pieces of this type available!" "error"])
        else
          pieceData ← createPieceData pieceType (playerNumber who)
                        (playerNation who) (placementTurn gs);
          b ← writeCell size (board gs) row col (Some pieceData);
          let pieces' := assign pieceType (decrement (pieces !! pieceType)) pieces in
          let gs1 := set_board b gs in
          let gs2 := if first then set_player1Pieces pieces' gs1
                     else set_player2Pieces pieces' gs1 in
          let gs3 := set_piecesPlacedThisTurn (piecesPlacedThisTurn gs + 1) gs2 in
          Ret (set_gameState (set_selectedPieceType None gs3) r, [GameStateUpdate]).
Proof.
  intros Hturn Hphase Hsel Hname. unfold handlePlacePiece.
  rewrite Hturn, Hphase, Hsel. by destruct pieceType.
Qed.

(** A seat places pieces of every type of the piece catalog, also of a
    type that the roster of its nation does not list (a Horse Archer for
    the English): the roster check only refuses an entry that is exactly
    0.  The entry of the unlisted type becomes [NaN], and so does the sum
    of the roster, which is the quota of the second round: no number of
    placed pieces reaches it. *)
Theorem unlisted_type_is_placed (r : GameRoom) (who : Player) (pieceType : string)
    (row col h : Z) (a : option Z) :
  let gs := gameState r in
  isPlayerTurn r (socket_id who) = true →
  gamePhase gs = "placement" →
  placementTurn gs = 1 →
  piecesPlacedThisTurn gs < 4 →
  selectedPieceType gs = Some pieceType →
  pieceTypes pieceType = Some (h, a) →
  empireRoster gs (playerNumber who) !! pieceType = None →
  deployment (playerNumber who) row →
  board gs !! (row, col) = None →
  ∃ r' piece,
    handlePlacePiece r who row col = Ret (r', [GameStateUpdate])
    ∧ board (gameState r') !! (row, col) = Some piece
    ∧ type piece = pieceType ∧ player piece = playerNumber who ∧ health piece = Some (Int h)
    ∧ empireRoster (gameState r') (playerNumber who) !! pieceType = Some NaN
    ∧ ∀ n, geNum n (rosterTotal (empireRoster (gameState r') (playerNumber who)))
           = false.
Proof.
  intros gs Hturn Hphase Hround Hquota Hsel Hty Hroster Hzone Hempty.
  assert (Hrow : 0 ≤ row < 7).
  { unfold deployment in Hzone. destruct (bool_decide _); lia. }
  apply deployment_rows in Hzone.
  assert (Hname : pieceType ≠ "") by (by intros ->).
  rewrite (handlePlacePiece_selected r who pieceType) by done. fold gs.
  unfold empireRoster in *. rewrite Hround. simpl.
  rewrite bool_decide_eq_false_2 by lia.
  rewrite readCell_size by done. simpl. rewrite Hempty.
  rewrite bool_decide_eq_false_2 by (by intros [? ?]).
  rewrite (bool_decide_eq_true_2 (row ∈ _)) by done. simpl.
  rewrite Hroster. rewrite bool_decide_eq_false_2 by done.
  destruct (Empires_typeStats_own _ _ _ Hty) as [Hstats Hown].
  unfold createPieceData. rewrite Hstats. simpl.
  rewrite (writeCell_rows size) by done. simpl. rewrite assign_own by done.
  destruct (bool_decide (playerNumber who = 1)); simpl.
  - do 2 eexists. split; [done|]. simpl. rewrite !lookup_insert_eq.
    repeat (split; [done|]). intros n.
    by rewrite (rosterTotal_NaN _ pieceType) by apply lookup_insert_eq.
  - do 2 eexists. split; [done|]. simpl. rewrite !lookup_insert_eq.
    repeat (split; [done|]). intros n.
    by rewrite (rosterTotal_NaN _ pieceType) by apply lookup_insert_eq.
Qed.

Lemma unlisted_type_is_placed_witness :
  ∃ r' piece,
    handlePlacePiece recruitRoom (mkPlayer "a" 1 "Ann" (Some "english")) 0 0
    = Ret (r', [GameStateUpdate])
    ∧ board (gameState r') !! (0, 0) = Some piece
    ∧ type piece = "Horse Archer" ∧ player piece = 1 ∧ health piece = Some (Int 2)
    ∧ empireRoster (gameState r') 1 !! "Horse Archer" = Some NaN
    ∧ ∀ n, geNum n (rosterTotal (empireRoster (gameState r') 1)) = false.
Proof.
  apply (unlisted_type_is_placed recruitRoom (mkPlayer "a" 1 "Ann" (Some "english"))
           "Horse Archer" 0 0 2 (Some 2));
    first [reflexivity | done | by vm_compute].
Defined.

(** [handlePlacePiece] changes a room only by placing a piece of the
    selected type on an empty cell of the deployment zone of the active
    seat, in the placement phase; the piece carries the nation of the
    seat and the number of the placement round.  The selection is used
    up: the selected type is reset, and every further [placePiece] is
    without effect until a piece type is selected again. *)
Theorem empires_placement_uses_selection (r : GameRoom) (who : Player)
    (row col : Z) (r' : GameRoom) (evs : list Event) :
  handlePlacePiece r who row col = Ret (r', evs) →
  r' ≠ r →
  let gs := gameState r in
  isPlayerTurn r (socket_id who) = true
  ∧ gamePhase gs = "placement"
  ∧ deployment (playerNumber who) row
  ∧ board gs !! (row, col) = None
  ∧ (∃ pieceType piece,
       selectedPieceType gs = Some pieceType
       ∧ createPieceData pieceType (playerNumber who) (playerNation who)
           (placementTurn gs) = Ret piece
       ∧ board (gameState r') = <[(row, col) := piece]> (board gs))
  ∧ selectedPieceType (gameState r') = None
  ∧ ∀ who' row' col',
      ∃ evs', handlePlacePiece r' who' row' col' = Ret (r', evs')
              ∧ (evs' = []
                 ∨ evs' = [GameMessage "Select a piece type first!" "error"]).
Proof.
  intros Hplace Hchanged gs.
  destruct (isPlayerTurn r (socket_id who)) eqn:Hturn;
    [|unfold handlePlacePiece in Hplace; rewrite Hturn in Hplace;
      simpl in Hplace; by simplify_eq].
  destruct (String.eqb_spec (gamePhase gs) "placement") as [Hphase|Hphase].
  2:{ unfold handlePlacePiece in Hplace. fold gs in Hplace.
      rewrite Hturn in Hplace. simpl in Hplace.
      destruct (String.eqb_spec (gamePhase gs) "placement"); [done|].
      simpl in Hplace. by simplify_eq. }
  destruct (selectedPieceType gs) as [pieceType|] eqn:Hsel.
  2:{ unfold handlePlacePiece in Hplace. fold gs in Hplace.
      rewrite Hturn, Hphase, Hsel in Hplace. simpl in Hplace. by simplify_eq. }
  destruct (decide (pieceType = "")) as [->|Hname].
  { unfold handlePlacePiece in Hplace. fold gs in Hplace.
    rewrite Hturn, Hphase, Hsel in Hplace. simpl in Hplace. by simplify_eq. }
  rewrite (handlePlacePiece_selected r who pieceType) in Hplace by done.
  fold gs in Hplace. simpl in Hplace.
  destruct (geNum _ _); [by simplify_eq|].
  destruct (readCell size (board gs) row col) as [cell|] eqn:Hread; [|done].
  apply readCell_Ret in Hread as [-> Hrow]. simpl in Hplace.
  case_bool_decide as Hcell; [by simplify_eq|].
  case_bool_decide as Hzone; simpl in Hplace; [|by simplify_eq].
  destruct (bool_decide (_ = Some (Int 0))); [by simplify_eq|].
  destruct (createPieceData _ _ _ _) as [piece|] eqn:Hpiece; [|done].
  simpl in Hplace. rewrite (writeCell_rows size) in Hplace by done.
  simpl in Hplace. injection Hplace as <- <-.
  split; [done|]. split; [done|]. split; [by apply deployment_rows|].
  split. { destruct (board gs !! (row, col)) eqn:H; [|done]. destruct Hcell. by eexists. }
  split.
  { exists pieceType, piece. split; [done|]. split; [done|].
    by destruct (bool_decide (playerNumber who = 1)). }
  split; [by destruct (bool_decide (playerNumber who = 1))|].
  intros who' row' col'. unfold handlePlacePiece.
  destruct (negb _ || negb _); [by eexists; split; [|left]|].
  simpl. destruct (bool_decide (playerNumber who = 1)); simpl;
    by eexists; split; [|right].
Qed.

Lemma empires_placement_uses_selection_witness :
  let gs := gameState recruitRoom in
  isPlayerTurn recruitRoom "a" = true
  ∧ gamePhase gs = "placement"
  ∧ deployment 1 0
  ∧ board gs !! (0, 0) = None
  ∧ (∃ pieceType piece,
       selectedPieceType gs = Some pieceType
       ∧ createPieceData pieceType 1 (Some "english") (placementTurn gs) = Ret piece
       ∧ board (gameState recruited.1) = <[(0, 0) := piece]> (board gs))
  ∧ selectedPieceType (gameState recruited.1) = None
  ∧ ∀ who' row' col',
      ∃ evs', handlePlacePiece recruited.1 who' row' col' = Ret (recruited.1, evs')
              ∧ (evs' = []
                 ∨ evs' = [GameMessage "Select a piece type first!" "error"]).
Proof.
  apply (empires_placement_uses_selection recruitRoom
           (mkPlayer "a" 1 "Ann" (Some "english")) 0 0 recruited.1 recruited.2).
  - by vm_compute.
  - intros Hsame.
    apply (f_equal (fun r => piecesPlacedThisTurn (gameState r))) in Hsame.
    by vm_compute in Hsame.
Defined.

End EmpiresPlacement.

(** ** Ranged attacks of the Ancient Empires server *)

Section EmpiresRules.
Import Empires.

Lemma getArcherRange_reach (piece : Piece) :
  is_Some (nation piece ≫= nations) →
  getArcherRange piece = Ret (archerReach piece).
Proof.
  unfold getArcherRange, archerReach. intros [nat Hnat].
  destruct (nation piece) as [key|]; [|done]. simpl in *.
  unfold nations in *.
  destruct (String.eqb_spec key "english") as [Hen|Hen].
  { subst key. by injection Hnat as <-. }
  rewrite (bool_decide_eq_false_2 (Some key = _)) by congruence.
  destruct (String.eqb key "mongols"); [by injection Hnat as <-|].
  destruct (String.eqb key "macedonians"); [by injection Hnat as <-|].
  destruct (String.eqb key "spartans"); [by injection Hnat as <-|].
  done.
Qed.

(** Inside the board, against a piece of another seat, [canAttack]
    allows exactly the attacks on an adjacent cell and the shots along a
    row or a column of a piece with ammunition: an archer up to four
    cells, an English archer up to five, a Horse Archer up to four.  The
    nation of the attacker must be one of the catalog. *)
Theorem empires_attack_reach (gs : GameState) (piece target : Piece)
    (fromRow fromCol toRow toCol : Z) :
  0 ≤ toRow < 7 → 0 ≤ toCol < 7 →
  board gs !! (toRow, toCol) = Some target →
  player target ≠ player piece →
  is_Some (nation piece ≫= nations) →
  let d := distance fromRow fromCol toRow toCol in
  ∃ ok,
    canAttack piece fromRow fromCol toRow toCol gs = Ret ok
    ∧ (ok = true ↔
       d = 1 ∨ (hasAmmo piece = true
                ∧ (fromRow = toRow ∨ fromCol = toCol)
                ∧ shoots piece d)).
Proof.
  intros Hrow Hcol Htarget Hfoe Hnation d. unfold canAttack, outOfBounds.
  rewrite !(bool_decide_eq_false_2 (_ < 0)) by lia.
  rewrite !(bool_decide_eq_false_2 (7 ≤ _)) by lia. simpl.
  rewrite readCell_size by done. simpl. rewrite Htarget.
  rewrite bool_decide_eq_false_2 by done. fold d.
  case_bool_decide as Hd; [eexists; split; [done|]; by split; [left|]|].
  rewrite getArcherRange_reach by done. unfold shoots.
  set (straight := bool_decide (fromRow = toRow) || bool_decide (fromCol = toCol)).
  assert (Hstraight : straight = true ↔ fromRow = toRow ∨ fromCol = toCol).
  { unfold straight. rewrite orb_true_iff, !bool_decide_eq_true. done. }
  destruct (String.eqb_spec (type piece) "Archer") as [Harcher|Harcher];
    destruct (hasAmmo piece) eqn:Hammo; simpl.
  - destruct straight eqn:Hs; simpl.
    + case_bool_decide as Hreach; simpl.
      * eexists. split; [done|]. split; [|done]. intros _. right.
        split; [done|]. split; [by apply Hstraight|]. by left.
      * rewrite Harcher. simpl. eexists. split; [done|]. split; [done|].
        intros [?|(_ & _ & [[_ ?]|[? _]])]; done.
    + rewrite Harcher. simpl. eexists. split; [done|]. split; [done|].
      intros [?|(_ & Hline & _)]; [done|]. apply Hstraight in Hline. done.
  - rewrite Harcher. simpl. eexists. split; [done|]. split; [done|].
    intros [?|(? & _)]; done.
  - destruct (String.eqb_spec (type piece) "Horse Archer") as [Hhorse|Hhorse]; simpl.
    + destruct straight eqn:Hs; simpl.
      * case_bool_decide as Hreach; simpl.
        -- eexists. split; [done|]. split; [|done]. intros _. right.
           split; [done|]. split; [by apply Hstraight|]. by right.
        -- eexists. split; [done|]. split; [done|].
           intros [?|(_ & _ & [[? _]|[_ ?]])]; done.
      * eexists. split; [done|]. split; [done|].
        intros [?|(_ & Hline & _)]; [done|]. apply Hstraight in Hline. done.
    + eexists. split; [done|]. split; [done|].
      intros [?|(_ & _ & [[? _]|[? _]])]; done.
  - destruct (String.eqb (type piece) "Horse Archer"); simpl;
      eexists; (split; [done|]); (split; [done|]);
      intros [?|(? & _)]; done.
Qed.

Lemma empires_attack_reach_witness :
  ∃ ok,
    canAttack (mkPiece "Archer" 1 (Some (Int 2)) (Some (Int 2)) false
                 (Some (Int 3)) None (Some "english") (Some 1))
      2 0 2 4 (gameState volleyRoom) = Ret ok
    ∧ (ok = true ↔
       distance 2 0 2 4 = 1
       ∨ (hasAmmo (mkPiece "Archer" 1 (Some (Int 2)) (Some (Int 2)) false
                     (Some (Int 3)) None (Some "english") (Some 1))
          = true
          ∧ (2 = 2 ∨ 0 = 4)
          ∧ shoots (mkPiece "Archer" 1 (Some (Int 2)) (Some (Int 2)) false
                      (Some (Int 3)) None (Some "english") (Some 1))
              (distance 2 0 2 4))).
Proof.
  apply (empires_attack_reach (gameState volleyRoom)
           (mkPiece "Archer" 1 (Some (Int 2)) (Some (Int 2)) false
              (Some (Int 3)) None (Some "english") (Some 1))
           (mkPiece "Cavalry" 2 (Some (Int 1)) (Some (Int 2)) false
              None None (Some "spartans") (Some 1))
           2 0 2 4);
    first [lia | reflexivity | done | by eexists].
Defined.

Lemma shouldConsumeAmmo_archer (archer target : Piece) (d : Z) :
  type archer = "Archer" →
  shouldConsumeAmmo archer target d = negb (keepsArrow archer target d).
Proof.
  intros Hty. unfold shouldConsumeAmmo, keepsArrow. rewrite Hty. simpl.
  assert (Hd : bool_decide (1 < d) = negb (bool_decide (d ≤ 1))).
  { repeat case_bool_decide; simpl; first [done | lia]. }
  destruct (bool_decide (nation archer = Some "english")); simpl.
  - destruct (atMost (health target) 1); simpl.
    + by rewrite orb_true_r.
    + by rewrite orb_false_r.
  - by rewrite orb_false_r.
Qed.

Lemma spent_attacker (consume : bool) (cell : Z * Z) (b : Board) (archer : Piece)
    (a : Z) :
  b !! cell = Some archer →
  ammo archer = Some (Int a) →
  spent consume cell b !! cell
  = Some (set_ammo (Some (Int (if consume then a - 1 else a))) archer).
Proof.
  intros Hcell Hammo. unfold spent. destruct consume.
  - rewrite lookup_alter_eq, Hcell. simpl. by rewrite Hammo.
  - rewrite Hcell. f_equal. destruct archer. simpl in *. by subst.
Qed.

(** An attack by an archer costs one arrow when the target is more than
    one step away, with one exception: an English archer keeps the arrow
    when the target has one health point or less before the shot.  The
    archer stays on its cell and nothing else about it changes. *)
Theorem english_archers_save_arrows (r : GameRoom) (archer target : Piece)
    (attackerRow attackerCol targetRow targetCol a : Z) :
  let gs := gameState r in
  let d := distance attackerRow attackerCol targetRow targetCol in
  gameEnded gs = false →
  0 ≤ attackerRow < 7 → 0 ≤ targetRow < 7 →
  board gs !! (attackerRow, attackerCol) = Some archer →
  type archer = "Archer" →
  ammo archer = Some (Int a) →
  board gs !! (targetRow, targetCol) = Some target →
  (attackerRow, attackerCol) ≠ (targetRow, targetCol) →
  ∃ r' evs,
    attackPiece r attackerRow attackerCol targetRow targetCol = Ret (r', evs)
    ∧ board (gameState r') !! (attackerRow, attackerCol)
      = Some (set_ammo (Some (Int (if keepsArrow archer target d then a else a - 1)))
                archer).
Proof.
  intros gs d Hlive Har Htr Harcher Hty Hammo Htarget Hne.
  destruct (attackPiece_live r archer target attackerRow attackerCol targetRow targetCol)
    as [evs Hatt]; try done.
  rewrite Hty in Hatt. simpl in Hatt. fold gs d in Hatt.
  rewrite Hatt. do 2 eexists. split; [reflexivity|].
  clear Hatt.
  assert (Hspent : spent (shouldConsumeAmmo archer target d) (attackerRow, attackerCol)
                     (board gs) !! (attackerRow, attackerCol)
                   = Some (set_ammo (Some (Int (if keepsArrow archer target d
                                                then a else a - 1))) archer)).
  { rewrite shouldConsumeAmmo_archer by done.
    rewrite (spent_attacker _ _ _ archer a) by done.
    by destruct (keepsArrow archer target d). }
  simpl. destruct (atMost _ 0);
    [destruct (String.eqb (type target) "General")|];
    simpl; rewrite ?lookup_delete_ne, lookup_insert_ne by done; exact Hspent.
Qed.

Lemma english_archers_save_arrows_witness :
  ∃ r' evs,
    attackPiece volleyRoom 2 0 2 4 = Ret (r', evs)
    ∧ board (gameState r') !! (2, 0)
      = Some (set_ammo (Some (Int 3))
                (mkPiece "Archer" 1 (Some (Int 2)) (Some (Int 2)) false
                   (Some (Int 3)) None (Some "english") (Some 1))).
Proof.
  apply (english_archers_save_arrows volleyRoom
           (mkPiece "Archer" 1 (Some (Int 2)) (Some (Int 2)) false
              (Some (Int 3)) None (Some "english") (Some 1))
           (mkPiece "Cavalry" 2 (Some (Int 1)) (Some (Int 2)) false
              None None (Some "spartans") (Some 1))
           2 0 2 4 3);
    first [lia | reflexivity | done].
Defined.

End EmpiresRules.

(** ** Ruleset options *)

Section ToggleTwice.

(** Toggling a ruleset option twice restores the room: in the phases in
    which the options can be changed, two [toggleOption] intents with
    the same option, from whatever sockets, leave the room exactly as it
    was before the first.  This holds in the 6x7 server and in the
    server with board size options. *)
Theorem toggle_twice_restores :
  (∀ (r : Basic.GameRoom) (who who' : Player) (option : string),
     toggleable (Basic.gamePhase (Basic.gameState r)) →
     ∃ r1 evs1 evs2,
       Basic.handleToggleOption r who option = Ret (r1, evs1)
       ∧ Basic.handleToggleOption r1 who' option = Ret (r, evs2))
  ∧ (∀ (r : Sized.GameRoom) (who who' : Player) (option : string),
       toggleable (Sized.gamePhase (Sized.gameState r)) →
       ∃ r1 evs1 evs2,
         Sized.handleToggleOption r who option = Ret (r1, evs1)
         ∧ Sized.handleToggleOption r1 who' option = Ret (r, evs2)).
Proof.
  split.
  - intros [id ps gs sp] who who' option Hphase. destruct gs. simpl in Hphase.
    unfold Basic.handleToggleOption.
    destruct Hphase as [Hphase|Hphase]; subst; simpl;
      (destruct (String.eqb option "lineOfSight");
       [|destruct (String.eqb option "limitedRange")]);
      simpl; do 3 eexists; (split; [reflexivity|]); simpl;
      rewrite ?negb_involutive; reflexivity.
  - intros [id size ps gs sp] who who' option Hphase. destruct gs. simpl in Hphase.
    unfold Sized.handleToggleOption.
    destruct Hphase as [Hphase|Hphase]; subst; simpl;
      (destruct (String.eqb option "lineOfSight");
       [|destruct (String.eqb option "limitedRange")]);
      simpl; do 3 eexists; (split; [reflexivity|]); simpl;
      rewrite ?negb_involutive; reflexivity.
Qed.

End ToggleTwice.
